(** * fedora_install_package.py: a shallow embedding

    The script [src/httpd/docker/fedora_install_package.py] installs a given
    version of a package (and, for kernels, the matching [-devel] package)
    with three strategies tried in order, and validates the result against a
    build id.

    Python strings are modelled as byte strings ([string] of [ascii]), which
    is what a Python 2 [str] is and what a Python 3 [str] is on ASCII input.
    The operating system, the external commands and the parts of the [re]
    library that the source reaches only through a pattern supplied on the
    command line are an interface ([Host]); everything the script itself
    does is a definition. *)

From Stdlib Require Import String Ascii List ZArith Bool Lia Arith.
Import ListNotations.
Open Scope string_scope.
Open Scope Z_scope.

(** ** Python string operations used by the script *)

Module PyStr.

(** [s[n:]] *)
Fixpoint drop (n : nat) (s : string) : string :=
  match n, s with
  | O, _ => s
  | S _, EmptyString => EmptyString
  | S n', String _ s' => drop n' s'
  end.

(** [s[:n]] *)
Fixpoint take (n : nat) (s : string) : string :=
  match n, s with
  | O, _ => EmptyString
  | S _, EmptyString => EmptyString
  | S n', String c s' => String c (take n' s')
  end.

(** [s.startswith(p)] *)
Definition startswith (p s : string) : bool := String.prefix p s.

(** [s.endswith(c)] for a one-character suffix. *)
Fixpoint endswith_char (c : ascii) (s : string) : bool :=
  match s with
  | EmptyString => false
  | String d EmptyString => Ascii.eqb c d
  | String _ s' => endswith_char c s'
  end.

(** [c in s] *)
Fixpoint mem_char (c : ascii) (s : string) : bool :=
  match s with
  | EmptyString => false
  | String d s' => Ascii.eqb c d || mem_char c s'
  end.

(** [s.index(c)]: position of the first occurrence, [None] for ValueError. *)
Fixpoint index_char (c : ascii) (s : string) : option nat :=
  match s with
  | EmptyString => None
  | String d s' =>
      if Ascii.eqb c d then Some O
      else match index_char c s' with
           | Some i => Some (S i)
           | None => None
           end
  end.

(** [s.split(sep)] for a one-character separator: never the empty list. *)
Fixpoint split (sep : ascii) (s : string) : list string :=
  match s with
  | EmptyString => [EmptyString]
  | String c s' =>
      if Ascii.eqb c sep then EmptyString :: split sep s'
      else match split sep s' with
           | [] => [String c EmptyString]
           | w :: ws => String c w :: ws
           end
  end.

Definition is_upper (c : ascii) : bool :=
  let n := nat_of_ascii c in (65 <=? n)%nat && (n <=? 90)%nat.
Definition is_lower (c : ascii) : bool :=
  let n := nat_of_ascii c in (97 <=? n)%nat && (n <=? 122)%nat.
Definition is_digit (c : ascii) : bool :=
  let n := nat_of_ascii c in (48 <=? n)%nat && (n <=? 57)%nat.

(** The six ASCII whitespace characters that [strip()] removes. *)
Definition is_space (c : ascii) : bool :=
  let n := nat_of_ascii c in ((9 <=? n)%nat && (n <=? 13)%nat) || (n =? 32)%nat.

Definition lower_char (c : ascii) : ascii :=
  if is_upper c then ascii_of_nat (nat_of_ascii c + 32) else c.

(** [s.lower()] *)
Fixpoint lower (s : string) : string :=
  match s with
  | EmptyString => EmptyString
  | String c s' => String (lower_char c) (lower s')
  end.

Fixpoint lstrip (s : string) : string :=
  match s with
  | EmptyString => EmptyString
  | String c s' => if is_space c then lstrip s' else s
  end.

Fixpoint rstrip (s : string) : string :=
  match s with
  | EmptyString => EmptyString
  | String c s' =>
      match rstrip s' with
      | EmptyString => if is_space c then EmptyString else String c EmptyString
      | t => String c t
      end
  end.

(** [s.strip()] *)
Definition strip (s : string) : string := rstrip (lstrip s).

(** [not s]: the empty string is the only falsy string. *)
Definition falsy (s : string) : bool :=
  match s with EmptyString => true | _ => false end.

End PyStr.

(** ** [os.path] *)

Module OsPath.

Definition slash : ascii := "/"%char.

(** Text after the last [/] of [p], or all of [p] when it has none. *)
Fixpoint after_last_slash (p : string) : option string :=
  match p with
  | EmptyString => None
  | String c p' =>
      match after_last_slash p' with
      | Some t => Some t
      | None => if Ascii.eqb c slash then Some p' else None
      end
  end.

(** [os.path.basename(p)]: [p[p.rfind('/') + 1:]]. *)
Definition basename (p : string) : string :=
  match after_last_slash p with
  | Some t => t
  | None => p
  end.

(** [os.path.join(a, b)] of posixpath, for two arguments. *)
Definition join (a b : string) : string :=
  if PyStr.startswith "/" b then b
  else if PyStr.falsy a || PyStr.endswith_char slash a then a ++ b
  else a ++ "/" ++ b.

End OsPath.

(** ** The [re] library, for the patterns of the script *)

Module Re.

(** The syntax the two compiled patterns of the script use.  A quantifier is
    only ever applied to a character set ([\w+], [[^-]+]), so [PlusSet] is
    the greedy one-or-more of a set. *)
Inductive regex : Type :=
| Lit (c : ascii)
| CharSet (f : ascii -> bool)
| Bol
| Eol
| Cat (r1 r2 : regex)
| Group (n : nat) (r : regex)
| Opt (r : regex)
| PlusSet (f : ascii -> bool).

(** [\w] without the UNICODE or LOCALE flag: [[a-zA-Z0-9_]]. *)
Definition word (c : ascii) : bool :=
  PyStr.is_lower c || PyStr.is_upper c || PyStr.is_digit c || Ascii.eqb c "_"%char.

(** [[^-]] *)
Definition not_hyphen (c : ascii) : bool := negb (Ascii.eqb c "-"%char).

(** Captured groups: group number, start and end offsets in the subject. *)
Definition captures : Type := list (nat * (nat * nat)).

Record match_object : Type := MatchObject {
  mo_string : string;
  mo_end : nat;
  mo_groups : captures
}.

(** Length of the longest prefix of [s] made of characters of [f]. *)
Fixpoint span (f : ascii -> bool) (s : string) : nat :=
  match s with
  | EmptyString => O
  | String c s' => if f c then S (span f s') else O
  end.

(** Greedy repetition: try to go on from [i + n], then [i + n - 1], ...,
    down to [i + 1]. *)
Fixpoint backtrack {A : Type} (k : nat -> option A) (i n : nat) : option A :=
  match n with
  | O => None
  | S n' =>
      match k (i + n)%nat with
      | Some x => Some x
      | None => backtrack k i n'
      end
  end.

(** [$] without MULTILINE: at the end of the subject, or just before a
    newline that is its last character. *)
Definition at_eol (s : string) (i : nat) : bool :=
  match PyStr.drop i s with
  | EmptyString => (i <=? String.length s)%nat
  | String c EmptyString => Ascii.eqb c "010"%char
  | _ => false
  end.

(** Backtracking matcher in continuation-passing style: [k] is what remains
    to be matched after [r], and is tried again at every choice point. *)
Fixpoint run {A : Type} (r : regex) (s : string) (i : nat) (cs : captures)
    (k : nat -> captures -> option A) : option A :=
  match r with
  | Lit c =>
      match String.get i s with
      | Some d => if Ascii.eqb c d then k (S i) cs else None
      | None => None
      end
  | CharSet f =>
      match String.get i s with
      | Some d => if f d then k (S i) cs else None
      | None => None
      end
  | Bol => if (i =? 0)%nat then k i cs else None
  | Eol => if at_eol s i then k i cs else None
  | Cat r1 r2 => run r1 s i cs (fun j cs' => run r2 s j cs' k)
  | Group n r' => run r' s i cs (fun j cs' => k j ((n, (i, j)) :: cs'))
  | Opt r' =>
      match run r' s i cs k with
      | Some x => Some x
      | None => k i cs
      end
  | PlusSet f => backtrack (fun j => k j cs) i (span f (PyStr.drop i s))
  end.

(** [pattern.match(s)]: anchored at offset 0, not at the end. *)
Definition match_ (r : regex) (s : string) : option match_object :=
  run r s O [] (fun j cs => Some (MatchObject s j cs)).

Fixpoint lookup (n : nat) (cs : captures) : option (nat * nat) :=
  match cs with
  | [] => None
  | (m, se) :: cs' => if (n =? m)%nat then Some se else lookup n cs'
  end.

(** [m.group(n)]: [None] when the group did not take part in the match. *)
Definition group (m : match_object) (n : nat) : option string :=
  match lookup n (mo_groups m) with
  | Some (b, e) => Some (String.substring b (e - b) (mo_string m))
  | None => None
  end.

(** A literal word as a pattern. *)
Fixpoint lits (w : string) (r : regex) : regex :=
  match w with
  | EmptyString => r
  | String c w' => Cat (Lit c) (lits w' r)
  end.

(** The characters that are not literals in a pattern (sre_parse's
    SPECIAL_CHARS). *)
Definition SPECIAL_CHARS : string := ".\[{()*+?^$|".

Fixpoint no_char_of (bad : string) (s : string) : bool :=
  match s with
  | EmptyString => true
  | String c s' => negb (PyStr.mem_char c bad) && no_char_of bad s'
  end.

(** A pattern that is a non-empty sequence of literal characters. *)
Definition literal_pattern (p : string) : bool :=
  negb (PyStr.falsy p) && no_char_of SPECIAL_CHARS p.

(** A replacement template without escapes. *)
Definition literal_template (repl : string) : bool := no_char_of "\" repl.

(** Replace every non-overlapping occurrence of the literal [p], scanning
    from the left; [skip] counts the characters of an occurrence just
    replaced that are still to be passed over. *)
Fixpoint sub_literal (p repl : string) (skip : nat) (s : string) : string :=
  match s with
  | EmptyString => EmptyString
  | String c s' =>
      match skip with
      | S n => sub_literal p repl n s'
      | O =>
          if String.prefix p s
          then repl ++ sub_literal p repl (String.length p - 1) s'
          else String c (sub_literal p repl O s')
      end
  end.

(** [re.sub(pattern, repl, s)].  The script calls it with a pattern taken
    from the command line.  A pattern of literal characters with a template
    without escapes is modelled here; any other call is answered by the
    library ([general]), [None] standing for [re.error]. *)
Definition sub (general : string -> string -> string -> option string)
    (pattern repl s : string) : option string :=
  if literal_pattern pattern && literal_template repl
  then Some (sub_literal pattern repl O s)
  else general pattern repl s.

End Re.

(** ** The [getopt] library *)

Module Getopt.

Inductive result (A : Type) : Type :=
| Ok (a : A)
| GetoptError (msg : string).
Arguments Ok {A} a.
Arguments GetoptError {A} msg.

Definition opt_list : Type := list (string * string).

Definition str1 (c : ascii) : string := String c EmptyString.

(** [short_has_arg(opt, shortopts)] *)
Fixpoint short_has_arg (opt : ascii) (shortopts : string) : result bool :=
  match shortopts with
  | EmptyString => GetoptError ("option -" ++ str1 opt ++ " not recognized")
  | String c rest =>
      if Ascii.eqb opt c && negb (Ascii.eqb c ":"%char)
      then Ok (PyStr.startswith ":" rest)
      else short_has_arg opt rest
  end.

(** [do_shorts(opts, optstring, shortopts, args)]: the options of one
    cluster, and whether the next argument was taken as a value. *)
Fixpoint do_shorts (optstring shortopts : string) (args : list string)
    : result (opt_list * bool) :=
  match optstring with
  | EmptyString => Ok ([], false)
  | String opt rest =>
      match short_has_arg opt shortopts with
      | GetoptError e => GetoptError e
      | Ok true =>
          match rest, args with
          | EmptyString, [] =>
              GetoptError ("option -" ++ str1 opt ++ " requires argument")
          | EmptyString, a :: _ => Ok ([("-" ++ str1 opt, a)], true)
          | _, _ => Ok ([("-" ++ str1 opt, rest)], false)
          end
      | Ok false =>
          match do_shorts rest shortopts args with
          | GetoptError e => GetoptError e
          | Ok (os, used) => Ok (("-" ++ str1 opt, "") :: os, used)
          end
      end
  end.

Definition mem_str (x : string) (l : list string) : bool :=
  existsb (String.eqb x) l.

(** [unique_match[:-1]] *)
Fixpoint drop_last (s : string) : string :=
  match s with
  | EmptyString => EmptyString
  | String _ EmptyString => EmptyString
  | String c s' => String c (drop_last s')
  end.

(** [long_has_args(opt, longopts)] *)
Definition long_has_args (opt : string) (longopts : list string)
    : result (bool * string) :=
  let possibilities := filter (PyStr.startswith opt) longopts in
  match possibilities with
  | [] => GetoptError ("option --" ++ opt ++ " not recognized")
  | unique_match :: others =>
      if mem_str opt possibilities then Ok (false, opt)
      else if mem_str (opt ++ "=") possibilities then Ok (true, opt)
      else
        match others with
        | _ :: _ => GetoptError ("option --" ++ opt ++ " not a unique prefix")
        | [] =>
            if PyStr.endswith_char "="%char unique_match
            then Ok (true, drop_last unique_match)
            else Ok (false, unique_match)
        end
  end.

(** [do_longs(opts, opt, longopts, args)]: the option parsed, and whether
    the next argument was taken as its value. *)
Definition do_longs (opt : string) (longopts : list string) (args : list string)
    : result (opt_list * bool) :=
  let '(opt, optarg) :=
    match PyStr.index_char "="%char opt with
    | None => (opt, None)
    | Some i => (PyStr.take i opt, Some (PyStr.drop (S i) opt))
    end in
  match long_has_args opt longopts with
  | GetoptError e => GetoptError e
  | Ok (true, opt) =>
      match optarg, args with
      | Some v, _ => Ok ([("--" ++ opt, v)], false)
      | None, [] => GetoptError ("option --" ++ opt ++ " requires argument")
      | None, a :: _ => Ok ([("--" ++ opt, a)], true)
      end
  | Ok (false, opt) =>
      match optarg with
      | Some _ =>
          GetoptError ("option --" ++ opt ++ " must not have an argument")
      | None => Ok ([("--" ++ opt, "")], false)
      end
  end.

(** [getopt(args, shortopts, longopts)]: the options in order and the
    remaining (positional) arguments. *)
Fixpoint getopt (args : list string) (shortopts : string)
    (longopts : list string) : result (opt_list * list string) :=
  match args with
  | [] => Ok ([], [])
  | a :: rest =>
      if PyStr.startswith "-" a && negb (String.eqb a "-") then
        if String.eqb a "--" then Ok ([], rest)
        else
          match (if PyStr.startswith "--" a
                 then do_longs (PyStr.drop 2 a) longopts rest
                 else do_shorts (PyStr.drop 1 a) shortopts rest) with
          | GetoptError e => GetoptError e
          | Ok (os, used) =>
              match (match used, rest with
                     | true, _ :: rest' => getopt rest' shortopts longopts
                     | _, _ => getopt rest shortopts longopts
                     end) with
              | GetoptError e => GetoptError e
              | Ok (os', pargs) => Ok ((os ++ os')%list, pargs)
              end
          end
      else Ok ([], args)
  end.

End Getopt.

(** ** The host the script runs on *)

(** What [subprocess.check_output] hands back: [str] under Python 2, [bytes]
    under Python 3 (the script is meant to run under either). *)
Inductive text : Type :=
| Str (s : string)
| Bytes (s : string).

Definition text_strip (t : text) : text :=
  match t with
  | Str s => Str (PyStr.strip s)
  | Bytes s => Bytes (PyStr.strip s)
  end.

Definition text_lower (t : text) : text :=
  match t with
  | Str s => Str (PyStr.lower s)
  | Bytes s => Bytes (PyStr.lower s)
  end.

(** [t != s] for a [str] literal [s]: a [bytes] value never equals it. *)
Definition text_ne (t : text) (s : string) : bool :=
  match t with
  | Str u => negb (String.eqb u s)
  | Bytes _ => true
  end.

Inductive exn : Type :=
| KeyError
| OSError
| TypeError
| AttributeError
| CalledProcessError
| ReError
| GetoptError (msg : string).

Inductive check_result : Type :=
| CheckOutput (out : text)
| CheckFailed          (* non-zero exit status: CalledProcessError *)
| CheckOSError.        (* the program could not be run *)

(** The operating system and the other collaborators of the script, over an
    abstract state [W] of the machine.  [None] is the operation raising. *)
Record Host (W : Type) : Type := {
  environ_PATH : W -> option string;
  path_exists : W -> string -> bool;
  readlink : W -> string -> option string;
  chdir : W -> string -> option W;
  write_file : W -> string -> string -> option W;
  remove : W -> string -> option W;
  rmtree : W -> string -> option W;
  call : W -> list string -> option (Z * W);
  check_output : W -> list string -> check_result * W;
  linux_distribution : W -> option (string * string);
  re_sub_general : string -> string -> string -> option string
}.
Arguments environ_PATH {W} _ _.
Arguments path_exists {W} _ _ _.
Arguments readlink {W} _ _ _.
Arguments chdir {W} _ _ _.
Arguments write_file {W} _ _ _ _.
Arguments remove {W} _ _ _.
Arguments rmtree {W} _ _ _.
Arguments call {W} _ _ _.
Arguments check_output {W} _ _ _.
Arguments linux_distribution {W} _ _.
Arguments re_sub_general {W} _ _ _ _.

(** What the script does to the host, in order. *)
Inductive event : Type :=
| EvStdout (line : string)
| EvStderr (line : string)
| EvExists (path : string)
| EvReadlink (path : string)
| EvChdir (path : string)
| EvWrite (path : string) (content : string)
| EvRemove (path : string)
| EvRmtree (path : string)
| EvCall (argv : list string)
| EvCheckOutput (argv : list string).

Inductive outcome (A : Type) : Type :=
| Ret (a : A)
| Exit (code : Z)         (* sys.exit(code) *)
| Raise (e : exn).        (* an exception on its way up *)
Arguments Ret {A} a.
Arguments Exit {A} code.
Arguments Raise {A} e.

Record state (W : Type) : Type := State {
  world : W;
  trace : list event
}.
Arguments State {W} world trace.
Arguments world {W} s.
Arguments trace {W} s.

(** A computation of the script: state passing with exits and exceptions. *)
Definition M (W A : Type) : Type := state W -> outcome A * state W.

Definition ret {W A : Type} (a : A) : M W A := fun st => (Ret a, st).

Definition bind {W A B : Type} (c : M W A) (f : A -> M W B) : M W B :=
  fun st =>
    match c st with
    | (Ret a, st') => f a st'
    | (Exit n, st') => (Exit n, st')
    | (Raise e, st') => (Raise e, st')
    end.

Definition raise {W A : Type} (e : exn) : M W A := fun st => (Raise e, st).

(** [sys.exit(code)] *)
Definition sys_exit {W A : Type} (code : Z) : M W A := fun st => (Exit code, st).

Definition emit {W : Type} (e : event) : M W unit :=
  fun st => (Ret tt, State (world st) (trace st ++ [e])).

Declare Scope py_scope.
Delimit Scope py_scope with py.
Notation "x <- c ;; k" := (bind c (fun x => k))
  (at level 61, c at next level, right associativity) : py_scope.
Notation "' p <- c ;; k" := (bind c (fun x => match x with p => k end))
  (at level 61, p pattern, c at next level, right associativity) : py_scope.
Notation "c ;; k" := (bind c (fun _ => k))
  (at level 61, right associativity) : py_scope.
Open Scope py_scope.

(** [%s] of a value that may be [None]. *)
Definition fmt_opt (o : option string) : string :=
  match o with
  | Some s => s
  | None => "None"
  end.

(** A truthy integer. *)
Definition truthy (n : Z) : bool := negb (n =? 0).

(** A package descriptor: the three-element list [[name, pkg_nvr, build_id]]. *)
Definition descriptor : Type := (string * string * string)%type.

(** The class [PkgSystem]; the defaults are its class attributes. *)
Record PkgSystem : Type := mkPkgSystem {
  __verbose : Z;
  __distro_id : option text;
  __release : option text;
  __pkgr_path : option string;
  __pkgmgr_path : option string;
  __debuginfo_install : list (option string);
  __wget_path : option string;
  __local_repo_path : string;
  __local_rpm_dir : string
}.

Definition PkgSystem_class : PkgSystem :=
  {| __verbose := 0;
     __distro_id := None;
     __release := None;
     __pkgr_path := None;
     __pkgmgr_path := None;
     __debuginfo_install := [];
     __wget_path := None;
     __local_repo_path := "";
     __local_rpm_dir := "" |}.

Definition set_distro_id (v : option text) (o : PkgSystem) : PkgSystem :=
  mkPkgSystem (__verbose o) v (__release o) (__pkgr_path o) (__pkgmgr_path o)
    (__debuginfo_install o) (__wget_path o) (__local_repo_path o)
    (__local_rpm_dir o).
Definition set_release (v : option text) (o : PkgSystem) : PkgSystem :=
  mkPkgSystem (__verbose o) (__distro_id o) v (__pkgr_path o) (__pkgmgr_path o)
    (__debuginfo_install o) (__wget_path o) (__local_repo_path o)
    (__local_rpm_dir o).
Definition set_pkgr_path (v : option string) (o : PkgSystem) : PkgSystem :=
  mkPkgSystem (__verbose o) (__distro_id o) (__release o) v (__pkgmgr_path o)
    (__debuginfo_install o) (__wget_path o) (__local_repo_path o)
    (__local_rpm_dir o).
Definition set_pkgmgr_path (v : option string) (o : PkgSystem) : PkgSystem :=
  mkPkgSystem (__verbose o) (__distro_id o) (__release o) (__pkgr_path o) v
    (__debuginfo_install o) (__wget_path o) (__local_repo_path o)
    (__local_rpm_dir o).
Definition set_debuginfo_install (v : list (option string)) (o : PkgSystem)
    : PkgSystem :=
  mkPkgSystem (__verbose o) (__distro_id o) (__release o) (__pkgr_path o)
    (__pkgmgr_path o) v (__wget_path o) (__local_repo_path o)
    (__local_rpm_dir o).
Definition set_wget_path (v : option string) (o : PkgSystem) : PkgSystem :=
  mkPkgSystem (__verbose o) (__distro_id o) (__release o) (__pkgr_path o)
    (__pkgmgr_path o) (__debuginfo_install o) v (__local_repo_path o)
    (__local_rpm_dir o).
Definition set_local_repo_path (v : string) (o : PkgSystem) : PkgSystem :=
  mkPkgSystem (__verbose o) (__distro_id o) (__release o) (__pkgr_path o)
    (__pkgmgr_path o) (__debuginfo_install o) (__wget_path o) v
    (__local_rpm_dir o).
Definition set_local_rpm_dir (v : string) (o : PkgSystem) : PkgSystem :=
  mkPkgSystem (__verbose o) (__distro_id o) (__release o) (__pkgr_path o)
    (__pkgmgr_path o) (__debuginfo_install o) (__wget_path o)
    (__local_repo_path o) v.

(** The two patterns the script compiles. *)

(** [r'^(\w+)-([^-]+)-([^-]+)\.(\w+)$'] *)
Definition nvra_regexp : Re.regex :=
  Re.Cat Re.Bol
   (Re.Cat (Re.Group 1 (Re.PlusSet Re.word))
   (Re.Cat (Re.Lit "-")
   (Re.Cat (Re.Group 2 (Re.PlusSet Re.not_hyphen))
   (Re.Cat (Re.Lit "-")
   (Re.Cat (Re.Group 3 (Re.PlusSet Re.not_hyphen))
   (Re.Cat (Re.Lit ".")
   (Re.Cat (Re.Group 4 (Re.PlusSet Re.word))
    Re.Eol))))))).

(** [r'^kernel(-\w+)?'] *)
Definition kernel_regexp : Re.regex :=
  Re.Cat Re.Bol
    (Re.lits "kernel"
       (Re.Opt (Re.Group 1 (Re.Cat (Re.Lit "-") (Re.PlusSet Re.word))))).

(** ** The script *)

Section Script.

Context {W : Type} (host : Host W).

(** *** Library calls, as computations on the host *)

Definition print (line : string) : M W unit := emit (EvStdout line).

(** [_eprint]: print to stderr. *)
Definition _eprint (line : string) : M W unit := emit (EvStderr line).

Definition logged (e : event) (st : state W) : state W :=
  State (world st) (trace st ++ [e]).

(** [os.environ["PATH"]] *)
Definition os_environ_PATH : M W string :=
  fun st =>
    match environ_PATH host (world st) with
    | Some p => (Ret p, st)
    | None => (Raise KeyError, st)
    end.

Definition os_path_exists (p : string) : M W bool :=
  fun st => (Ret (path_exists host (world st) p), logged (EvExists p) st).

Definition os_readlink (p : string) : M W string :=
  fun st =>
    match readlink host (world st) p with
    | Some t => (Ret t, logged (EvReadlink p) st)
    | None => (Raise OSError, logged (EvReadlink p) st)
    end.

(** An operation that changes the host or raises OSError. *)
Definition os_update (e : event) (op : W -> option W) : M W unit :=
  fun st =>
    match op (world st) with
    | Some w' => (Ret tt, State w' (trace st ++ [e]))
    | None => (Raise OSError, logged e st)
    end.

Definition os_chdir (p : string) : M W unit :=
  os_update (EvChdir p) (fun w => chdir host w p).

Definition os_remove (p : string) : M W unit :=
  os_update (EvRemove p) (fun w => remove host w p).

Definition shutil_rmtree (p : string) : M W unit :=
  os_update (EvRmtree p) (fun w => rmtree host w p).

(** [open(p, 'w')], the [write] calls and [close], as one operation. *)
Definition write_text (p content : string) : M W unit :=
  os_update (EvWrite p content) (fun w => write_file host w p content).

(** An argument vector that holds [None] cannot be executed. *)
Fixpoint argv_strings (argv : list (option string)) : option (list string) :=
  match argv with
  | [] => Some []
  | None :: _ => None
  | Some a :: rest =>
      match argv_strings rest with
      | Some l => Some (a :: l)
      | None => None
      end
  end.

(** [subprocess.call(argv)]: the exit status. *)
Definition subprocess_call (argv : list (option string)) : M W Z :=
  match argv_strings argv with
  | None => raise TypeError
  | Some a =>
      fun st =>
        match call host (world st) a with
        | Some (rc, w') => (Ret rc, State w' (trace st ++ [EvCall a]))
        | None => (Raise OSError, logged (EvCall a) st)
        end
  end.

(** [subprocess.check_output(argv)] *)
Definition subprocess_check_output (argv : list string) : M W text :=
  fun st =>
    match check_output host (world st) argv with
    | (CheckOutput out, w') =>
        (Ret out, State w' (trace st ++ [EvCheckOutput argv]))
    | (CheckFailed, w') =>
        (Raise CalledProcessError, State w' (trace st ++ [EvCheckOutput argv]))
    | (CheckOSError, w') =>
        (Raise OSError, State w' (trace st ++ [EvCheckOutput argv]))
    end.

(** [platform.linux_distribution()]: gone from Python 3.8 on. *)
Definition platform_linux_distribution : M W (string * string) :=
  fun st =>
    match linux_distribution host (world st) with
    | Some d => (Ret d, st)
    | None => (Raise AttributeError, st)
    end.

(** [try: body / except CalledProcessError: pass], [dflt] being the value
    the assigned attribute keeps. *)
Definition except_CalledProcessError_pass {A : Type} (body : M W A) (dflt : A)
    : M W A :=
  fun st =>
    match body st with
    | (Raise CalledProcessError, st') => (Ret dflt, st')
    | r => r
    end.

(** [re.sub(pattern, repl, s)] *)
Definition re_sub (pattern repl s : string) : M W string :=
  match Re.sub (re_sub_general host) pattern repl s with
  | Some v => ret v
  | None => raise ReError
  end.

(** *** [which] *)

Fixpoint which_in (paths : list string) (cmd : string) : M W (option string) :=
  match paths with
  | [] => ret None
  | path :: rest =>
      found <- os_path_exists (OsPath.join path cmd) ;;
      if found then ret (Some (OsPath.join path cmd))
      else which_in rest cmd
  end.

(** Find the full path of a command. *)
Definition which (cmd : string) : M W (option string) :=
  PATH <- os_environ_PATH ;;
  which_in (PyStr.split ":" PATH) cmd.

(** *** [PkgSystem.__init__] *)

Definition is_None {A : Type} (o : option A) : bool :=
  match o with
  | None => true
  | Some _ => false
  end.

Definition __init__ (verbose : Z) : M W PkgSystem :=
  let self := PkgSystem_class in
  (* [__verbose = verbose] binds a local name: the attribute is not set. *)
  let _PkgSystem__verbose := verbose in
  lsb_release <- which "lsb_release" ;;
  self <- match lsb_release with
          | Some lsb =>
              self <- except_CalledProcessError_pass
                        (out <- subprocess_check_output [lsb; "-is"] ;;
                         ret (set_distro_id (Some (text_strip out)) self))
                        self ;;
              except_CalledProcessError_pass
                (out <- subprocess_check_output [lsb; "-rs"] ;;
                 ret (set_release (Some (text_strip out)) self))
                self
          | None => ret self
          end ;;
  self <- (if is_None (__distro_id self)
           then d <- platform_linux_distribution ;;
                ret (set_distro_id (Some (Str (fst d))) self)
           else ret self) ;;
  self <- (if is_None (__release self)
           then d <- platform_linux_distribution ;;
                ret (set_release (Some (Str (snd d))) self)
           else ret self) ;;
  rpm <- which "rpm" ;;
  let self := set_pkgr_path rpm self in
  if is_None (__pkgr_path self)
  then _eprint "Can't find the 'rpm' executable." ;; sys_exit 1
  else
    dnf <- which "dnf" ;;
    let self := set_pkgmgr_path dnf self in
    let self :=
      set_debuginfo_install [__pkgmgr_path self; Some "debuginfo-install"] self in
    self <- (if is_None (__pkgmgr_path self)
             then yum <- which "yum" ;;
                  let self := set_pkgmgr_path yum self in
                  dbg <- which "debuginfo-install" ;;
                  ret (set_debuginfo_install [dbg] self)
             else ret self) ;;
    if is_None (__pkgmgr_path self)
    then _eprint "Can't find a package manager (either 'dnr' or 'yum')." ;;
         sys_exit 1
    else
      wget <- which "wget" ;;
      ret (set_wget_path wget self).

(** *** [PkgSystem.build_id_is_valid] *)

Definition build_id_path_of (build_id : string) : string :=
  "/usr/lib/debug/.build-id/" ++ PyStr.take 2 build_id
    ++ "/" ++ PyStr.drop 2 build_id.

(** Return true if the 'name' matches the build id. *)
Definition build_id_is_valid (self : PkgSystem) (name build_id : string)
    : M W Z :=
  let build_id_path := build_id_path_of build_id in
  found <- os_path_exists build_id_path ;;
  if negb found then
    (if truthy (__verbose self)
     then print ("Build id " ++ build_id ++ " doesn't exist.")
     else ret tt) ;;
    ret 0
  else
    target <- os_readlink build_id_path ;;
    let sym_target := OsPath.basename target in
    let name := if String.eqb name "kernel" then "vmlinux"
                else OsPath.basename name in
    if negb (String.eqb sym_target name) then
      (if truthy (__verbose self)
       then print ("Build id " ++ build_id ++ " doesn't match '" ++ name ++ "'.")
       else ret tt) ;;
      ret 0
    else ret 1.

(** *** [PkgSystem.pkg_exists] *)

(** Return true if the package and its debuginfo exists. *)
Definition pkg_exists (self : PkgSystem) (name pkg_nvr build_id : string)
    : M W Z :=
  rc <- subprocess_call [__pkgr_path self; Some "-qi"; Some pkg_nvr] ;;
  if negb (rc =? 0) then ret 0
  else if PyStr.falsy build_id then
    (if truthy (__verbose self)
     then print ("Package " ++ pkg_nvr ++ " already exists on the system.")
     else ret tt) ;;
    ret 1
  else build_id_is_valid self name build_id.

(** *** [PkgSystem.pkg_install] *)

(** Install a package and its debuginfo. *)
Definition pkg_install (self : PkgSystem) (name pkg_nvr build_id : string)
    : M W Z :=
  rc <- subprocess_call
          [__pkgmgr_path self; Some "install"; Some "-y"; Some pkg_nvr] ;;
  if negb (rc =? 0) then ret 0
  else if PyStr.falsy build_id then
    (if truthy (__verbose self)
     then print ("Package " ++ pkg_nvr ++ " installed.")
     else ret tt) ;;
    ret 1
  else
    rc <- subprocess_call
            (__debuginfo_install self ++ [Some "-y"; Some pkg_nvr])%list ;;
    if negb (rc =? 0) then ret 0
    else build_id_is_valid self name build_id.

(** *** [PkgSystem.pkg_download_and_install] *)

Definition nl : string := String "010"%char EmptyString.

Definition local_repo_text (local_rpm_dir : string) : string :=
  "[local]" ++ nl
  ++ "name=Local repository" ++ nl
  ++ "baseurl=file://" ++ local_rpm_dir ++ nl
  ++ "enabled=1" ++ nl
  ++ "gpgcheck=0" ++ nl
  ++ "type=rpm" ++ nl.

(** Manually download and install a package.  The method assigns to
    attributes of [self], so the object is returned with the result. *)
Definition pkg_download_and_install (self : PkgSystem)
    (name pkg_nvr build_id : string) : M W (Z * PkgSystem) :=
  if is_None (__wget_path self)
     || match __distro_id self with
        | None => true
        | Some d => text_ne (text_lower d) "fedora"
        end
  then
    _eprint ("Can't download package '" ++ pkg_nvr ++ "'") ;;
    ret (0, self)
  else
    match Re.match_ nvra_regexp pkg_nvr with
    | None =>
        _eprint ("Can't parse package nvr '" ++ pkg_nvr ++ "'") ;;
        ret (0, self)
    | Some m =>
        let pkg_name := fmt_opt (Re.group m 1) in
        let pkg_version := fmt_opt (Re.group m 2) in
        let pkg_release := fmt_opt (Re.group m 3) in
        let pkg_arch := fmt_opt (Re.group m 4) in
        let koji_url :=
          "http://kojipkgs.fedoraproject.org/packages/" ++ pkg_name ++ "/"
            ++ pkg_version ++ "/" ++ pkg_release ++ "/" ++ pkg_arch in
        _eprint ("URL: '" ++ koji_url ++ "'") ;;
        rc <- subprocess_call
                [Some "wget"; Some "--quiet"; Some "-nH"; Some "--cut-dirs=4";
                 Some "-r"; Some "-l"; Some "1"; Some koji_url] ;;
        if negb (rc =? 0) then
          _eprint ("Can't download package '" ++ pkg_nvr ++ "'") ;;
          ret (0, self)
        else
          let self := set_local_repo_path "/etc/yum.repos.d/local.repo" self in
          let self := set_local_rpm_dir ("/root/" ++ pkg_arch) self in
          found <- os_path_exists (__local_repo_path self) ;;
          (if negb found
           then write_text (__local_repo_path self)
                  (local_repo_text (__local_rpm_dir self))
           else ret tt) ;;
          rc <- subprocess_call
                  [Some "createrepo_c"; Some "--quiet"; Some pkg_arch] ;;
          if negb (rc =? 0) then
            _eprint "Can't run createrepo_c" ;;
            ret (0, self)
          else
            r <- pkg_install self name pkg_nvr build_id ;;
            ret (r, self)
    end.

(** *** [PkgSystem.cleanup] *)

(** Perform cleanup (if necessary). *)
Definition cleanup (self : PkgSystem) : M W unit :=
  (if negb (PyStr.falsy (__local_repo_path self))
   then os_remove (__local_repo_path self)
   else ret tt) ;;
  (if negb (PyStr.falsy (__local_rpm_dir self))
   then shutil_rmtree (__local_rpm_dir self)
   else ret tt).

(** *** The command line *)

(** [sys.argv]: the program name and the arguments after it. *)
Record sys_argv : Type := Argv {
  argv0 : string;
  args : list string
}.

Definition usage_line (prog : string) : string :=
  "Usage: " ++ prog ++ " [-v] --name NAME --pkg PACKAGE --build_id BUILD_ID".

(** Display command-line usage. *)
Definition _usage {A : Type} (argv : sys_argv) : M W A :=
  _eprint (usage_line (argv0 argv)) ;;
  sys_exit 1.

Definition option_values : Type := (Z * string * string * string)%type.

(** The body of the loop over the parsed options. *)
Definition assign_option (acc : option_values) (ov : string * string)
    : option_values :=
  let '(verbose, name, pkg_nvr, build_id) := acc in
  let '(opt, value) := ov in
  if String.eqb opt "-v" then (verbose + 1, name, pkg_nvr, build_id)
  else if String.eqb opt "--name" then (verbose, value, pkg_nvr, build_id)
  else if String.eqb opt "--pkg" then (verbose, name, value, build_id)
  else if String.eqb opt "--build_id" then (verbose, name, pkg_nvr, value)
  else acc.

Definition longopts : list string := ["name="; "pkg="; "build_id="].

(** Process command line. *)
Definition _handle_command_line (argv : sys_argv) : M W option_values :=
  if (S (length (args argv)) <? 4)%nat then _usage argv
  else
    match Getopt.getopt (args argv) "v" longopts with
    | Getopt.GetoptError err =>
        _eprint ("Error: " ++ err) ;;
        _usage argv
    | Getopt.Ok (opts, pargs) =>
        let '(verbose, name, pkg_nvr, build_id) :=
          fold_left assign_option opts (0, "", "", "") in
        match pargs with
        | _ :: _ => _usage argv
        | [] =>
            if PyStr.falsy name || PyStr.falsy pkg_nvr || PyStr.falsy build_id
            then
              _eprint
                "Error: '--name', '--pkg', and '--build_id' are required arguments." ;;
              _usage argv
            else ret (verbose, name, pkg_nvr, build_id)
        end
    end.

(** *** [main] *)

(** The list of packages [main] builds: the package asked for and, for a
    kernel, the matching [-devel] package. *)
Definition main_packages (name pkg_nvr build_id : string)
    : M W (list descriptor) :=
  let packages := [(name, pkg_nvr, build_id)] in
  match Re.match_ kernel_regexp name with
  | Some _ =>
      let devel_name := name ++ "-devel" in
      devel_nvr <- re_sub name devel_name pkg_nvr ;;
      ret (packages ++ [(devel_name, devel_nvr, "")])%list
  | None => ret packages
  end.

(** The loop of [main] over the packages: three strategies in order, the
    next package on the first that succeeds. *)
Fixpoint main_loop (pkgsys : PkgSystem) (packages : list descriptor)
    : M W PkgSystem :=
  match packages with
  | [] => ret pkgsys
  | (name, pkg_nvr, build_id) :: rest =>
      r <- pkg_exists pkgsys name pkg_nvr build_id ;;
      if truthy r then main_loop pkgsys rest
      else
        r <- pkg_install pkgsys name pkg_nvr build_id ;;
        if truthy r then main_loop pkgsys rest
        else
          '(r, pkgsys) <- pkg_download_and_install pkgsys name pkg_nvr build_id ;;
          if truthy r then main_loop pkgsys rest
          else
            _eprint ("Can't find package '" ++ pkg_nvr ++ "'") ;;
            sys_exit 1
  end.

(** Main function. *)
Definition main (argv : sys_argv) : M W unit :=
  '(verbose, name, pkg_nvr, build_id) <- _handle_command_line argv ;;
  os_chdir "/root" ;;
  packages <- main_packages name pkg_nvr build_id ;;
  pkgsys <- __init__ verbose ;;
  pkgsys <- main_loop pkgsys packages ;;
  (if truthy verbose then print "All packages installed." else ret tt) ;;
  cleanup pkgsys ;;
  sys_exit 0.

End Script.

(** ** A small concrete host

    A machine with a flat file table, a package database, a package
    repository and a download site; enough to run the script on concrete
    command lines. *)

Module Toy.

Record machine : Type := Machine {
  files : list string;                 (* regular files and directories *)
  links : list (string * string);      (* symbolic links and their targets *)
  installed : list string;             (* the rpm database *)
  repository : list string;            (* what the package manager can install *)
  site : list (string * string)        (* URL, directory a download creates *)
}.

Definition mem (x : string) (l : list string) : bool := existsb (String.eqb x) l.

Fixpoint assoc (x : string) (l : list (string * string)) : option string :=
  match l with
  | [] => None
  | (k, v) :: l' => if String.eqb x k then Some v else assoc x l'
  end.

Definition without (x : string) (l : list string) : list string :=
  filter (fun y => negb (String.eqb x y)) l.

(** Everything at or below the directory [d]. *)
Definition below (d p : string) : bool :=
  String.eqb d p || String.prefix (d ++ "/") p.

Definition set_files (fs : list string) (m : machine) : machine :=
  Machine fs (links m) (installed m) (repository m) (site m).

Definition set_installed (l : list string) (m : machine) : machine :=
  Machine (files m) (links m) l (repository m) (site m).

Definition run_command (m : machine) (argv : list string)
    : option (Z * machine) :=
  match argv with
  | [prog; "-qi"; nvr] =>
      if String.eqb (OsPath.basename prog) "rpm"
      then Some (if mem nvr (installed m) then 0 else 1, m)
      else None
  | [_; "install"; "-y"; nvr] =>
      if mem nvr (repository m)
      then Some (0, set_installed (nvr :: installed m) m)
      else Some (1, m)
  | [_; "debuginfo-install"; "-y"; _] => Some (0, m)
  | ["wget"; "--quiet"; "-nH"; "--cut-dirs=4"; "-r"; "-l"; "1"; url] =>
      match assoc url (site m) with
      | Some dir => Some (0, set_files (dir :: files m) m)
      | None => Some (8, m)
      end
  | ["createrepo_c"; "--quiet"; _] => Some (0, m)
  | _ => None
  end.

Definition host : Host machine := {|
  environ_PATH := fun _ => Some "/usr/bin";
  path_exists := fun m p => mem p (files m) || mem p (map fst (links m));
  readlink := fun m p => assoc p (links m);
  chdir := fun m p => if mem p (files m) then Some m else None;
  write_file := fun m p _ => Some (set_files (p :: without p (files m)) m);
  remove := fun m p =>
    if mem p (files m) then Some (set_files (without p (files m)) m) else None;
  rmtree := fun m p =>
    if mem p (files m)
    then Some (set_files (filter (fun q => negb (below p q)) (files m)) m)
    else None;
  call := run_command;
  check_output := fun m _ => (CheckOSError, m);
  linux_distribution := fun _ => Some ("Fedora", "34");
  re_sub_general := fun _ _ _ => None
|}.

(** A Fedora machine with rpm, dnf and wget, where [bash] and a kernel with
    its [-devel] package are installed and one build of [hello] can be
    downloaded but not installed. *)
Definition fedora : machine := {|
  files := ["/root"; "/usr/bin/rpm"; "/usr/bin/dnf"; "/usr/bin/wget"];
  links := [("/usr/lib/debug/.build-id/ab/cdef", "../../../../boot/vmlinux");
            ("/usr/lib/debug/.build-id/12/3456", "../../../../bin/bash")];
  installed := ["bash-5.1.0-1.fc34.x86_64"; "kernel-5.10.0-1.x86_64";
                "kernel-devel-5.10.0-1.x86_64"];
  repository := [];
  site := [("http://kojipkgs.fedoraproject.org/packages/hello/2.10/1/x86_64",
            "/root/x86_64")]
|}.

Definition start (m : machine) : state machine := State m [].

(** The lines printed to standard output. *)
Fixpoint stdout (tr : list event) : list string :=
  match tr with
  | [] => []
  | EvStdout l :: tr' => l :: stdout tr'
  | _ :: tr' => stdout tr'
  end.

(** The lines printed to standard error. *)
Fixpoint stderr (tr : list event) : list string :=
  match tr with
  | [] => []
  | EvStderr l :: tr' => l :: stderr tr'
  | _ :: tr' => stderr tr'
  end.

(** The object [PkgSystem(verbose)] on that machine. *)
Definition pkgsys : PkgSystem := {|
  __verbose := 0;
  __distro_id := Some (Str "Fedora");
  __release := Some (Str "34");
  __pkgr_path := Some "/usr/bin/rpm";
  __pkgmgr_path := Some "/usr/bin/dnf";
  __debuginfo_install := [Some "/usr/bin/dnf"; Some "debuginfo-install"];
  __wget_path := Some "/usr/bin/wget";
  __local_repo_path := "";
  __local_rpm_dir := ""
|}.

(** The same object once a download has recorded its local repository. *)
Definition recorded : PkgSystem :=
  set_local_rpm_dir "/root/x86_64"
    (set_local_repo_path "/etc/yum.repos.d/local.repo" pkgsys).

(** The state in which [main] enters its loop on that machine. *)
Definition at_loop : state machine :=
  State fedora
    [EvChdir "/root"; EvExists "/usr/bin/lsb_release"; EvExists "/usr/bin/rpm";
     EvExists "/usr/bin/dnf"; EvExists "/usr/bin/wget"].

Definition prog : string := "fedora_install_package.py".

(** An installed kernel, asked for verbosely. *)
Definition kernel_argv : sys_argv :=
  Argv prog ["-v"; "--name"; "kernel"; "--pkg"; "kernel-5.10.0-1.x86_64";
             "--build_id"; "abcdef"].

(** A package that is neither installed nor installable, but downloadable. *)
Definition hello_argv : sys_argv :=
  Argv prog ["--name"; "hello"; "--pkg"; "hello-2.10-1.x86_64";
             "--build_id"; "ffee"].

(** A command line without [--pkg]. *)
Definition no_pkg_argv : sys_argv :=
  Argv prog ["-v"; "--name"; "bash"; "--build_id"; "123456"].

(** A complete command line followed by a positional argument. *)
Definition positional_argv : sys_argv :=
  Argv prog ["--name"; "bash"; "--pkg"; "bash-5.1.0-1.fc34.x86_64";
             "--build_id"; "123456"; "extra"].

End Toy.

(** ** Vocabulary of the statements *)

(** The option name an argument spells, as [getopt] reads it: the text
    between a leading [--] and the first [=]. *)
Definition option_key (a : string) : option string :=
  if PyStr.startswith "--" a then
    let body := PyStr.drop 2 a in
    match PyStr.index_char "="%char body with
    | Some i => Some (PyStr.take i body)
    | None => Some body
    end
  else None.

(** The argument [a] names the long option [o]: [--] and then [o] or a
    non-empty abbreviation of it, with or without [=value]. *)
Definition names_option (o a : string) : bool :=
  match option_key a with
  | Some key => negb (PyStr.falsy key) && String.prefix key o
  | None => false
  end.

(** Some argument of the command line names the option [o]. *)
Definition option_given (o : string) (argv : sys_argv) : bool :=
  existsb (names_option o) (args argv).

Definition name_of (v : option_values) : string := snd (fst (fst v)).
Definition pkg_nvr_of (v : option_values) : string := snd (fst v).
Definition build_id_of (v : option_values) : string := snd v.

Definition is_stderr (e : event) : Prop := exists line, e = EvStderr line.

(** Every character of [s] is in the set [f]. *)
Fixpoint all_chars (f : ascii -> bool) (s : string) : bool :=
  match s with
  | EmptyString => true
  | String c s' => f c && all_chars f s'
  end.

(** A non-empty run of characters of [f]. *)
Definition token (f : ascii -> bool) (s : string) : Prop :=
  s <> "" /\ all_chars f s = true.

(** The shape the spec describes for an nvr: [name-version-release.arch],
    name and arch non-empty runs of word characters, version and release
    non-empty runs of characters other than the hyphen. *)
Definition nvra_shape (n v r a : string) : Prop :=
  token Re.word n /\ token Re.not_hyphen v /\ token Re.not_hyphen r
  /\ token Re.word a.

Definition nvra_text (n v r a : string) : string :=
  n ++ "-" ++ v ++ "-" ++ r ++ "." ++ a.


(** [returns c P]: every value that [c] returns satisfies [P]. *)
Definition returns {W A : Type} (c : M W A) (P : A -> Prop) : Prop :=
  forall st a st', c st = (Ret a, st') -> P a.

(** An object on which the verbosity is the class attribute and no local
    repository is recorded. *)
Definition unrecorded (self : PkgSystem) : Prop :=
  __verbose self = 0
  /\ __local_repo_path self = ""
  /\ __local_rpm_dir self = "".

Ltac keep_unrecorded :=
  match goal with
  | H : unrecorded _ |- unrecorded _ =>
      destruct H as (? & ? & ?); repeat split; simpl; assumption
  | |- unrecorded _ => repeat split
  end.

Ltac run_step :=
  unfold bind, ret, emit, logged, print, _eprint, raise, sys_exit; simpl.

(** ** Vocabulary of the further properties *)

(** The first directory of [paths] that holds [cmd] on the machine [w],
    joined with [cmd]. *)
Fixpoint find_in {W : Type} (host : Host W) (w : W) (paths : list string)
    (cmd : string) : option string :=
  match paths with
  | [] => None
  | d :: rest =>
      if path_exists host w (OsPath.join d cmd)
      then Some (OsPath.join d cmd)
      else find_in host w rest cmd
  end.

(** The probes [which] makes on the way: one per directory, up to and
    including the first that holds [cmd]. *)
Fixpoint probes_in {W : Type} (host : Host W) (w : W) (paths : list string)
    (cmd : string) : list event :=
  match paths with
  | [] => []
  | d :: rest =>
      EvExists (OsPath.join d cmd)
      :: (if path_exists host w (OsPath.join d cmd) then []
          else probes_in host w rest cmd)
  end.

(** What holds of every object the constructor returns. *)
Definition constructed (self : PkgSystem) : Prop :=
  __verbose self = 0
  /\ __pkgr_path self <> None
  /\ __pkgmgr_path self <> None
  /\ __distro_id self <> None
  /\ __release self <> None
  /\ (__debuginfo_install self = [__pkgmgr_path self; Some "debuginfo-install"]
      \/ exists word, __debuginfo_install self = [word])
  /\ __local_repo_path self = ""
  /\ __local_rpm_dir self = "".

(** The toy host under a Python from 3.8 on: [lsb_release] answers in
    bytes and [platform.linux_distribution] is gone. *)
Definition python3_host : Host Toy.machine := {|
  environ_PATH := environ_PATH Toy.host;
  path_exists := path_exists Toy.host;
  readlink := readlink Toy.host;
  chdir := chdir Toy.host;
  write_file := write_file Toy.host;
  remove := remove Toy.host;
  rmtree := rmtree Toy.host;
  call := call Toy.host;
  check_output := fun m argv =>
    match argv with
    | [_; "-is"] => (CheckOutput (Bytes ("Fedora" ++ nl)), m)
    | [_; "-rs"] => (CheckOutput (Bytes ("34" ++ nl)), m)
    | _ => (CheckOSError, m)
    end;
  linux_distribution := fun _ => None;
  re_sub_general := re_sub_general Toy.host
|}.

(** The Fedora machine with [lsb_release] installed. *)
Definition workstation : Toy.machine :=
  Toy.set_files ("/usr/bin/lsb_release" :: Toy.files Toy.fedora) Toy.fedora.

(** The value the loop over the parsed options leaves for the option [o]:
    that of its last occurrence, [dflt] when it does not occur. *)
Fixpoint last_value (o : string) (opts : Getopt.opt_list) (dflt : string)
    : string :=
  match opts with
  | [] => dflt
  | (k, v) :: rest => last_value o rest (if String.eqb k o then v else dflt)
  end.

(** The number of occurrences of the option [o]. *)
Fixpoint occurrences (o : string) (opts : Getopt.opt_list) : Z :=
  match opts with
  | [] => 0
  | (k, _) :: rest => (if String.eqb k o then 1 else 0) + occurrences o rest
  end.

(** The string [p] occurs in [s]. *)
Fixpoint occurs (p s : string) : bool :=
  String.prefix p s
  || match s with
     | EmptyString => false
     | String _ s' => occurs p s'
     end.

(** [adds c P]: whatever [c] does, the events it appends to the trace all
    satisfy [P]. *)
Definition adds {W A : Type} (c : M W A) (P : event -> Prop) : Prop :=
  forall st, exists added,
    trace (snd (c st)) = (trace st ++ added)%list /\ Forall P added.

(** [exits c S]: whenever [c] ends the process, the exit code and the state
    it leaves are in [S]. *)
Definition exits {W A : Type} (c : M W A) (S : Z -> state W -> Prop) : Prop :=
  forall st code st', c st = (Exit code, st') -> S code st'.

(** A fatal exit: code 1, right after a diagnostic on standard error. *)
Definition fatal {W : Type} (code : Z) (st : state W) : Prop :=
  code = 1 /\ exists before line, trace st = (before ++ [EvStderr line])%list.

Definition repo_file : string := "/etc/yum.repos.d/local.repo".

Definition koji_packages : string :=
  "http://kojipkgs.fedoraproject.org/packages/".

(** The argument vector of the download command, for a URL. *)
Definition koji_fetch (url : string) : list string :=
  ["wget"; "--quiet"; "-nH"; "--cut-dirs=4"; "-r"; "-l"; "1"; url].

(** The command lines the strategies run. *)
Definition script_command (argv : list string) : Prop :=
  (exists rpm nvr, argv = [rpm; "-qi"; nvr])
  \/ (exists mgr nvr, argv = [mgr; "install"; "-y"; nvr])
  \/ (exists mgr nvr, argv = [mgr; "debuginfo-install"; "-y"; nvr])
  \/ (exists tool nvr, argv = [tool; "-y"; nvr])
  \/ (exists url, argv = koji_fetch url
                  /\ String.prefix koji_packages url = true)
  \/ (exists arch, token Re.word arch
                   /\ argv = ["createrepo_c"; "--quiet"; arch]).

(** The events of the validator and of the first two strategies on an
    object that is not verbose: probes and commands. *)
Definition query_event (e : event) : Prop :=
  match e with
  | EvExists _ | EvReadlink _ => True
  | EvCall argv => script_command argv
  | _ => False
  end.

(** The events of the three strategies on an object that is not verbose. *)
Definition strategy_event (e : event) : Prop :=
  match e with
  | EvExists _ | EvReadlink _ | EvStderr _ => True
  | EvCall argv => script_command argv
  | EvWrite p content =>
      p = repo_file
      /\ exists arch, token Re.word arch
                      /\ content = local_repo_text ("/root/" ++ arch)
  | _ => False
  end.

(** The events of the constructor. *)
Definition init_event (e : event) : Prop :=
  match e with
  | EvExists _ | EvStderr _ => True
  | EvCheckOutput argv => exists lsb, argv = [lsb; "-is"] \/ argv = [lsb; "-rs"]
  | _ => False
  end.

(** The events of a run of [main]. *)
Definition main_event (e : event) : Prop :=
  match e with
  | EvStdout line => line = "All packages installed."
  | EvChdir p => p = "/root"
  | EvRemove p => p = repo_file
  | EvRmtree p => exists arch, token Re.word arch /\ p = "/root/" ++ arch
  | EvCheckOutput _ => init_event e
  | _ => strategy_event e
  end.

(** The object invariant of the strategies: not verbose, a debuginfo command
    of the package manager or of one word, and either no local repository
    recorded or the repository file and a directory [/root/<arch>]. *)
Definition well_formed (self : PkgSystem) : Prop :=
  __verbose self = 0
  /\ (__debuginfo_install self = [__pkgmgr_path self; Some "debuginfo-install"]
      \/ exists word, __debuginfo_install self = [word])
  /\ ((__local_repo_path self = "" /\ __local_rpm_dir self = "")
      \/ (__local_repo_path self = repo_file
          /\ exists arch, token Re.word arch
                          /\ __local_rpm_dir self = "/root/" ++ arch)).

(** The lines of a trace that went to standard output. *)
Fixpoint stdout_lines (tr : list event) : list string :=
  match tr with
  | [] => []
  | EvStdout line :: tr' => line :: stdout_lines tr'
  | _ :: tr' => stdout_lines tr'
  end.

(** The object after a download recorded its local repository. *)
Definition record_download (arch : string) (self : PkgSystem) : PkgSystem :=
  set_local_rpm_dir ("/root/" ++ arch) (set_local_repo_path repo_file self).

(** An event that is not a line on standard output. *)
Definition silent (e : event) : Prop :=
  match e with
  | EvStdout _ => False
  | _ => True
  end.

(** The removals of [cleanup] on a well-formed object. *)
Definition cleanup_event (e : event) : Prop :=
  match e with
  | EvRemove p => p = repo_file
  | EvRmtree p => exists arch, token Re.word arch /\ p = "/root/" ++ arch
  | _ => False
  end.

(** [main] prints at most its one line on standard output. *)
Definition prints_at_most_success {W A : Type} (c : M W A) : Prop :=
  forall st, exists added,
    trace (snd (c st)) = (trace st ++ added)%list
    /\ (stdout_lines added = []
        \/ stdout_lines added = ["All packages installed."]).

(** The results of the strategies: 0 or 1. *)
Definition boolean (r : Z) : Prop := r = 0 \/ r = 1.

(** An event that is not the writing of a file. *)
Definition no_write (e : event) : Prop :=
  match e with
  | EvWrite _ _ => False
  | _ => True
  end.

(** An older machine: rpm and yum, no [dnf], no [debuginfo-install], no
    [wget]; one build of [hello] can be installed. *)
Definition legacy : Toy.machine := {|
  Toy.files := ["/root"; "/usr/bin/rpm"; "/usr/bin/yum"];
  Toy.links := [];
  Toy.installed := [];
  Toy.repository := ["hello-2.10-1.x86_64"];
  Toy.site := []
|}.

(** The object [PkgSystem(verbose)] on that machine. *)
Definition legacy_pkgsys : PkgSystem := {|
  __verbose := 0;
  __distro_id := Some (Str "Fedora");
  __release := Some (Str "34");
  __pkgr_path := Some "/usr/bin/rpm";
  __pkgmgr_path := Some "/usr/bin/yum";
  __debuginfo_install := [None];
  __wget_path := None;
  __local_repo_path := "";
  __local_rpm_dir := ""
|}.

(** * Properties *)

(** ** General facts about the model *)

Lemma bind_ret {W A B : Type} (a : A) (f : A -> M W B) (st : state W) :
  bind (ret a) f st = f a st.
Proof. reflexivity. Qed.

Lemma bind_exit {W A B : Type} (c : M W A) (f : A -> M W B) (st st' : state W)
    (code : Z) :
  c st = (Exit code, st') -> bind c f st = (Exit code, st').
Proof. intros H. unfold bind. rewrite H. reflexivity. Qed.

Lemma bind_value {W A B : Type} (c : M W A) (f : A -> M W B) (st st' : state W)
    (a : A) :
  c st = (Ret a, st') -> bind c f st = f a st'.
Proof. intros H. unfold bind. rewrite H. reflexivity. Qed.

(** ** The kernel pattern *)

Lemma prefix_split (p s : string) :
  String.prefix p s = true <-> exists rest, s = p ++ rest.
Proof.
  revert s. induction p as [| a p IH]; intros s; simpl.
  - split; [intros _; exists s; destruct s; reflexivity |].
    intros _. destruct s; reflexivity.
  - destruct s as [| b s]; simpl.
    + split; [discriminate | intros [rest H]; discriminate H].
    + destruct (ascii_dec a b) as [-> | Hab].
      * rewrite IH. split; intros [rest H]; exists rest.
        -- rewrite H. reflexivity.
        -- injection H as H. exact H.
      * split; [discriminate |].
        intros [rest H]. injection H as H1 H2. congruence.
Qed.

Lemma get_drop (i : nat) (s : string) :
  String.get i s
  = match PyStr.drop i s with
    | EmptyString => None
    | String d _ => Some d
    end.
Proof.
  revert s. induction i as [| i IH]; intros [| c s]; simpl; try reflexivity.
  apply IH.
Qed.

Lemma drop_succ (i : nat) (s : string) :
  PyStr.drop (S i) s
  = match PyStr.drop i s with
    | EmptyString => EmptyString
    | String _ t => t
    end.
Proof.
  revert s. induction i as [| i IH]; intros [| c s]; try reflexivity.
  change (PyStr.drop (S (S i)) (String c s)) with (PyStr.drop (S i) s).
  rewrite IH. reflexivity.
Qed.

(** A literal word matches exactly when the subject continues with it. *)
Lemma run_lits {A : Type} (w : string) (r : Re.regex) (s : string) (i : nat)
    (cs : Re.captures) (k : nat -> Re.captures -> option A) :
  Re.run (Re.lits w r) s i cs k
  = if String.prefix w (PyStr.drop i s)
    then Re.run r s (i + String.length w) cs k
    else None.
Proof.
  revert i. induction w as [| c w IH]; intros i.
  - simpl. rewrite Nat.add_0_r. destruct (PyStr.drop i s); reflexivity.
  - cbn [Re.lits Re.run]. rewrite get_drop.
    destruct (PyStr.drop i s) as [| d t] eqn:E; [reflexivity |].
    cbn [String.prefix String.length].
    destruct (ascii_dec c d) as [-> | Hcd].
    + rewrite Ascii.eqb_refl, IH, drop_succ, E.
      replace (S i + String.length w)%nat with (i + S (String.length w))%nat
        by lia.
      reflexivity.
    + destruct (Ascii.eqb_spec c d); [contradiction | reflexivity].
Qed.

(** [kernel_regexp.match(name)] succeeds exactly on the names that begin with
    [kernel]: the pattern is anchored at the start only. *)
Lemma kernel_regexp_match_iff (name : string) :
  Re.match_ kernel_regexp name <> None <-> PyStr.startswith "kernel" name = true.
Proof.
  unfold PyStr.startswith, Re.match_, kernel_regexp.
  cbn [Re.run Nat.eqb]. rewrite run_lits. cbn [PyStr.drop].
  destruct (String.prefix "kernel" name).
  - cbn [Re.run].
    match goal with |- context [match ?x with Some _ => _ | None => _ end] =>
      destruct x end; split; intros; congruence.
  - split; intros; congruence.
Qed.

(** ** The nvr pattern *)

Lemma backtrack_some {A : Type} (k : nat -> option A) (i n : nat) (x : A) :
  Re.backtrack k i n = Some x ->
  exists j, (0 < j <= n)%nat /\ k (i + j)%nat = Some x
            /\ forall j', (j < j' <= n)%nat -> k (i + j')%nat = None.
Proof.
  induction n as [| n IH]; simpl; [discriminate |].
  destruct (k (i + S n)%nat) as [y |] eqn:E.
  - intros [= ->]. exists (S n). split; [lia |]. split; [exact E |].
    intros j' Hj'. lia.
  - intros H. destruct (IH H) as (j & Hj & Hk & Hn).
    exists j. split; [lia |]. split; [exact Hk |].
    intros j' Hj'. destruct (Nat.eq_dec j' (S n)) as [-> | Hne];
      [exact E | apply Hn; lia].
Qed.

Lemma backtrack_found {A : Type} (k : nat -> option A) (i n j : nat) (x : A) :
  (0 < j <= n)%nat -> k (i + j)%nat = Some x ->
  (forall j', (j < j' <= n)%nat -> k (i + j')%nat = None) ->
  Re.backtrack k i n = Some x.
Proof.
  induction n as [| n IH]; intros Hj Hk Hn; [lia |].
  simpl. destruct (Nat.eq_dec j (S n)) as [-> | Hne].
  - rewrite Hk. reflexivity.
  - rewrite (Hn (S n)) by lia. apply IH; [lia | exact Hk |].
    intros j' Hj'. apply Hn. lia.
Qed.

Lemma drop_add (i j : nat) (s : string) :
  PyStr.drop (i + j) s = PyStr.drop j (PyStr.drop i s).
Proof.
  revert s. induction i as [| i IH]; intros s; [reflexivity |].
  destruct s as [| c s]; [destruct j; reflexivity |]. apply IH.
Qed.

Lemma drop_app_length (pre x : string) :
  PyStr.drop (String.length pre) (pre ++ x) = x.
Proof. induction pre as [| c pre IH]; [reflexivity | exact IH]. Qed.

Lemma take_app_length (pre x : string) :
  PyStr.take (String.length pre) (pre ++ x) = pre.
Proof. induction pre as [| c pre IH]; [reflexivity | simpl; rewrite IH; reflexivity]. Qed.

Lemma take_drop (j : nat) (s : string) : PyStr.take j s ++ PyStr.drop j s = s.
Proof.
  revert s. induction j as [| j IH]; intros [| c s]; try reflexivity.
  simpl. rewrite IH. reflexivity.
Qed.

Lemma substring_take_drop (i len : nat) (s : string) :
  String.substring i len s = PyStr.take len (PyStr.drop i s).
Proof.
  revert s. induction i as [| i IH]; intros s.
  - simpl. revert s. induction len as [| len IHl]; intros [| c s]; try reflexivity.
    simpl. rewrite IHl. reflexivity.
  - destruct s as [| c s]; [destruct len; reflexivity |]. simpl. apply IH.
Qed.

Lemma span_app (f : ascii -> bool) (t x : string) :
  all_chars f t = true ->
  match x with EmptyString => True | String c _ => f c = false end ->
  Re.span f (t ++ x) = String.length t.
Proof.
  intros Ht Hx. induction t as [| c t IH]; simpl.
  - destruct x as [| c x]; [reflexivity |]. simpl. rewrite Hx. reflexivity.
  - simpl in Ht. apply andb_true_iff in Ht. destruct Ht as [Hc Ht].
    rewrite Hc, (IH Ht). reflexivity.
Qed.

Lemma span_take (f : ascii -> bool) (s : string) (j : nat) :
  (j <= Re.span f s)%nat ->
  all_chars f (PyStr.take j s) = true /\ String.length (PyStr.take j s) = j.
Proof.
  revert s. induction j as [| j IH]; intros s Hj; [split; reflexivity |].
  destruct s as [| c s]; [simpl in Hj; lia |]. simpl in *.
  destruct (f c); [| lia]. destruct (IH s) as [H1 H2]; [lia |].
  rewrite H1, H2. split; reflexivity.
Qed.

Lemma app_assoc_s (a b c : string) : (a ++ b) ++ c = a ++ (b ++ c).
Proof. induction a as [| x a IH]; simpl; [reflexivity | rewrite IH; reflexivity]. Qed.

Lemma length_app_s (a b : string) :
  String.length (a ++ b) = (String.length a + String.length b)%nat.
Proof. induction a as [| x a IH]; simpl; [reflexivity | rewrite IH; reflexivity]. Qed.

Lemma all_chars_app (f : ascii -> bool) (a b : string) :
  all_chars f (a ++ b) = all_chars f a && all_chars f b.
Proof.
  induction a as [| x a IH]; simpl; [reflexivity |].
  rewrite IH, andb_assoc. reflexivity.
Qed.

Lemma word_not_hyphen (s : string) :
  all_chars Re.word s = true -> all_chars Re.not_hyphen s = true.
Proof.
  induction s as [| c s IH]; simpl; [reflexivity |].
  intros H. apply andb_true_iff in H. destruct H as [Hc Hs].
  rewrite (IH Hs), andb_true_r.
  unfold Re.not_hyphen. destruct (Ascii.eqb_spec c "-"); [| reflexivity].
  subst c. discriminate Hc.
Qed.

(** No character of a word, nor the newline after it, is a dot. *)
Lemma no_dot_after (a e : string) (m : nat) :
  all_chars Re.word a = true -> e = "" \/ e = nl ->
  String.get m (a ++ e) <> Some "."%char.
Proof.
  intros Ha He. revert m. induction a as [| c a IH]; intros m.
  - simpl. destruct He as [-> | ->]; [destruct m; discriminate |].
    destruct m as [| [| m]]; discriminate.
  - simpl in Ha. apply andb_true_iff in Ha. destruct Ha as [Hc Ha].
    destruct m as [| m]; simpl.
    + intros [= ->]. discriminate Hc.
    + apply IH. exact Ha.
Qed.

Lemma span_whole (f : ascii -> bool) (t : string) :
  all_chars f t = true -> Re.span f t = String.length t.
Proof.
  induction t as [| c t IH]; simpl; [reflexivity |].
  intros H. apply andb_true_iff in H. destruct H as [Hc Ht].
  rewrite Hc, (IH Ht). reflexivity.
Qed.

Lemma get_app_length (pre x : string) (m : nat) :
  String.get (String.length pre + m) (pre ++ x) = String.get m x.
Proof. induction pre as [| c pre IH]; [reflexivity | exact IH]. Qed.

(** Every string of the shape [name-version-release.arch], alone or
    followed by one newline, is matched, and the groups are its parts. *)
Lemma nvra_regexp_matches (n v r a e : string) :
  nvra_shape n v r a -> e = "" \/ e = nl ->
  exists m,
    Re.match_ nvra_regexp (nvra_text n v r a ++ e) = Some m
    /\ Re.group m 1 = Some n /\ Re.group m 2 = Some v
    /\ Re.group m 3 = Some r /\ Re.group m 4 = Some a.
Proof.
  intros ((Hn0 & Hn) & (Hv0 & Hv) & (Hr0 & Hr) & (Ha0 & Ha)) He.
  set (s := nvra_text n v r a ++ e).
  assert (Es : s = n ++ String "-" (v ++ String "-" (r ++ String "." (a ++ e)))).
  { unfold s, nvra_text. repeat rewrite app_assoc_s. reflexivity. }
  set (p1 := String.length n).
  set (p2 := S p1). set (q2 := (p2 + String.length v)%nat).
  set (p3 := S q2). set (q3 := (p3 + String.length r)%nat).
  set (p4 := S q3). set (q4 := (p4 + String.length a)%nat).
  assert (D1 : PyStr.drop p1 s = String "-" (v ++ String "-" (r ++ String "." (a ++ e)))).
  { rewrite Es. apply drop_app_length. }
  assert (D2 : PyStr.drop p2 s = v ++ String "-" (r ++ String "." (a ++ e))).
  { unfold p2. rewrite drop_succ, D1. reflexivity. }
  assert (D2' : PyStr.drop q2 s = String "-" (r ++ String "." (a ++ e))).
  { unfold q2. rewrite drop_add, D2. apply drop_app_length. }
  assert (D3 : PyStr.drop p3 s = r ++ String "." (a ++ e)).
  { unfold p3. rewrite drop_succ, D2'. reflexivity. }
  assert (D3' : PyStr.drop q3 s = String "." (a ++ e)).
  { unfold q3. rewrite drop_add, D3. apply drop_app_length. }
  assert (D4 : PyStr.drop p4 s = a ++ e).
  { unfold p4. rewrite drop_succ, D3'. reflexivity. }
  assert (D4' : PyStr.drop q4 s = e).
  { unfold q4. rewrite drop_add, D4. apply drop_app_length. }
  assert (Hlen : forall t : string, t <> "" -> (0 < String.length t)%nat).
  { intros [| c t] Ht; [congruence | simpl; lia]. }
  exists (Re.MatchObject s q4 [(4, (p4, q4)); (3, (p3, q3)); (2, (p2, q2)); (1, (O, p1))]%nat).
  split.
  - unfold Re.match_, nvra_regexp. cbn [Re.run Nat.eqb].
    (* name *)
    apply backtrack_found with (j := String.length n).
    { change (PyStr.drop 0 s) with s. rewrite Es.
      rewrite (span_app Re.word n _ Hn) by reflexivity.
      split; [apply Hlen; exact Hn0 | lia]. }
    2:{ change (PyStr.drop 0 s) with s. rewrite Es.
        rewrite (span_app Re.word n _ Hn) by reflexivity. intros j' Hj'. lia. }
    change (0 + String.length n)%nat with p1.
    cbn [Re.run]. rewrite get_drop, D1. cbv beta iota. rewrite Ascii.eqb_refl.
    fold p2.
    (* version *)
    apply backtrack_found with (j := String.length v).
    { rewrite D2, (span_app Re.not_hyphen v _ Hv) by reflexivity.
      split; [apply Hlen; exact Hv0 | lia]. }
    2:{ rewrite D2, (span_app Re.not_hyphen v _ Hv) by reflexivity.
        intros j' Hj'. lia. }
    fold q2. cbn [Re.run]. rewrite get_drop, D2'. cbv beta iota.
    rewrite Ascii.eqb_refl. fold p3.
    (* release *)
    apply backtrack_found with (j := String.length r).
    { rewrite D3, span_whole.
      - rewrite length_app_s. split; [apply Hlen; exact Hr0 | lia].
      - rewrite all_chars_app, Hr. simpl.
        rewrite all_chars_app, (word_not_hyphen a Ha).
        destruct He as [-> | ->]; reflexivity. }
    2:{ intros j' Hj'. cbn [Re.run].
        replace (p3 + j')%nat
          with (String.length (n ++ String "-" (v ++ String "-" (r ++ "."))) + (j' - String.length r - 1))%nat.
        2:{ rewrite length_app_s. simpl. rewrite length_app_s. simpl.
            rewrite length_app_s. simpl. unfold p3, q2, p2, p1. lia. }
        replace s with ((n ++ String "-" (v ++ String "-" (r ++ "."))) ++ (a ++ e)).
        2:{ rewrite Es. repeat (rewrite app_assoc_s; simpl). reflexivity. }
        rewrite get_app_length.
        destruct (String.get (j' - String.length r - 1) (a ++ e)) as [d |] eqn:E;
          [| reflexivity].
        destruct (Ascii.eqb_spec "." d) as [<- |]; [| reflexivity].
        exfalso. exact (no_dot_after a e _ Ha He E). }
    fold q3. cbn [Re.run]. rewrite get_drop, D3'. cbv beta iota.
    rewrite Ascii.eqb_refl. fold p4.
    (* arch *)
    apply backtrack_found with (j := String.length a).
    { rewrite D4, (span_app Re.word a e Ha)
        by (destruct He as [-> | ->]; [exact I | reflexivity]).
      split; [apply Hlen; exact Ha0 | lia]. }
    2:{ rewrite D4, (span_app Re.word a e Ha)
          by (destruct He as [-> | ->]; [exact I | reflexivity]).
        intros j' Hj'. lia. }
    fold q4. cbn [Re.run]. unfold Re.at_eol. rewrite D4'.
    destruct He as [-> | ->].
    + replace (q4 <=? String.length s)%nat with true; [reflexivity |].
      symmetry. apply Nat.leb_le. rewrite Es.
      repeat (rewrite length_app_s; simpl). unfold q4, p4, q3, p3, q2, p2, p1. lia.
    + reflexivity.
  - unfold Re.group. cbn [Re.mo_groups Re.mo_string Re.lookup Nat.eqb].
    repeat rewrite substring_take_drop.
    change (PyStr.drop 0 s) with s.
    rewrite D2, D3, D4.
    replace (p1 - 0)%nat with (String.length n) by (unfold p1; lia).
    replace (q2 - p2)%nat with (String.length v) by (unfold q2; lia).
    replace (q3 - p3)%nat with (String.length r) by (unfold q3; lia).
    replace (q4 - p4)%nat with (String.length a) by (unfold q4; lia).
    rewrite Es. repeat rewrite take_app_length. repeat split.
Qed.

Lemma span_token (f : ascii -> bool) (s : string) (j : nat) :
  (0 < j <= Re.span f s)%nat -> token f (PyStr.take j s).
Proof.
  intros Hj. destruct (span_take f s j) as [H1 H2]; [lia |].
  split; [| exact H1]. intros E. rewrite E in H2. simpl in H2. lia.
Qed.

(** Conversely, what the pattern matches is of that shape, alone or
    followed by one newline ([$] matches before a final newline). *)
Lemma nvra_regexp_match_shape (s : string) (m : Re.match_object) :
  Re.match_ nvra_regexp s = Some m ->
  exists n v r a e,
    nvra_shape n v r a /\ (e = "" \/ e = nl)
    /\ s = nvra_text n v r a ++ e
    /\ Re.group m 1 = Some n /\ Re.group m 2 = Some v
    /\ Re.group m 3 = Some r /\ Re.group m 4 = Some a.
Proof.
  unfold Re.match_, nvra_regexp. cbn [Re.run Nat.eqb]. intros H.
  change (PyStr.drop 0 s) with s in H.
  (* name *)
  apply backtrack_some in H. destruct H as (j1 & Hj1 & H & _).
  cbn [Re.run] in H. rewrite get_drop in H. cbn [Nat.add] in H.
  destruct (PyStr.drop j1 s) as [| c1 t1] eqn:D1; [discriminate H |].
  destruct (Ascii.eqb_spec "-" c1) as [<- |]; [| discriminate H].
  (* version *)
  apply backtrack_some in H. destruct H as (j2 & Hj2 & H & _).
  rewrite drop_succ, D1 in Hj2.
  cbn [Re.run] in H. rewrite get_drop in H.
  assert (E2 : PyStr.drop (S j1 + j2) s = PyStr.drop j2 t1).
  { rewrite drop_add, drop_succ, D1. reflexivity. }
  rewrite E2 in H.
  destruct (PyStr.drop j2 t1) as [| c2 t2] eqn:D2; [discriminate H |].
  destruct (Ascii.eqb_spec "-" c2) as [<- |]; [| discriminate H].
  (* release *)
  apply backtrack_some in H. destruct H as (j3 & Hj3 & H & _).
  rewrite drop_succ, E2 in Hj3.
  cbn [Re.run] in H. rewrite get_drop in H.
  assert (E3 : PyStr.drop (S (S j1 + j2) + j3) s = PyStr.drop j3 t2).
  { rewrite drop_add, drop_succ, E2. reflexivity. }
  rewrite E3 in H.
  destruct (PyStr.drop j3 t2) as [| c3 t3] eqn:D3; [discriminate H |].
  destruct (Ascii.eqb_spec "." c3) as [<- |]; [| discriminate H].
  (* arch *)
  apply backtrack_some in H. destruct H as (j4 & Hj4 & H & _).
  rewrite drop_succ, E3 in Hj4.
  cbn [Re.run] in H.
  assert (E4 : PyStr.drop (S (S (S j1 + j2) + j3) + j4) s = PyStr.drop j4 t3).
  { rewrite drop_add, drop_succ, E3. reflexivity. }
  unfold Re.at_eol in H. rewrite E4 in H.
  exists (PyStr.take j1 s), (PyStr.take j2 t1), (PyStr.take j3 t2),
         (PyStr.take j4 t3), (PyStr.drop j4 t3).
  assert (He : (PyStr.drop j4 t3 = "" \/ PyStr.drop j4 t3 = nl)
               /\ m = Re.MatchObject s (S (S (S j1 + j2) + j3) + j4)
                        [(4, (S (S (S j1 + j2) + j3), S (S (S j1 + j2) + j3) + j4));
                         (3, (S (S j1 + j2), S (S j1 + j2) + j3));
                         (2, (S j1, S j1 + j2)); (1, (O, j1))]%nat).
  { destruct (PyStr.drop j4 t3) as [| c4 [| c5 t5]].
    - match type of H with (if ?b then _ else _) = _ => destruct b end;
        [| discriminate H].
      injection H as <-. split; [left; reflexivity | reflexivity].
    - destruct (Ascii.eqb_spec c4 "010") as [Ec |]; [| discriminate H].
      injection H as <-. rewrite Ec. split; [right; reflexivity | reflexivity].
    - discriminate H. }
  destruct He as [He ->].
  split.
  { unfold nvra_shape.
    split; [apply span_token; assumption |].
    split; [apply span_token; assumption |].
    split; apply span_token; assumption. }
  split; [exact He |].
  split.
  { unfold nvra_text. repeat rewrite app_assoc_s.
    change ("-" ++ ?x) with (String "-" x).
    rewrite <- (take_drop j1 s) at 1. rewrite D1. f_equal.
    simpl. f_equal.
    rewrite <- (take_drop j2 t1) at 1. rewrite D2. f_equal.
    simpl. f_equal.
    rewrite <- (take_drop j3 t2) at 1. rewrite D3. f_equal.
    simpl. f_equal.
    symmetry. apply take_drop. }
  unfold Re.group. cbn [Re.mo_groups Re.mo_string Re.lookup Nat.eqb].
  repeat rewrite substring_take_drop.
  change (PyStr.drop 0 s) with s.
  rewrite (drop_succ j1), D1.
  rewrite (drop_succ (S j1 + j2)), E2.
  rewrite (drop_succ (S (S j1 + j2) + j3)), E3.
  cbv iota.
  replace (j1 - 0)%nat with j1 by lia.
  replace (S j1 + j2 - S j1)%nat with j2 by lia.
  replace (S (S j1 + j2) + j3 - S (S j1 + j2))%nat with j3 by lia.
  replace (S (S (S j1 + j2) + j3) + j4 - S (S (S j1 + j2) + j3))%nat with j4
    by lia.
  repeat split.
Qed.

(** ** The strategies *)

Section Validator.

Context {W : Type} (host : Host W).

(** Every call of the validator starts by probing the build-id path: a run
    without an [EvExists] event has not called it. *)
Lemma build_id_is_valid_probes (self : PkgSystem) (name build_id : string)
    (st : state W) :
  exists more,
    trace (snd (build_id_is_valid host self name build_id st))
    = (trace st ++ EvExists (build_id_path_of build_id) :: more)%list.
Proof.
  unfold build_id_is_valid, os_path_exists, os_readlink. run_step.
  destruct (path_exists host (world st) (build_id_path_of build_id)); simpl.
  - destruct (readlink host (world st) (build_id_path_of build_id)); simpl.
    + match goal with |- context [negb (String.eqb ?a ?b)] =>
        destruct (String.eqb a b) end; simpl.
      * eexists. rewrite <- app_assoc. reflexivity.
      * destruct (truthy (__verbose self)); simpl;
          eexists; repeat rewrite <- app_assoc; reflexivity.
    + eexists. rewrite <- app_assoc. reflexivity.
  - destruct (truthy (__verbose self)); simpl;
      eexists; repeat rewrite <- app_assoc; reflexivity.
Qed.

(** C1. For a non-empty build id, [build_id_is_valid] returns false (0) when
    [/usr/lib/debug/.build-id/<first two characters>/<rest>] does not exist;
    when it exists and is a symbolic link, it returns true (1) exactly when
    the base name of the link's target is the expected name, which is
    [vmlinux] for the name [kernel] and the base name of the name
    otherwise, and false (0) exactly when it is not. *)
Theorem build_id_is_valid_verdict (self : PkgSystem) (name build_id : string)
    (st : state W) :
  build_id <> "" ->
  let path := "/usr/lib/debug/.build-id/" ++ PyStr.take 2 build_id
                ++ "/" ++ PyStr.drop 2 build_id in
  let expected := if String.eqb name "kernel" then "vmlinux"
                  else OsPath.basename name in
  let result := fst (build_id_is_valid host self name build_id st) in
  (path_exists host (world st) path = false -> result = Ret 0) /\
  (path_exists host (world st) path = true ->
   forall target, readlink host (world st) path = Some target ->
     (result = Ret 1 <-> OsPath.basename target = expected) /\
     (result = Ret 0 <-> OsPath.basename target <> expected)).
Proof.
  intros _ path expected result. subst result.
  unfold build_id_is_valid, os_path_exists, os_readlink, build_id_path_of.
  fold path. run_step. split.
  - intros He. rewrite He. simpl.
    destruct (truthy (__verbose self)); reflexivity.
  - intros He target Hr. rewrite He. simpl. rewrite Hr. simpl. fold expected.
    destruct (String.eqb_spec (OsPath.basename target) expected) as [E | E];
      simpl.
    + split; split; intros H; try reflexivity; try assumption;
        try discriminate; contradiction.
    + destruct (truthy (__verbose self)); simpl;
        (split; split; intros H; try reflexivity; try assumption;
         try discriminate; try contradiction).
Qed.

End Validator.

Section Strategies.

Context {W : Type} (host : Host W).

(** C6. With an empty build id and the exact nvr present in the package
    database ([rpm -qi] exits with status 0), [pkg_exists] returns success
    (1); all it does is run that query (and print the message when the
    object is verbose): it probes no build-id path, so the validator is not
    called. *)
Theorem pkg_exists_skips_validator (self : PkgSystem) (name pkg_nvr rpm : string)
    (st : state W) (w' : W) :
  __pkgr_path self = Some rpm ->
  call host (world st) [rpm; "-qi"; pkg_nvr] = Some (0, w') ->
  exists said,
    pkg_exists host self name pkg_nvr "" st
    = (Ret 1, State w' (trace st ++ EvCall [rpm; "-qi"; pkg_nvr] :: said))
    /\ (said = []
        \/ said = [EvStdout ("Package " ++ pkg_nvr
                             ++ " already exists on the system.")])
    /\ (forall p, ~ In (EvExists p) said)
    /\ (forall p, ~ In (EvReadlink p) said).
Proof.
  intros Hrpm Hcall.
  unfold pkg_exists, subprocess_call. rewrite Hrpm. run_step.
  rewrite Hcall. simpl.
  destruct (truthy (__verbose self)); simpl.
  - eexists. split.
    + rewrite <- app_assoc. reflexivity.
    + split; [right; reflexivity |].
      split; intros p [H | []]; discriminate H.
  - exists []. split; [reflexivity |].
    split; [left; reflexivity |].
    split; intros p [].
Qed.

(** C5. Whatever the descriptor, [pkg_download_and_install] returns failure
    (0) at once when no downloader was found, or when the detected
    distribution, lower-cased, is not [fedora] (or is unknown), downloader
    or not: it prints one diagnostic and runs no command. *)
Theorem pkg_download_refused (self : PkgSystem) (name pkg_nvr build_id : string)
    (st : state W) :
  __wget_path self = None
  \/ (forall s, __distro_id self = Some (Str s) -> PyStr.lower s <> "fedora") ->
  pkg_download_and_install host self name pkg_nvr build_id st
  = (Ret (0, self),
     State (world st)
       (trace st ++ [EvStderr ("Can't download package '" ++ pkg_nvr ++ "'")])).
Proof.
  intros H. unfold pkg_download_and_install.
  destruct (__wget_path self) as [wget |] eqn:Hw; simpl.
  - destruct H as [H | H]; [discriminate H |].
    destruct (__distro_id self) as [[s | b] |]; simpl; try reflexivity.
    destruct (String.eqb_spec (PyStr.lower s) "fedora") as [E | E]; simpl.
    + exfalso. exact (H s eq_refl E).
    + reflexivity.
  - reflexivity.
Qed.

(** C4. For every nvr that the pattern [^(\w+)-([^-]+)-([^-]+)\.(\w+)$]
    does not match, [pkg_download_and_install] returns failure (0) after
    one diagnostic on standard error, without running any command and
    without raising; [badtoken] is such an nvr, and so is every string that
    is not of the shape [name-version-release.arch] (name and arch runs of
    word characters, version and release runs of non-hyphens), alone or
    followed by one newline. *)
Theorem pkg_download_unparsable (self : PkgSystem) (name build_id : string)
    (st : state W) :
  (forall pkg_nvr,
     Re.match_ nvra_regexp pkg_nvr = None ->
     exists diagnostic,
       pkg_download_and_install host self name pkg_nvr build_id st
       = (Ret (0, self), State (world st) (trace st ++ [EvStderr diagnostic]))
       /\ (diagnostic = "Can't parse package nvr '" ++ pkg_nvr ++ "'"
           \/ diagnostic = "Can't download package '" ++ pkg_nvr ++ "'"))
  /\ Re.match_ nvra_regexp "badtoken" = None
  /\ (forall pkg_nvr,
        (forall n v r a e, nvra_shape n v r a -> e = "" \/ e = nl ->
                           pkg_nvr <> nvra_text n v r a ++ e) ->
        Re.match_ nvra_regexp pkg_nvr = None).
Proof.
  split; [| split; [reflexivity |]].
  - intros pkg_nvr Hno. unfold pkg_download_and_install. rewrite Hno.
    match goal with |- context [if ?c then _ else _] => destruct c end;
      eexists; (split; [reflexivity |]); [right | left]; reflexivity.
  - intros pkg_nvr Hshape.
    destruct (Re.match_ nvra_regexp pkg_nvr) as [m |] eqn:E; [| reflexivity].
    destruct (nvra_regexp_match_shape pkg_nvr m E)
      as (n & v & r & a & e & Hs & He & Ht & _).
    exfalso. exact (Hshape n v r a e Hs He Ht).
Qed.

End Strategies.

Section Assembly.

Context {W : Type} (host : Host W).

(** A name of literal characters is a pattern that [re.sub] replaces
    literally, and [name + '-devel'] is then a template without escapes. *)
Lemma no_char_of_app (bad a b : string) :
  Re.no_char_of bad (a ++ b) = Re.no_char_of bad a && Re.no_char_of bad b.
Proof.
  induction a as [| c a IH]; simpl; [reflexivity |].
  rewrite IH. rewrite andb_assoc. reflexivity.
Qed.

Lemma special_covers_backslash (s : string) :
  Re.no_char_of Re.SPECIAL_CHARS s = true -> Re.no_char_of "\" s = true.
Proof.
  induction s as [| c s IH]; [reflexivity |].
  cbn [Re.no_char_of]. intros H.
  apply andb_true_iff in H. destruct H as [Hc Hs].
  rewrite (IH Hs), andb_true_r.
  unfold Re.SPECIAL_CHARS in Hc. cbn [PyStr.mem_char] in *.
  destruct (Ascii.eqb c "\"%char); [| reflexivity].
  destruct (Ascii.eqb c "."%char); discriminate Hc.
Qed.

Lemma re_sub_literal_name (name pkg_nvr : string) :
  Re.literal_pattern name = true ->
  Re.sub (re_sub_general host) name (name ++ "-devel") pkg_nvr
  = Some (Re.sub_literal name (name ++ "-devel") O pkg_nvr).
Proof.
  intros H. unfold Re.sub. rewrite H. simpl.
  unfold Re.literal_pattern in H. apply andb_true_iff in H.
  destruct H as [_ H]. unfold Re.literal_template.
  rewrite no_char_of_app, (special_covers_backslash _ H). reflexivity.
Qed.

(** C7. For the name [kernel-PAE] and the package
    [kernel-PAE-5.10.0-1.x86_64], the list of packages is the descriptor
    asked for followed by exactly one more,
    [(kernel-PAE-devel, kernel-PAE-devel-5.10.0-1.x86_64, '')]. *)
Theorem kernel_PAE_packages (build_id : string) (st : state W) :
  main_packages host "kernel-PAE" "kernel-PAE-5.10.0-1.x86_64" build_id st
  = (Ret [("kernel-PAE", "kernel-PAE-5.10.0-1.x86_64", build_id);
          ("kernel-PAE-devel", "kernel-PAE-devel-5.10.0-1.x86_64", "")],
     st).
Proof. reflexivity. Qed.

(** C10, as the code has it.  For every name that begins with [kernel],
    whatever follows ([kernelfoo] as well as [kernel-PAE]), the kernel
    pattern matches, as a prefix, and [main] calls
    [re.sub(name, name + '-devel', pkg_nvr)] with the name as the pattern.
    When that call returns a value, the list of packages is the descriptor
    asked for followed by [(name + '-devel', value, '')]; when the name is
    not a regular expression and the call raises [re.error], [main] ends
    with that exception and no list is built.  A name without
    metacharacters is a pattern [re.sub] replaces literally, so that for
    such a name the call does return. *)
Theorem kernel_prefix_adds_devel (name pkg_nvr build_id : string)
    (st : state W) :
  PyStr.startswith "kernel" name = true ->
  main_packages host name pkg_nvr build_id st
  = match Re.sub (re_sub_general host) name (name ++ "-devel") pkg_nvr with
    | Some devel_nvr =>
        (Ret [(name, pkg_nvr, build_id); (name ++ "-devel", devel_nvr, "")],
         st)
    | None => (Raise ReError, st)
    end
  /\ (Re.literal_pattern name = true ->
      Re.sub (re_sub_general host) name (name ++ "-devel") pkg_nvr
      = Some (Re.sub_literal name (name ++ "-devel") O pkg_nvr)).
Proof.
  intros Hk. split; [| apply re_sub_literal_name].
  apply kernel_regexp_match_iff in Hk.
  unfold main_packages, re_sub.
  destruct (Re.match_ kernel_regexp name); [| congruence].
  destruct (Re.sub (re_sub_general host) name (name ++ "-devel") pkg_nvr);
    reflexivity.
Qed.

End Assembly.

(** ** The command line *)

Lemma prefix_refl (s : string) : String.prefix s s = true.
Proof. apply prefix_split. exists "". induction s; simpl; congruence. Qed.

Lemma prefix_snoc (k s : string) (c : ascii) :
  String.prefix k (s ++ String c "") = true ->
  k = s ++ String c "" \/ String.prefix k s = true.
Proof.
  revert k. induction s as [| a s IH]; intros k H.
  - destruct k as [| b [| b' k]]; simpl in *.
    + right. reflexivity.
    + destruct (ascii_dec b c) as [-> |]; [left; reflexivity | discriminate].
    + destruct (ascii_dec b c); discriminate.
  - destruct k as [| b k]; [right; reflexivity |]. simpl in *.
    destruct (ascii_dec b a) as [-> |]; [| discriminate].
    destruct (IH k H) as [-> | Hp]; [left; reflexivity | right; exact Hp].
Qed.

Lemma do_shorts_names (optstring shortopts : string) (rest : list string)
    (os : Getopt.opt_list) (used : bool) (o v : string) :
  Getopt.do_shorts optstring shortopts rest = Getopt.Ok (os, used) ->
  In ("--" ++ o, v) os -> o = "".
Proof.
  revert os used. induction optstring as [| c t IH]; intros os used H Hin.
  - simpl in H. injection H as <- _. destruct Hin.
  - cbn [Getopt.do_shorts] in H.
    destruct (Getopt.short_has_arg c shortopts) as [[|] | e]; [| | discriminate].
    + assert (Hone : exists w, os = [("-" ++ Getopt.str1 c, w)]).
      { destruct t; destruct rest; try discriminate;
          injection H as <- _; eexists; reflexivity. }
      destruct Hone as [w ->]. destruct Hin as [Hin | []].
      injection Hin as Hc Ho _. symmetry. exact Ho.
    + destruct (Getopt.do_shorts t shortopts rest) as [[os' used'] | e];
        [| discriminate].
      injection H as <- _. destruct Hin as [Hin | Hin].
      * injection Hin as Hc Ho _. symmetry. exact Ho.
      * exact (IH os' used' eq_refl Hin).
Qed.

Lemma long_has_args_key (key o : string) (b : bool) :
  Getopt.long_has_args key longopts = Getopt.Ok (b, o) ->
  In o ["name"; "pkg"; "build_id"] ->
  negb (PyStr.falsy key) && String.prefix key o = true.
Proof.
  intros H Ho.
  assert (Hne : o <> "") by (intros ->; simpl in Ho; intuition discriminate).
  unfold Getopt.long_has_args, longopts, PyStr.startswith in H.
  cbn [filter] in H.
  destruct (String.prefix key "name=") eqn:H1;
    destruct (String.prefix key "pkg=") eqn:H2;
    destruct (String.prefix key "build_id=") eqn:H3;
    cbn [Getopt.mem_str existsb] in H;
    repeat match type of H with
    | context [String.eqb ?a ?b] =>
        destruct (String.eqb_spec a b) as [? | ?]; cbn [orb] in H
    end;
    try discriminate H;
    try (injection H as _ <-; subst;
         (rewrite prefix_refl; destruct key; [congruence | reflexivity])
         || (simpl in Ho; intuition discriminate));
    try (cbn in H; injection H as _ <-;
         destruct key as [| k0 key]; [simpl in *; discriminate |];
         cbn [PyStr.falsy negb andb];
         match goal with
         | |- String.prefix ?k ?s = true =>
             match goal with
             | Hp : String.prefix k _ = true |- _ =>
                 destruct (prefix_snoc k s "="%char Hp) as [Hq | Hq];
                   [simpl in Hq; congruence | exact Hq]
             end
         end).
Qed.

Lemma do_longs_names (body : string) (rest : list string)
    (os : Getopt.opt_list) (used : bool) (o v : string) :
  Getopt.do_longs body longopts rest = Getopt.Ok (os, used) ->
  In ("--" ++ o, v) os ->
  In o ["name"; "pkg"; "build_id"] ->
  names_option o ("--" ++ body) = true.
Proof.
  intros H Hin Ho. unfold names_option, option_key.
  replace (PyStr.startswith "--" ("--" ++ body)) with true
    by (symmetry; apply prefix_split; exists body; reflexivity).
  change (PyStr.drop 2 ("--" ++ body)) with body. cbv iota.
  unfold Getopt.do_longs in H.
  assert (Hkey : forall key optarg,
    match Getopt.long_has_args key longopts with
    | Getopt.Ok (true, opt) =>
        match optarg, rest with
        | Some w, _ => Getopt.Ok ([("--" ++ opt, w)], false)
        | None, [] =>
            Getopt.GetoptError ("option --" ++ opt ++ " requires argument")
        | None, a :: _ => Getopt.Ok ([("--" ++ opt, a)], true)
        end
    | Getopt.Ok (false, opt) =>
        match optarg with
        | Some _ =>
            Getopt.GetoptError
              ("option --" ++ opt ++ " must not have an argument")
        | None => Getopt.Ok ([("--" ++ opt, "")], false)
        end
    | Getopt.GetoptError e => Getopt.GetoptError e
    end = Getopt.Ok (os, used) ->
    negb (PyStr.falsy key) && String.prefix key o = true).
  { intros key optarg HK.
    destruct (Getopt.long_has_args key longopts) as [[b o'] | e] eqn:HL;
      [| discriminate].
    assert (Hos : exists w, os = [("--" ++ o', w)]).
    { destruct b; destruct optarg; destruct rest; try discriminate;
        injection HK as <- _; eexists; reflexivity. }
    destruct Hos as [w ->]. destruct Hin as [Hin | []].
    injection Hin as Ho' _. subst o'.
    exact (long_has_args_key key o b HL Ho). }
  destruct (PyStr.index_char "=" body) as [i |].
  - exact (Hkey (PyStr.take i body) (Some (PyStr.drop (S i) body)) H).
  - exact (Hkey body None H).
Qed.

Lemma existsb_tail {A : Type} (f : A -> bool) (a : A) (l : list A) :
  existsb f l = true -> existsb f (a :: l) = true.
Proof. intros H. simpl. rewrite H. apply orb_true_r. Qed.

(** An option in the result of [getopt] was named by some argument. *)
Lemma getopt_names (o : string) :
  In o ["name"; "pkg"; "build_id"] ->
  forall (n : nat) (argl : list string) (opts : Getopt.opt_list)
         (pargs : list string) (v : string),
    (length argl <= n)%nat ->
    Getopt.getopt argl "v" longopts = Getopt.Ok (opts, pargs) ->
    In ("--" ++ o, v) opts ->
    existsb (names_option o) argl = true.
Proof.
  intros Ho. induction n as [| n IH]; intros argl opts pargs v Hlen H Hin.
  - destruct argl; [| simpl in Hlen; lia].
    simpl in H. injection H as <- _. destruct Hin.
  - destruct argl as [| a rest].
    { simpl in H. injection H as <- _. destruct Hin. }
    cbn [Getopt.getopt] in H. simpl in Hlen.
    destruct (PyStr.startswith "-" a && negb (String.eqb a "-"));
      [| injection H as <- _; destruct Hin].
    destruct (String.eqb a "--"); [injection H as <- _; destruct Hin |].
    destruct (PyStr.startswith "--" a) eqn:Hlong.
    + apply prefix_split in Hlong. destruct Hlong as [body ->].
      change (PyStr.drop 2 ("--" ++ body)) with body in H.
      destruct (Getopt.do_longs body longopts rest) as [[os used] | e] eqn:HD;
        [| discriminate].
      assert (Hcase : forall tl,
                (length tl <= n)%nat ->
                (existsb (names_option o) tl = true ->
                 existsb (names_option o) rest = true) ->
                match Getopt.getopt tl "v" longopts with
                | Getopt.Ok (os', pargs') => Getopt.Ok ((os ++ os')%list, pargs')
                | Getopt.GetoptError e => Getopt.GetoptError e
                end = Getopt.Ok (opts, pargs) ->
                existsb (names_option o) (("--" ++ body) :: rest) = true).
      { intros tl Htl Hup HG.
        destruct (Getopt.getopt tl "v" longopts) as [[os' pargs'] | e] eqn:HT;
          [| discriminate].
        injection HG as <- _. apply in_app_or in Hin.
        destruct Hin as [Hin | Hin].
        - cbn [existsb]. rewrite (do_longs_names _ _ _ _ _ _ HD Hin Ho).
          reflexivity.
        - apply existsb_tail. apply Hup.
          exact (IH tl os' pargs' v Htl HT Hin). }
      destruct used; destruct rest as [| b rest'].
      * apply (Hcase []); [simpl; lia | auto | exact H].
      * apply (Hcase rest'); [simpl in Hlen; lia | | exact H].
        intros E. apply existsb_tail. exact E.
      * apply (Hcase []); [simpl; lia | auto | exact H].
      * apply (Hcase (b :: rest')); [simpl in *; lia | auto | exact H].
    + destruct (Getopt.do_shorts (PyStr.drop 1 a) "v" rest)
        as [[os used] | e] eqn:HD; [| discriminate].
      assert (Hcase : forall tl,
                (length tl <= n)%nat ->
                (existsb (names_option o) tl = true ->
                 existsb (names_option o) rest = true) ->
                match Getopt.getopt tl "v" longopts with
                | Getopt.Ok (os', pargs') => Getopt.Ok ((os ++ os')%list, pargs')
                | Getopt.GetoptError e => Getopt.GetoptError e
                end = Getopt.Ok (opts, pargs) ->
                existsb (names_option o) (a :: rest) = true).
      { intros tl Htl Hup HG.
        destruct (Getopt.getopt tl "v" longopts) as [[os' pargs'] | e] eqn:HT;
          [| discriminate].
        injection HG as <- _. apply in_app_or in Hin.
        destruct Hin as [Hin | Hin].
        - pose proof (do_shorts_names _ _ _ _ _ _ _ HD Hin) as ->.
          simpl in Ho. intuition discriminate.
        - apply existsb_tail. apply Hup.
          exact (IH tl os' pargs' v Htl HT Hin). }
      destruct used; destruct rest as [| b rest'].
      * apply (Hcase []); [simpl; lia | auto | exact H].
      * apply (Hcase rest'); [simpl in Hlen; lia | | exact H].
        intros E. apply existsb_tail. exact E.
      * apply (Hcase []); [simpl; lia | auto | exact H].
      * apply (Hcase (b :: rest')); [simpl in *; lia | auto | exact H].
Qed.

(** An option that is not among the parsed ones keeps its initial value. *)
Lemma fold_assign_name (opts : Getopt.opt_list) (acc : option_values) :
  (forall v, ~ In ("--name", v) opts) ->
  name_of (fold_left assign_option opts acc) = name_of acc.
Proof.
  revert acc. induction opts as [| [opt value] opts IH]; intros acc H;
    [reflexivity |].
  cbn [fold_left]. rewrite IH by (intros v Hv; apply (H v); right; exact Hv).
  destruct acc as [[[vb n] p] b]. unfold assign_option.
  destruct (String.eqb_spec opt "-v"); [reflexivity |].
  destruct (String.eqb_spec opt "--name") as [-> |].
  - exfalso. apply (H value). left. reflexivity.
  - destruct (String.eqb opt "--pkg"); [reflexivity |].
    destruct (String.eqb opt "--build_id"); reflexivity.
Qed.

Lemma fold_assign_pkg (opts : Getopt.opt_list) (acc : option_values) :
  (forall v, ~ In ("--pkg", v) opts) ->
  pkg_nvr_of (fold_left assign_option opts acc) = pkg_nvr_of acc.
Proof.
  revert acc. induction opts as [| [opt value] opts IH]; intros acc H;
    [reflexivity |].
  cbn [fold_left]. rewrite IH by (intros v Hv; apply (H v); right; exact Hv).
  destruct acc as [[[vb n] p] b]. unfold assign_option.
  destruct (String.eqb_spec opt "-v"); [reflexivity |].
  destruct (String.eqb_spec opt "--name"); [reflexivity |].
  destruct (String.eqb_spec opt "--pkg") as [-> |].
  - exfalso. apply (H value). left. reflexivity.
  - destruct (String.eqb opt "--build_id"); reflexivity.
Qed.

Lemma fold_assign_build_id (opts : Getopt.opt_list) (acc : option_values) :
  (forall v, ~ In ("--build_id", v) opts) ->
  build_id_of (fold_left assign_option opts acc) = build_id_of acc.
Proof.
  revert acc. induction opts as [| [opt value] opts IH]; intros acc H;
    [reflexivity |].
  cbn [fold_left]. rewrite IH by (intros v Hv; apply (H v); right; exact Hv).
  destruct acc as [[[vb n] p] b]. unfold assign_option.
  destruct (String.eqb_spec opt "-v"); [reflexivity |].
  destruct (String.eqb_spec opt "--name"); [reflexivity |].
  destruct (String.eqb_spec opt "--pkg"); [reflexivity |].
  destruct (String.eqb_spec opt "--build_id") as [-> |]; [| reflexivity].
  exfalso. apply (H value). left. reflexivity.
Qed.

(** An option that no argument names is not among the parsed ones. *)
Lemma not_given_not_parsed (o : string) (argv : sys_argv)
    (opts : Getopt.opt_list) (pargs : list string) :
  In o ["name"; "pkg"; "build_id"] ->
  option_given o argv = false ->
  Getopt.getopt (args argv) "v" longopts = Getopt.Ok (opts, pargs) ->
  forall v, ~ In ("--" ++ o, v) opts.
Proof.
  intros Ho Hno HG v Hin. unfold option_given in Hno.
  rewrite (getopt_names o Ho (length (args argv)) (args argv) opts pargs v
             (Nat.le_refl _) HG Hin) in Hno.
  discriminate Hno.
Qed.

Section CommandLine.

Context {W : Type}.

Lemma usage_exits {A : Type} (argv : sys_argv) (st : state W) :
  @_usage W A argv st
  = (Exit 1, State (world st) (trace st ++ [EvStderr (usage_line (argv0 argv))])).
Proof. reflexivity. Qed.

(** C9. On every command line where one of [--name], [--pkg] and
    [--build_id] is missing (no argument names it or, more generally,
    [getopt] does not report it), and on every command line that [getopt]
    parses with a positional argument left over, the program prints the
    usage line on standard error (after at most an error line, also on
    standard error) and exits with code 1. *)
Theorem usage_on_bad_command_line (argv : sys_argv) (st : state W) :
  (exists o, In o ["name"; "pkg"; "build_id"] /\ option_given o argv = false)
  \/ (exists o, In o ["name"; "pkg"; "build_id"]
               /\ forall opts pargs,
                    Getopt.getopt (args argv) "v" longopts
                    = Getopt.Ok (opts, pargs) ->
                    forall v, ~ In ("--" ++ o, v) opts)
  \/ (exists opts p pargs,
        Getopt.getopt (args argv) "v" longopts = Getopt.Ok (opts, p :: pargs)) ->
  exists said,
    _handle_command_line argv st
    = (Exit 1,
       State (world st)
         (trace st ++ said ++ [EvStderr (usage_line (argv0 argv))]))
    /\ Forall is_stderr said.
Proof.
  intros H. unfold _handle_command_line.
  destruct (S (length (args argv)) <? 4)%nat.
  { exists []. split; [apply usage_exits | constructor]. }
  destruct (Getopt.getopt (args argv) "v" longopts)
    as [[opts pargs] | err] eqn:HG.
  2:{ eexists [_]. unfold bind at 1. unfold _eprint, emit. cbn [world trace].
      rewrite usage_exits. cbn [world trace]. rewrite <- app_assoc.
      split; [reflexivity |].
      constructor; [eexists; reflexivity | constructor]. }
  destruct (fold_left assign_option opts (0, "", "", ""))
    as [[[verbose name] pkg_nvr] build_id] eqn:HF.
  destruct pargs as [| p pargs].
  2:{ exists []. split; [apply usage_exits | constructor]. }
  assert (Hmissing :
    PyStr.falsy name || PyStr.falsy pkg_nvr || PyStr.falsy build_id = true).
  { assert (Hparsed : exists o, In o ["name"; "pkg"; "build_id"]
                                /\ forall v, ~ In ("--" ++ o, v) opts).
    { destruct H as [(o & Ho & H) | [(o & Ho & H) | H]].
      - exists o. split; [exact Ho |].
        exact (not_given_not_parsed o argv opts [] Ho H HG).
      - exists o. split; [exact Ho |]. exact (H opts [] eq_refl).
      - destruct H as (opts' & p & pargs & H). discriminate H. }
    destruct Hparsed as (o & Ho & Hno).
    destruct Ho as [<- | [<- | [<- | []]]].
    - pose proof (fold_assign_name opts (0, "", "", "") Hno) as E.
      rewrite HF in E. cbn in E. subst name. reflexivity.
    - pose proof (fold_assign_pkg opts (0, "", "", "") Hno) as E.
      rewrite HF in E. cbn in E. subst pkg_nvr. apply orb_true_iff. left.
      apply orb_true_r.
    - pose proof (fold_assign_build_id opts (0, "", "", "") Hno) as E.
      rewrite HF in E. cbn in E. subst build_id. apply orb_true_r. }
  rewrite Hmissing.
  eexists [_]. unfold bind at 1. unfold _eprint, emit. cbn [world trace].
  rewrite usage_exits. cbn [world trace]. rewrite <- app_assoc.
  split; [reflexivity |].
  constructor; [eexists; reflexivity | constructor].
Qed.

End CommandLine.

(** ** Exhaustion, cleanup and verbosity *)

Section Run.

Context {W : Type} (host : Host W).

Lemma returns_ret {A : Type} (a : A) (P : A -> Prop) :
  P a -> returns (W := W) (ret a) P.
Proof. intros H st b st' E. injection E as <- _. exact H. Qed.

Lemma returns_exit {A : Type} (code : Z) (P : A -> Prop) :
  returns (W := W) (sys_exit code) P.
Proof. intros st b st' E. discriminate E. Qed.

Lemma returns_bind {A B : Type} (c : M W A) (f : A -> M W B)
    (Q : A -> Prop) (P : B -> Prop) :
  returns c Q -> (forall a, Q a -> returns (f a) P) -> returns (bind c f) P.
Proof.
  intros Hc Hf st b st' E. unfold bind in E.
  destruct (c st) as [[a | n | e] st1] eqn:Ec; try discriminate E.
  exact (Hf a (Hc _ _ _ Ec) _ _ _ E).
Qed.

Lemma returns_any {A : Type} (c : M W A) : returns c (fun _ => True).
Proof. intros st a st' _. exact I. Qed.

Lemma returns_except {A : Type} (body : M W A) (dflt : A) (P : A -> Prop) :
  returns body P -> P dflt ->
  returns (except_CalledProcessError_pass body dflt) P.
Proof.
  intros Hb Hd st a st' E. unfold except_CalledProcessError_pass in E.
  destruct (body st) as [[b | n | e] st1] eqn:Eb.
  - injection E as <- _. exact (Hb _ _ _ Eb).
  - discriminate E.
  - destruct e; try discriminate E. injection E as <- _. exact Hd.
Qed.

(** What the constructor leaves on the object: the verbosity is the class
    attribute 0 whatever was passed (the assignment in line 50 binds a local
    name), and no local repository is recorded. *)
Lemma __init___attributes (verbose : Z) (st st' : state W) (self : PkgSystem) :
  __init__ host verbose st = (Ret self, st') ->
  __verbose self = 0
  /\ __local_repo_path self = ""
  /\ __local_rpm_dir self = "".
Proof.
  enough (H : returns (__init__ host verbose) unrecorded) by exact (H st self st').
  unfold __init__.
  eapply returns_bind; [apply returns_any |]. intros lsb_release _.
  apply returns_bind with (Q := unrecorded).
  { destruct lsb_release as [lsb |]; [| apply returns_ret; keep_unrecorded].
    apply returns_bind with (Q := unrecorded).
    - apply returns_except; [| keep_unrecorded].
      eapply returns_bind; [apply returns_any |]. intros out _.
      apply returns_ret. keep_unrecorded.
    - intros self1 H1. apply returns_except; [| exact H1].
      eapply returns_bind; [apply returns_any |]. intros out _.
      apply returns_ret. keep_unrecorded. }
  intros self1 H1. apply returns_bind with (Q := unrecorded).
  { destruct (is_None (__distro_id self1)); [| apply returns_ret; exact H1].
    eapply returns_bind; [apply returns_any |]. intros d _.
    apply returns_ret. keep_unrecorded. }
  clear self1 H1. intros self1 H1. apply returns_bind with (Q := unrecorded).
  { destruct (is_None (__release self1)); [| apply returns_ret; exact H1].
    eapply returns_bind; [apply returns_any |]. intros d _.
    apply returns_ret. keep_unrecorded. }
  clear self1 H1. intros self1 H1.
  eapply returns_bind; [apply returns_any |]. intros rpm _. cbv zeta.
  destruct (is_None (__pkgr_path (set_pkgr_path rpm self1))).
  { eapply returns_bind; [apply returns_any |]. intros _ _. apply returns_exit. }
  eapply returns_bind; [apply returns_any |]. intros dnf _. cbv zeta.
  apply returns_bind with (Q := unrecorded).
  { match goal with |- returns (if ?c then _ else _) _ => destruct c end.
    - eapply returns_bind; [apply returns_any |]. intros yum _. cbv zeta.
      eapply returns_bind; [apply returns_any |]. intros dbg _.
      apply returns_ret. keep_unrecorded.
    - apply returns_ret. keep_unrecorded. }
  intros self2 H2.
  destruct (is_None (__pkgmgr_path self2)).
  { eapply returns_bind; [apply returns_any |]. intros _ _. apply returns_exit. }
  eapply returns_bind; [apply returns_any |]. intros wget _.
  apply returns_ret. keep_unrecorded.
Qed.

(** When the three strategies fail for the package at the head of the
    list, the loop ends the process: what follows in the list is not
    looked at. *)
Lemma main_loop_exhausted (pkgsys pkgsys' : PkgSystem)
    (name pkg_nvr build_id : string) (rest : list descriptor)
    (st st1 st2 st3 : state W) :
  pkg_exists host pkgsys name pkg_nvr build_id st = (Ret 0, st1) ->
  pkg_install host pkgsys name pkg_nvr build_id st1 = (Ret 0, st2) ->
  pkg_download_and_install host pkgsys name pkg_nvr build_id st2
  = (Ret (0, pkgsys'), st3) ->
  main_loop host pkgsys ((name, pkg_nvr, build_id) :: rest) st
  = (Exit 1,
     State (world st3)
       (trace st3 ++ [EvStderr ("Can't find package '" ++ pkg_nvr ++ "'")])).
Proof.
  intros H1 H2 H3. cbn [main_loop].
  rewrite (bind_value _ _ _ _ _ H1). cbn [truthy Z.eqb negb].
  rewrite (bind_value _ _ _ _ _ H2). cbn [truthy Z.eqb negb].
  rewrite (bind_value _ _ _ _ _ H3). cbn [truthy Z.eqb negb].
  reflexivity.
Qed.

(** An exit of the loop is the exit of [main]: the statements after the
    loop, [cleanup] among them, are not reached. *)
Lemma main_exits_with_loop (argv : sys_argv) (verbose code : Z)
    (name pkg_nvr build_id : string) (packages : list descriptor)
    (pkgsys : PkgSystem) (st sta stb stc std final : state W) :
  _handle_command_line argv st = (Ret (verbose, name, pkg_nvr, build_id), sta) ->
  os_chdir host "/root" sta = (Ret tt, stb) ->
  main_packages host name pkg_nvr build_id stb = (Ret packages, stc) ->
  __init__ host verbose stc = (Ret pkgsys, std) ->
  main_loop host pkgsys packages std = (Exit code, final) ->
  main host argv st = (Exit code, final).
Proof.
  intros Ha Hb Hc Hd He. unfold main.
  rewrite (bind_value _ _ _ _ _ Ha). cbv beta iota.
  rewrite (bind_value _ _ _ _ _ Hb).
  rewrite (bind_value _ _ _ _ _ Hc).
  rewrite (bind_value _ _ _ _ _ Hd).
  apply bind_exit. exact He.
Qed.

(** C2, as the code has it. When the three strategies fail for a package,
    the loop prints [Can't find package '<nvr>'] on standard error and
    exits with code 1 without looking at the packages after it; and [main]
    ends with that exit, in the state the diagnostic left: [cleanup], which
    comes after the loop, does not run. *)
Theorem exhausted_strategies_exit_without_cleanup
    (pkgsys pkgsys' : PkgSystem) (name pkg_nvr build_id : string)
    (rest : list descriptor) (st st1 st2 st3 : state W) :
  pkg_exists host pkgsys name pkg_nvr build_id st = (Ret 0, st1) ->
  pkg_install host pkgsys name pkg_nvr build_id st1 = (Ret 0, st2) ->
  pkg_download_and_install host pkgsys name pkg_nvr build_id st2
  = (Ret (0, pkgsys'), st3) ->
  let final :=
    State (world st3)
      (trace st3 ++ [EvStderr ("Can't find package '" ++ pkg_nvr ++ "'")]) in
  main_loop host pkgsys ((name, pkg_nvr, build_id) :: rest) st = (Exit 1, final)
  /\ forall argv verbose name0 pkg_nvr0 build_id0 st0 sta stb stc,
       _handle_command_line argv st0
       = (Ret (verbose, name0, pkg_nvr0, build_id0), sta) ->
       os_chdir host "/root" sta = (Ret tt, stb) ->
       main_packages host name0 pkg_nvr0 build_id0 stb
       = (Ret ((name, pkg_nvr, build_id) :: rest), stc) ->
       __init__ host verbose stc = (Ret pkgsys, st) ->
       main host argv st0 = (Exit 1, final).
Proof.
  intros H1 H2 H3 final.
  pose proof (main_loop_exhausted _ _ _ _ _ rest _ _ _ _ H1 H2 H3) as HL.
  split; [exact HL |].
  intros argv verbose name0 pkg_nvr0 build_id0 st0 sta stb stc Ha Hb Hc Hd.
  exact (main_exits_with_loop _ _ _ _ _ _ _ _ _ _ _ _ _ _ Ha Hb Hc Hd HL).
Qed.

(** C3, as the code has it. On an object that recorded no local repository
    file and no download directory, [cleanup] does nothing to the host and
    raises nothing, called once or twice in a row. *)
Theorem cleanup_without_artifacts (self : PkgSystem) (st : state W) :
  __local_repo_path self = "" ->
  __local_rpm_dir self = "" ->
  cleanup host self st = (Ret tt, st)
  /\ bind (cleanup host self) (fun _ => cleanup host self) st = (Ret tt, st).
Proof.
  intros Hrepo Hdir.
  assert (H : cleanup host self st = (Ret tt, st)).
  { unfold cleanup. rewrite Hrepo, Hdir. reflexivity. }
  split; [exact H |].
  rewrite (bind_value _ _ _ _ _ H). exact H.
Qed.

End Run.

(** ** The script on the concrete host *)

Lemma toy_init (verbose : Z) :
  __init__ Toy.host verbose
    (State Toy.fedora [EvChdir "/root"])
  = (Ret Toy.pkgsys, Toy.at_loop).
Proof. reflexivity. Qed.

(** C8. Run with [-v] on a machine where the kernel and its [-devel]
    package are installed, the script exits with 0 after finding both, the
    second through [pkg_exists] with an empty build id; yet the only line on
    standard output is the one [main] prints: the message of [pkg_exists] is
    lost, because the object never learns the verbosity. *)
Theorem verbose_messages_lost :
  let r := main Toy.host Toy.kernel_argv (Toy.start Toy.fedora) in
  fst r = Exit 0
  /\ In (EvCall ["/usr/bin/rpm"; "-qi"; "kernel-devel-5.10.0-1.x86_64"])
       (trace (snd r))
  /\ Toy.stdout (trace (snd r)) = ["All packages installed."]
  /\ fst (_handle_command_line Toy.kernel_argv (Toy.start Toy.fedora))
     = Ret (1, "kernel", "kernel-5.10.0-1.x86_64", "abcdef").
Proof.
  vm_compute. repeat split. do 8 right. left. reflexivity.
Qed.

(** C2, as the spec has it, fails: here the three strategies fail for
    [hello] after the download strategy has written the local repository
    file and fetched the download directory; the process exits with 1 right
    after the diagnostic, nothing is removed, and both are still there for
    a [cleanup] to remove. *)
Lemma exhaustion_leaves_artifacts :
  let r := main Toy.host Toy.hello_argv (Toy.start Toy.fedora) in
  fst r = Exit 1
  /\ trace (snd r)
     = [EvChdir "/root"; EvExists "/usr/bin/lsb_release";
        EvExists "/usr/bin/rpm"; EvExists "/usr/bin/dnf";
        EvExists "/usr/bin/wget";
        EvCall ["/usr/bin/rpm"; "-qi"; "hello-2.10-1.x86_64"];
        EvCall ["/usr/bin/dnf"; "install"; "-y"; "hello-2.10-1.x86_64"];
        EvStderr
          "URL: 'http://kojipkgs.fedoraproject.org/packages/hello/2.10/1/x86_64'";
        EvCall ["wget"; "--quiet"; "-nH"; "--cut-dirs=4"; "-r"; "-l"; "1";
                "http://kojipkgs.fedoraproject.org/packages/hello/2.10/1/x86_64"];
        EvExists "/etc/yum.repos.d/local.repo";
        EvWrite "/etc/yum.repos.d/local.repo" (local_repo_text "/root/x86_64");
        EvCall ["createrepo_c"; "--quiet"; "x86_64"];
        EvCall ["/usr/bin/dnf"; "install"; "-y"; "hello-2.10-1.x86_64"];
        EvStderr "Can't find package 'hello-2.10-1.x86_64'"]
  /\ (forall p, ~ In (EvRemove p) (trace (snd r)))
  /\ (forall p, ~ In (EvRmtree p) (trace (snd r)))
  /\ path_exists Toy.host (world (snd r)) "/etc/yum.repos.d/local.repo" = true
  /\ path_exists Toy.host (world (snd r)) "/root/x86_64" = true
  /\ Toy.files (world (snd r))
     = ["/etc/yum.repos.d/local.repo"; "/root/x86_64"; "/root"; "/usr/bin/rpm";
        "/usr/bin/dnf"; "/usr/bin/wget"]
  /\ Toy.files (world (snd (cleanup Toy.host Toy.recorded (snd r))))
     = ["/root"; "/usr/bin/rpm"; "/usr/bin/dnf"; "/usr/bin/wget"].
Proof.
  vm_compute. repeat split; intros p H;
    repeat (destruct H as [H | H]; [discriminate H |]); exact H.
Qed.

(** C3, as the spec has it, fails: after a download that recorded the
    local repository file and the download directory, a first [cleanup]
    removes them and a second one, called right after, raises. *)
Lemma cleanup_twice_raises :
  let download :=
    pkg_download_and_install Toy.host Toy.pkgsys
      "hello" "hello-2.10-1.x86_64" "ffee" Toy.at_loop in
  let first := cleanup Toy.host Toy.recorded (snd download) in
  let second := cleanup Toy.host Toy.recorded (snd first) in
  fst download = Ret (0, Toy.recorded)
  /\ fst first = Ret tt
  /\ Toy.files (world (snd download))
     = ["/etc/yum.repos.d/local.repo"; "/root/x86_64"; "/root"; "/usr/bin/rpm";
        "/usr/bin/dnf"; "/usr/bin/wget"]
  /\ Toy.files (world (snd first))
     = ["/root"; "/usr/bin/rpm"; "/usr/bin/dnf"; "/usr/bin/wget"]
  /\ fst second = Raise OSError.
Proof. vm_compute. repeat split. Qed.

(** C10, as the spec has it, fails: [kernel(] begins with [kernel], and
    it is not a regular expression (the parenthesis is never closed), so
    that [re.sub] raises [re.error], as the toy machine answers.  No
    [-devel] descriptor is appended: [main] ends with the exception right
    after entering [/root], before the constructor runs. *)
Lemma kernel_prefix_invalid_pattern_raises :
  let argv :=
    Argv Toy.prog ["--name"; "kernel("; "--pkg"; "kernel(-5.10.0-1.x86_64";
                   "--build_id"; "abcdef"] in
  let entered := State Toy.fedora [EvChdir "/root"] in
  PyStr.startswith "kernel" "kernel(" = true
  /\ Re.match_ kernel_regexp "kernel(" <> None
  /\ main_packages Toy.host "kernel(" "kernel(-5.10.0-1.x86_64" "abcdef"
       entered
     = (Raise ReError, entered)
  /\ main Toy.host argv (Toy.start Toy.fedora) = (Raise ReError, entered).
Proof. vm_compute. repeat split. discriminate. Qed.

(** ** The theorems at concrete inputs *)

Lemma build_id_is_valid_verdict_witness :
  fst (build_id_is_valid Toy.host Toy.pkgsys "kernel" "abcdef" Toy.at_loop)
  = Ret 1
  /\ fst (build_id_is_valid Toy.host Toy.pkgsys "kernel" "ffee" Toy.at_loop)
     = Ret 0.
Proof.
  split.
  - pose proof (build_id_is_valid_verdict Toy.host Toy.pkgsys
                  "kernel" "abcdef" Toy.at_loop) as T.
    cbv zeta in T. destruct T as [_ T]; [discriminate |].
    destruct (T eq_refl "../../../../boot/vmlinux" eq_refl) as [[_ T1] _].
    apply T1. reflexivity.
  - pose proof (build_id_is_valid_verdict Toy.host Toy.pkgsys
                  "kernel" "ffee" Toy.at_loop) as T.
    cbv zeta in T. destruct T as [T _]; [discriminate |].
    apply T. reflexivity.
Defined.

Lemma exhausted_strategies_exit_without_cleanup_witness :
  exists final,
    main_loop Toy.host Toy.pkgsys [("hello", "hello-2.10-1.x86_64", "ffee")]
      Toy.at_loop
    = (Exit 1, final)
    /\ main Toy.host Toy.hello_argv (Toy.start Toy.fedora) = (Exit 1, final).
Proof.
  set (st1 := snd (pkg_exists Toy.host Toy.pkgsys
                     "hello" "hello-2.10-1.x86_64" "ffee" Toy.at_loop)).
  set (st2 := snd (pkg_install Toy.host Toy.pkgsys
                     "hello" "hello-2.10-1.x86_64" "ffee" st1)).
  set (st3 := snd (pkg_download_and_install Toy.host Toy.pkgsys
                     "hello" "hello-2.10-1.x86_64" "ffee" st2)).
  destruct (exhausted_strategies_exit_without_cleanup Toy.host
              Toy.pkgsys Toy.recorded "hello" "hello-2.10-1.x86_64" "ffee" []
              Toy.at_loop st1 st2 st3) as [HL HM];
    [reflexivity | reflexivity | reflexivity |].
  eexists. split; [exact HL |].
  apply (HM Toy.hello_argv 0 "hello" "hello-2.10-1.x86_64" "ffee"
            (Toy.start Toy.fedora) (Toy.start Toy.fedora)
            (State Toy.fedora [EvChdir "/root"])
            (State Toy.fedora [EvChdir "/root"])); reflexivity.
Defined.

Lemma cleanup_without_artifacts_witness :
  cleanup Toy.host Toy.pkgsys Toy.at_loop = (Ret tt, Toy.at_loop)
  /\ bind (cleanup Toy.host Toy.pkgsys) (fun _ => cleanup Toy.host Toy.pkgsys)
       Toy.at_loop
     = (Ret tt, Toy.at_loop).
Proof.
  apply (cleanup_without_artifacts Toy.host Toy.pkgsys Toy.at_loop);
    reflexivity.
Defined.

Lemma pkg_download_unparsable_witness :
  exists diagnostic,
    pkg_download_and_install Toy.host Toy.pkgsys "hello" "badtoken" "ffee"
      Toy.at_loop
    = (Ret (0, Toy.pkgsys),
       State Toy.fedora (trace Toy.at_loop ++ [EvStderr diagnostic])).
Proof.
  destruct (pkg_download_unparsable Toy.host Toy.pkgsys "hello" "ffee"
              Toy.at_loop) as [T _].
  destruct (T "badtoken" eq_refl) as [diagnostic [E _]].
  exists diagnostic. exact E.
Defined.

Lemma pkg_download_refused_witness :
  pkg_download_and_install Toy.host
    (set_distro_id (Some (Str "Ubuntu")) Toy.pkgsys)
    "hello" "hello-2.10-1.x86_64" "ffee" Toy.at_loop
  = (Ret (0, set_distro_id (Some (Str "Ubuntu")) Toy.pkgsys),
     State Toy.fedora
       (trace Toy.at_loop
        ++ [EvStderr "Can't download package 'hello-2.10-1.x86_64'"])).
Proof.
  apply (pkg_download_refused Toy.host
           (set_distro_id (Some (Str "Ubuntu")) Toy.pkgsys)
           "hello" "hello-2.10-1.x86_64" "ffee" Toy.at_loop).
  right. intros s E. injection E as <-. vm_compute. discriminate.
Defined.

Lemma pkg_exists_skips_validator_witness :
  exists said,
    pkg_exists Toy.host Toy.pkgsys "bash" "bash-5.1.0-1.fc34.x86_64" ""
      Toy.at_loop
    = (Ret 1,
       State Toy.fedora
         (trace Toy.at_loop
          ++ EvCall ["/usr/bin/rpm"; "-qi"; "bash-5.1.0-1.fc34.x86_64"] :: said))
    /\ (forall p, ~ In (EvExists p) said).
Proof.
  destruct (pkg_exists_skips_validator Toy.host Toy.pkgsys
              "bash" "bash-5.1.0-1.fc34.x86_64" "/usr/bin/rpm"
              Toy.at_loop Toy.fedora eq_refl eq_refl)
    as [said [E [_ [N _]]]].
  exists said. split; [exact E | exact N].
Defined.

Lemma usage_on_bad_command_line_witness :
  (option_given "pkg" Toy.no_pkg_argv = false
   /\ exists said,
        _handle_command_line Toy.no_pkg_argv (Toy.start Toy.fedora)
        = (Exit 1,
           State Toy.fedora (said ++ [EvStderr (usage_line Toy.prog)]))
        /\ Forall is_stderr said)
  /\ exists said,
       _handle_command_line Toy.positional_argv (Toy.start Toy.fedora)
       = (Exit 1,
          State Toy.fedora (said ++ [EvStderr (usage_line Toy.prog)]))
       /\ Forall is_stderr said.
Proof.
  split; [split; [reflexivity |] |].
  - apply (usage_on_bad_command_line Toy.no_pkg_argv (Toy.start Toy.fedora)).
    left. exists "pkg". split; [simpl; auto | reflexivity].
  - apply (usage_on_bad_command_line Toy.positional_argv
             (Toy.start Toy.fedora)).
    do 2 right.
    exists [("--name", "bash"); ("--pkg", "bash-5.1.0-1.fc34.x86_64");
            ("--build_id", "123456")], "extra", [].
    reflexivity.
Defined.

Lemma kernel_prefix_adds_devel_witness :
  main_packages Toy.host "kernelfoo" "kernelfoo-1.0-1.x86_64" "ffee" Toy.at_loop
  = (Ret [("kernelfoo", "kernelfoo-1.0-1.x86_64", "ffee");
          ("kernelfoo-devel", "kernelfoo-devel-1.0-1.x86_64", "")],
     Toy.at_loop).
Proof.
  destruct (kernel_prefix_adds_devel Toy.host "kernelfoo"
              "kernelfoo-1.0-1.x86_64" "ffee" Toy.at_loop eq_refl)
    as [T _].
  exact T.
Defined.

(** * Further properties *)

(** ** [which] *)

Section Which.

Context {W : Type} (host : Host W).

Lemma which_in_run (cmd : string) (paths : list string) (st : state W) :
  which_in host paths cmd st
  = (Ret (find_in host (world st) paths cmd),
     State (world st) (trace st ++ probes_in host (world st) paths cmd)).
Proof.
  revert st. induction paths as [| d rest IH]; intros st.
  - simpl. unfold ret. rewrite app_nil_r. destruct st; reflexivity.
  - cbn [which_in find_in probes_in]. unfold bind, os_path_exists, logged.
    cbn [world trace].
    destruct (path_exists host (world st) (OsPath.join d cmd)).
    + reflexivity.
    + rewrite IH. cbn [world trace]. rewrite <- app_assoc. reflexivity.
Qed.

Lemma which_run (cmd PATH : string) (st : state W) :
  environ_PATH host (world st) = Some PATH ->
  which host cmd st
  = (Ret (find_in host (world st) (PyStr.split ":" PATH) cmd),
     State (world st)
       (trace st ++ probes_in host (world st) (PyStr.split ":" PATH) cmd)).
Proof.
  intros H. unfold which, bind, os_environ_PATH. rewrite H.
  apply which_in_run.
Qed.

Lemma find_in_first (w : W) (cmd : string) (paths : list string) :
  match find_in host w paths cmd with
  | Some p =>
      exists before d after,
        paths = (before ++ d :: after)%list
        /\ p = OsPath.join d cmd
        /\ path_exists host w (OsPath.join d cmd) = true
        /\ (forall d', In d' before ->
                       path_exists host w (OsPath.join d' cmd) = false)
        /\ probes_in host w paths cmd
           = map (fun x => EvExists (OsPath.join x cmd)) (before ++ [d])%list
  | None =>
      (forall d, In d paths -> path_exists host w (OsPath.join d cmd) = false)
      /\ probes_in host w paths cmd
         = map (fun x => EvExists (OsPath.join x cmd)) paths
  end.
Proof.
  induction paths as [| d rest IH]; cbn [find_in probes_in].
  - split; [intros d [] | reflexivity].
  - destruct (path_exists host w (OsPath.join d cmd)) eqn:E.
    + exists [], d, rest. repeat split; try assumption. intros d' [].
    + destruct (find_in host w rest cmd) as [p |].
      * destruct IH as (before & d0 & after & -> & -> & He & Hb & Hp).
        exists (d :: before), d0, after. repeat split; try assumption.
        -- intros d' [<- | Hin]; [exact E | exact (Hb d' Hin)].
        -- cbn [app map]. rewrite Hp. reflexivity.
      * destruct IH as [Hb Hp]. split.
        -- intros d' [<- | Hin]; [exact E | exact (Hb d' Hin)].
        -- cbn [map]. rewrite Hp. reflexivity.
Qed.

(** X1. [which] probes the directories of [PATH] in order, joined with the
    command, and stops at the first that exists: it returns that path after
    probing exactly the directories up to it, or [None] after probing every
    directory; it changes nothing on the machine. *)
Theorem which_first_match (cmd PATH : string) (st : state W) :
  environ_PATH host (world st) = Some PATH ->
  let w := world st in
  let here d := path_exists host w (OsPath.join d cmd) in
  let probe d := EvExists (OsPath.join d cmd) in
  (exists before d after,
     PyStr.split ":" PATH = (before ++ d :: after)%list
     /\ (forall d', In d' before -> here d' = false)
     /\ here d = true
     /\ which host cmd st
        = (Ret (Some (OsPath.join d cmd)),
           State w (trace st ++ map probe (before ++ [d]))%list))
  \/ ((forall d, In d (PyStr.split ":" PATH) -> here d = false)
      /\ which host cmd st
         = (Ret None, State w (trace st ++ map probe (PyStr.split ":" PATH))%list)).
Proof.
  intros H w here probe. rewrite (which_run cmd PATH st H).
  pose proof (find_in_first (world st) cmd (PyStr.split ":" PATH)) as F.
  destruct (find_in host (world st) (PyStr.split ":" PATH) cmd) as [p |].
  - left. destruct F as (before & d & after & Hs & -> & He & Hb & Hp).
    exists before, d, after. rewrite Hp. repeat split; assumption.
  - right. destruct F as [Hb Hp]. rewrite Hp. split; [exact Hb | reflexivity].
Qed.

End Which.

(** ** The constructor *)

Section Constructor.

Context {W : Type} (host : Host W).

Lemma is_None_false {A : Type} (o : option A) : is_None o = false -> o <> None.
Proof. destruct o; [intros _; discriminate | discriminate]. Qed.

Lemma init_returns (verbose : Z) :
  returns (__init__ host verbose) constructed.
Proof.
  unfold __init__.
  eapply returns_bind; [apply returns_any |]. intros lsb_release _.
  apply returns_bind with (Q := unrecorded).
  { destruct lsb_release as [lsb |]; [| apply returns_ret; keep_unrecorded].
    apply returns_bind with (Q := unrecorded).
    - apply returns_except; [| keep_unrecorded].
      eapply returns_bind; [apply returns_any |]. intros out _.
      apply returns_ret. keep_unrecorded.
    - intros self1 H1. apply returns_except; [| exact H1].
      eapply returns_bind; [apply returns_any |]. intros out _.
      apply returns_ret. keep_unrecorded. }
  intros self1 H1.
  apply returns_bind
    with (Q := fun s => unrecorded s /\ __distro_id s <> None).
  { destruct (is_None (__distro_id self1)) eqn:E.
    - eapply returns_bind; [apply returns_any |]. intros d _.
      apply returns_ret. split; [keep_unrecorded | discriminate].
    - apply returns_ret. split; [exact H1 | exact (is_None_false _ E)]. }
  clear self1 H1. intros self1 [H1 Hd].
  apply returns_bind
    with (Q := fun s => unrecorded s /\ __distro_id s <> None
                        /\ __release s <> None).
  { destruct (is_None (__release self1)) eqn:E.
    - eapply returns_bind; [apply returns_any |]. intros d _.
      apply returns_ret. split; [keep_unrecorded |].
      split; [exact Hd | discriminate].
    - apply returns_ret.
      split; [exact H1 |]. split; [exact Hd | exact (is_None_false _ E)]. }
  clear self1 H1 Hd. intros self1 (H1 & Hd & Hr).
  eapply returns_bind; [apply returns_any |]. intros rpm _. cbv zeta.
  destruct (is_None (__pkgr_path (set_pkgr_path rpm self1))) eqn:Erpm.
  { eapply returns_bind; [apply returns_any |]. intros _ _. apply returns_exit. }
  apply is_None_false in Erpm.
  eapply returns_bind; [apply returns_any |]. intros dnf _. cbv zeta.
  apply returns_bind
    with (Q := fun s =>
            unrecorded s /\ __distro_id s <> None /\ __release s <> None
            /\ __pkgr_path s <> None
            /\ (__debuginfo_install s = [__pkgmgr_path s; Some "debuginfo-install"]
                \/ exists word, __debuginfo_install s = [word])).
  { match goal with |- returns (if ?c then _ else _) _ => destruct c end.
    - eapply returns_bind; [apply returns_any |]. intros yum _. cbv zeta.
      eapply returns_bind; [apply returns_any |]. intros dbg _.
      apply returns_ret. split; [keep_unrecorded |].
      repeat split; try assumption. right. exists dbg. reflexivity.
    - apply returns_ret. split; [keep_unrecorded |].
      repeat split; try assumption. left. reflexivity. }
  intros self2 (H2 & Hd2 & Hr2 & Hp2 & Hdbg).
  destruct (is_None (__pkgmgr_path self2)) eqn:Emgr.
  { eapply returns_bind; [apply returns_any |]. intros _ _. apply returns_exit. }
  apply is_None_false in Emgr.
  eapply returns_bind; [apply returns_any |]. intros wget _.
  apply returns_ret. destruct H2 as (Hv & Hl1 & Hl2).
  unfold constructed. simpl. repeat split; assumption.
Qed.

(** X2. Every object the constructor returns has the class's verbosity 0
    whatever verbosity was passed, a package query tool and a package
    manager that were found, a distro id and a release that are not [None],
    a debuginfo command that is either the package manager followed by
    [debuginfo-install] or a single word, and no local repository
    recorded. *)
Theorem init_object_invariants (verbose : Z) (st st' : state W)
    (self : PkgSystem) :
  __init__ host verbose st = (Ret self, st') ->
  __verbose self = 0
  /\ __pkgr_path self <> None
  /\ __pkgmgr_path self <> None
  /\ __distro_id self <> None
  /\ __release self <> None
  /\ (__debuginfo_install self = [__pkgmgr_path self; Some "debuginfo-install"]
      \/ exists word, __debuginfo_install self = [word])
  /\ __local_repo_path self = ""
  /\ __local_rpm_dir self = "".
Proof. intros H. exact (init_returns verbose st self st' H). Qed.

End Constructor.

Section ConstructorRun.

Context {W : Type} (host : Host W).

Lemma bind_assoc {A B C : Type} (c : M W A) (g : A -> M W B) (f : B -> M W C)
    (st : state W) :
  bind (bind c g) f st = bind c (fun a => bind (g a) f) st.
Proof.
  unfold bind. destruct (c st) as [[a | n | e] st1]; reflexivity.
Qed.

Lemma bind_platform {B : Type} (h : string * string -> M W B) (w : W)
    (tr : list event) (d : string * string) :
  linux_distribution host w = Some d ->
  bind (platform_linux_distribution host) h (State w tr) = h d (State w tr).
Proof.
  intros H. unfold bind, platform_linux_distribution. cbn [world].
  rewrite H. reflexivity.
Qed.

Ltac which_step HP :=
  match goal with
  | |- bind (which host ?cmd) ?f ?st = _ =>
      rewrite (bind_value _ f st _ _ (which_run host cmd _ st HP));
      cbn [world trace]
  end.

Ltac fields :=
  cbn [fst snd set_distro_id set_release set_pkgr_path set_pkgmgr_path
       set_debuginfo_install set_wget_path __distro_id __release is_None
       __verbose __pkgr_path __pkgmgr_path __debuginfo_install __wget_path
       __local_repo_path __local_rpm_dir PkgSystem_class].

(** X3. On a machine without [lsb_release], where
    [platform.linux_distribution] answers, the constructor is determined by
    what [which] finds: without [rpm] it exits with 1 after its diagnostic;
    with [dnf] it returns the object of [dnf]; without [dnf] and with [yum]
    it returns the object of [yum], whose debuginfo command is the one word
    [which] found for [debuginfo-install], possibly [None]; without both it
    exits with 1 after its diagnostic.  The probes are those of [which], in
    the order of the source, and no command is run. *)
Theorem init_without_lsb_release (verbose : Z) (st : state W)
    (PATH distname version : string) :
  let w := world st in
  let look := find_in host w (PyStr.split ":" PATH) in
  let probes := probes_in host w (PyStr.split ":" PATH) in
  environ_PATH host w = Some PATH ->
  look "lsb_release" = None ->
  linux_distribution host w = Some (distname, version) ->
  __init__ host verbose st
  = match look "rpm" with
    | None =>
        (Exit 1,
         State w (trace st ++ probes "lsb_release" ++ probes "rpm"
                  ++ [EvStderr "Can't find the 'rpm' executable."])%list)
    | Some rpm =>
        match look "dnf" with
        | Some dnf =>
            (Ret (mkPkgSystem 0 (Some (Str distname)) (Some (Str version))
                    (Some rpm) (Some dnf)
                    [Some dnf; Some "debuginfo-install"] (look "wget") "" ""),
             State w (trace st ++ probes "lsb_release" ++ probes "rpm"
                      ++ probes "dnf" ++ probes "wget")%list)
        | None =>
            match look "yum" with
            | Some yum =>
                (Ret (mkPkgSystem 0 (Some (Str distname)) (Some (Str version))
                        (Some rpm) (Some yum)
                        [look "debuginfo-install"] (look "wget") "" ""),
                 State w (trace st ++ probes "lsb_release" ++ probes "rpm"
                          ++ probes "dnf" ++ probes "yum"
                          ++ probes "debuginfo-install" ++ probes "wget")%list)
            | None =>
                (Exit 1,
                 State w (trace st ++ probes "lsb_release" ++ probes "rpm"
                          ++ probes "dnf" ++ probes "yum"
                          ++ probes "debuginfo-install"
                          ++ [EvStderr
                                "Can't find a package manager (either 'dnr' or 'yum')."])%list)
            end
        end
    end.
Proof.
  intros w look probes HP Hlsb Hdist. unfold __init__.
  which_step HP. fold w. fold (look "lsb_release"). rewrite Hlsb.
  fold (probes "lsb_release").
  rewrite bind_ret. fields.
  rewrite bind_assoc, (bind_platform _ _ _ _ Hdist). rewrite bind_ret. fields.
  rewrite bind_assoc, (bind_platform _ _ _ _ Hdist). rewrite bind_ret. fields.
  which_step HP. fold w. fold (look "rpm"). fold (probes "rpm"). fields.
  destruct (look "rpm") as [rpm |]; fields.
  2:{ unfold bind, _eprint, emit, sys_exit. cbn [world trace].
      repeat rewrite <- app_assoc. reflexivity. }
  which_step HP. fold w. fold (look "dnf"). fold (probes "dnf"). fields.
  destruct (look "dnf") as [dnf |]; fields.
  - rewrite bind_ret. fields.
    which_step HP. fold w. fold (look "wget"). fold (probes "wget").
    unfold ret. fields. repeat rewrite <- app_assoc. reflexivity.
  - rewrite bind_assoc.
    which_step HP. fold w. fold (look "yum"). fold (probes "yum").
    rewrite bind_assoc.
    which_step HP. fold w. fold (look "debuginfo-install").
    fold (probes "debuginfo-install").
    rewrite bind_ret. fields.
    destruct (look "yum") as [yum |]; fields.
    + which_step HP. fold w. fold (look "wget"). fold (probes "wget").
      unfold ret. fields. repeat rewrite <- app_assoc. reflexivity.
    + unfold bind, _eprint, emit, sys_exit. cbn [world trace].
      repeat rewrite <- app_assoc. reflexivity.
Qed.

End ConstructorRun.

Section ConstructorDistro.

Context {W : Type} (host : Host W).

Lemma check_output_kept (argv : list string) (f : text -> PkgSystem)
    (dflt : PkgSystem) (w w1 : W) (tr : list event) (out : text) :
  check_output host w argv = (CheckOutput out, w1) ->
  except_CalledProcessError_pass
    (out <- subprocess_check_output host argv ;; ret (f out)) dflt
    (State w tr)
  = (Ret (f out), State w1 (tr ++ [EvCheckOutput argv])).
Proof.
  intros H. unfold except_CalledProcessError_pass, bind,
    subprocess_check_output.
  cbn [world trace]. rewrite H. reflexivity.
Qed.

(** The distro id [lsb_release -is] answered stays in the object. *)
Lemma init_distro_of_lsb_release (verbose : Z) (st st' : state W)
    (PATH lsb : string) (out : text) (w1 : W) (self : PkgSystem) :
  environ_PATH host (world st) = Some PATH ->
  find_in host (world st) (PyStr.split ":" PATH) "lsb_release" = Some lsb ->
  check_output host (world st) [lsb; "-is"] = (CheckOutput out, w1) ->
  __init__ host verbose st = (Ret self, st') ->
  __distro_id self = Some (text_strip out).
Proof.
  intros HP Hlsb Hout H. unfold __init__ in H.
  rewrite (bind_value _ _ st _ _ (which_run host "lsb_release" PATH st HP))
    in H.
  rewrite Hlsb in H. rewrite bind_assoc in H.
  rewrite (bind_value _ _ _ _ _
             (check_output_kept _ _ _ _ _ _ _ Hout)) in H.
  revert H.
  match goal with |- ?c ?s0 = _ -> _ =>
    enough (R : returns c (fun x => __distro_id x = Some (text_strip out)))
      by exact (R s0 self st')
  end.
  apply returns_bind
    with (Q := fun s => __distro_id s = Some (text_strip out)).
  { apply returns_except; [| reflexivity].
    eapply returns_bind; [apply returns_any |]. intros out2 _.
    apply returns_ret. reflexivity. }
  intros self1 H1.
  apply returns_bind
    with (Q := fun s => __distro_id s = Some (text_strip out)).
  { rewrite H1. cbn [is_None]. apply returns_ret. exact H1. }
  clear self1 H1. intros self1 H1.
  apply returns_bind
    with (Q := fun s => __distro_id s = Some (text_strip out)).
  { destruct (is_None (__release self1)).
    - eapply returns_bind; [apply returns_any |]. intros d _.
      apply returns_ret. exact H1.
    - apply returns_ret. exact H1. }
  clear self1 H1. intros self1 H1.
  eapply returns_bind; [apply returns_any |]. intros rpm _. cbv zeta.
  destruct (is_None (__pkgr_path (set_pkgr_path rpm self1))).
  { eapply returns_bind; [apply returns_any |]. intros _ _. apply returns_exit. }
  eapply returns_bind; [apply returns_any |]. intros dnf _. cbv zeta.
  apply returns_bind
    with (Q := fun s => __distro_id s = Some (text_strip out)).
  { match goal with |- returns (if ?c then _ else _) _ => destruct c end.
    - eapply returns_bind; [apply returns_any |]. intros yum _. cbv zeta.
      eapply returns_bind; [apply returns_any |]. intros dbg _.
      apply returns_ret. exact H1.
    - apply returns_ret. exact H1. }
  intros self2 H2.
  destruct (is_None (__pkgmgr_path self2)).
  { eapply returns_bind; [apply returns_any |]. intros _ _. apply returns_exit. }
  eapply returns_bind; [apply returns_any |]. intros wget _.
  apply returns_ret. exact H2.
Qed.

(** X4. When [lsb_release -is] answers in bytes, as [check_output] does
    under Python 3, the object the constructor returns keeps the stripped
    bytes as its distro id, and its download strategy refuses every package:
    it prints that the package cannot be downloaded and returns 0 without
    running a command, because bytes never equal the text [fedora]. *)
Theorem lsb_release_bytes_refuse_download (verbose : Z) (st st' : state W)
    (PATH lsb b : string) (w1 : W) (self : PkgSystem) :
  environ_PATH host (world st) = Some PATH ->
  find_in host (world st) (PyStr.split ":" PATH) "lsb_release" = Some lsb ->
  check_output host (world st) [lsb; "-is"] = (CheckOutput (Bytes b), w1) ->
  __init__ host verbose st = (Ret self, st') ->
  __distro_id self = Some (Bytes (PyStr.strip b))
  /\ forall (name pkg_nvr build_id : string) (st2 : state W),
       pkg_download_and_install host self name pkg_nvr build_id st2
       = (Ret (0, self),
          State (world st2)
            (trace st2
             ++ [EvStderr ("Can't download package '" ++ pkg_nvr ++ "'")])).
Proof.
  intros HP Hlsb Hout H.
  pose proof (init_distro_of_lsb_release verbose st st' PATH lsb (Bytes b)
                w1 self HP Hlsb Hout H) as Hd.
  cbn [text_strip] in Hd. split; [exact Hd |].
  intros name pkg_nvr build_id st2.
  unfold pkg_download_and_install. rewrite Hd.
  cbn [text_lower text_ne]. rewrite orb_true_r. reflexivity.
Qed.

(** X5. On a machine without [lsb_release] under a Python whose
    [platform] module has no [linux_distribution], the constructor raises
    [AttributeError] right after looking for [lsb_release]: before it looks
    for [rpm] or a package manager. *)
Theorem init_without_distribution (verbose : Z) (st : state W)
    (PATH : string) :
  let w := world st in
  environ_PATH host w = Some PATH ->
  find_in host w (PyStr.split ":" PATH) "lsb_release" = None ->
  linux_distribution host w = None ->
  __init__ host verbose st
  = (Raise AttributeError,
     State w (trace st
              ++ probes_in host w (PyStr.split ":" PATH) "lsb_release")).
Proof.
  intros w HP Hlsb Hdist. unfold __init__.
  rewrite (bind_value _ _ st _ _ (which_run host "lsb_release" PATH st HP)).
  fold w. rewrite Hlsb. rewrite bind_ret.
  cbn [__distro_id PkgSystem_class is_None].
  unfold bind, platform_linux_distribution. cbn [world].
  rewrite Hdist. reflexivity.
Qed.

End ConstructorDistro.

(** ** The command line *)

(** X6. The loop over the parsed options adds one to the verbosity for
    each [-v] and leaves in name, nvr and build id the value of the last
    occurrence of [--name], [--pkg] and [--build_id], or the initial value
    when the option does not occur. *)
Theorem assign_options_last_wins (opts : Getopt.opt_list)
    (verbose : Z) (name pkg_nvr build_id : string) :
  fold_left assign_option opts (verbose, name, pkg_nvr, build_id)
  = (verbose + occurrences "-v" opts,
     last_value "--name" opts name,
     last_value "--pkg" opts pkg_nvr,
     last_value "--build_id" opts build_id).
Proof.
  revert verbose name pkg_nvr build_id.
  induction opts as [| [opt value] opts IH]; intros verbose name pkg_nvr build_id.
  - simpl. rewrite Z.add_0_r. reflexivity.
  - cbn [fold_left last_value occurrences]. unfold assign_option at 2.
    destruct (String.eqb_spec opt "-v") as [-> | Hv].
    { rewrite IH. change (String.eqb "-v" "--name") with false.
      change (String.eqb "-v" "--pkg") with false.
      change (String.eqb "-v" "--build_id") with false.
      change (String.eqb "-v" "-v") with true. cbv iota.
      rewrite Z.add_assoc. reflexivity. }
    destruct (String.eqb_spec opt "--name") as [-> | Hn].
    { rewrite IH. cbn. reflexivity. }
    destruct (String.eqb_spec opt "--pkg") as [-> | Hp].
    { rewrite IH. cbn. reflexivity. }
    destruct (String.eqb_spec opt "--build_id") as [-> | Hb].
    { rewrite IH. cbn. reflexivity. }
    rewrite IH. reflexivity.
Qed.

Lemma fold_assign_verbose (opts : Getopt.opt_list) (acc : option_values) :
  fst (fst (fst acc)) <= fst (fst (fst (fold_left assign_option opts acc))).
Proof.
  revert acc. induction opts as [| [opt value] opts IH]; intros acc;
    [simpl; lia |].
  cbn [fold_left]. eapply Z.le_trans; [| apply IH].
  destruct acc as [[[vb n] p] b]. unfold assign_option.
  destruct (String.eqb opt "-v"); [simpl; lia |].
  destruct (String.eqb opt "--name"); [simpl; lia |].
  destruct (String.eqb opt "--pkg"); [simpl; lia |].
  destruct (String.eqb opt "--build_id"); simpl; lia.
Qed.

Section CommandLineMore.

Context {W : Type}.

(** X7. When [_handle_command_line] returns, it has printed nothing,
    the name, the nvr and the build id are not empty, the verbosity is not
    negative, the command line had at least three arguments and [getopt]
    parsed it into options with no positional argument left. *)
Theorem command_line_values (argv : sys_argv) (st st' : state W)
    (verbose : Z) (name pkg_nvr build_id : string) :
  _handle_command_line argv st = (Ret (verbose, name, pkg_nvr, build_id), st') ->
  st' = st
  /\ name <> "" /\ pkg_nvr <> "" /\ build_id <> ""
  /\ 0 <= verbose
  /\ (3 <= length (args argv))%nat
  /\ exists opts,
       Getopt.getopt (args argv) "v" longopts = Getopt.Ok (opts, [])
       /\ fold_left assign_option opts (0, "", "", "")
          = (verbose, name, pkg_nvr, build_id).
Proof.
  unfold _handle_command_line. intros H.
  destruct (S (length (args argv)) <? 4)%nat eqn:Hlen;
    [rewrite usage_exits in H; discriminate H |].
  destruct (Getopt.getopt (args argv) "v" longopts)
    as [[opts pargs] | err];
    [| unfold bind, _eprint, emit in H; cbn in H; discriminate H].
  pose proof (fold_assign_verbose opts (0, "", "", "")) as Hv.
  destruct (fold_left assign_option opts (0, "", "", ""))
    as [[[v n] p] b] eqn:HF.
  destruct pargs as [| x pargs]; [| rewrite usage_exits in H; discriminate H].
  destruct n as [| c1 n];
    [unfold bind, _eprint, emit in H; cbn in H; discriminate H |].
  destruct p as [| c2 p];
    [unfold bind, _eprint, emit in H; cbn in H; discriminate H |].
  destruct b as [| c3 b];
    [unfold bind, _eprint, emit in H; cbn in H; discriminate H |].
  cbn [PyStr.falsy orb] in H. unfold ret in H.
  injection H as <- <- <- <- <-.
  apply Nat.ltb_ge in Hlen. cbn in Hv.
  repeat split; try discriminate; try lia.
  exists opts. split; [reflexivity | exact HF].
Qed.

End CommandLineMore.

Lemma getopt_flags (k : nat) (rest : list string) :
  Getopt.getopt (repeat "-v" k ++ rest)%list "v" longopts
  = match Getopt.getopt rest "v" longopts with
    | Getopt.Ok (os, pargs) => Getopt.Ok ((repeat ("-v", "") k ++ os)%list, pargs)
    | Getopt.GetoptError e => Getopt.GetoptError e
    end.
Proof.
  induction k as [| k IH].
  - simpl. destruct (Getopt.getopt rest "v" longopts) as [[os pargs] | e];
      reflexivity.
  - change (repeat "-v" (S k) ++ rest)%list
      with ("-v" :: (repeat "-v" k ++ rest))%list.
    cbn [Getopt.getopt].
    change (PyStr.startswith "-" "-v" && negb (String.eqb "-v" "-")) with true.
    change (String.eqb "-v" "--") with false.
    change (PyStr.startswith "--" "-v") with false.
    cbv iota.
    change (Getopt.do_shorts (PyStr.drop 1 "-v") "v" (repeat "-v" k ++ rest)%list)
      with (@Getopt.Ok (Getopt.opt_list * bool) ([("-v", "")], false)).
    cbv iota. rewrite IH.
    destruct (Getopt.getopt rest "v" longopts) as [[os pargs] | e];
      reflexivity.
Qed.

Lemma fold_flags (k : nat) (opts : Getopt.opt_list) (verbose : Z)
    (name pkg_nvr build_id : string) :
  fold_left assign_option (repeat ("-v", "") k ++ opts)%list
    (verbose, name, pkg_nvr, build_id)
  = fold_left assign_option opts (verbose + Z.of_nat k, name, pkg_nvr, build_id).
Proof.
  revert verbose. induction k as [| k IH]; intros verbose.
  - simpl. rewrite Z.add_0_r. reflexivity.
  - change (repeat ("-v", "") (S k) ++ opts)%list
      with (("-v", "") :: (repeat ("-v", "") k ++ opts))%list.
    cbn [fold_left]. unfold assign_option at 2.
    change (String.eqb "-v" "-v") with true. cbv iota.
    rewrite IH.
    replace (verbose + Z.of_nat (S k)) with (verbose + 1 + Z.of_nat k) by lia.
    reflexivity.
Qed.

Section CommandLineForms.

Context {W : Type}.

(** X8. The command line of the usage message is accepted: any number
    of [-v], then [--name], [--pkg] and [--build_id] each followed by a
    non-empty value, is returned as the count of [-v] and the three values,
    and so is the form with [--option=value]; nothing is printed. *)
Theorem usage_forms_accepted (prog name pkg_nvr build_id : string) (k : nat)
    (st : state W) :
  name <> "" -> pkg_nvr <> "" -> build_id <> "" ->
  _handle_command_line
    (Argv prog (repeat "-v" k
                ++ ["--name"; name; "--pkg"; pkg_nvr; "--build_id"; build_id])%list)
    st
  = (Ret (Z.of_nat k, name, pkg_nvr, build_id), st)
  /\ _handle_command_line
       (Argv prog ["--name=" ++ name; "--pkg=" ++ pkg_nvr;
                   "--build_id=" ++ build_id])
       st
     = (Ret (0, name, pkg_nvr, build_id), st).
Proof.
  intros Hn Hp Hb.
  destruct name as [| c1 name]; [congruence |].
  destruct pkg_nvr as [| c2 pkg_nvr]; [congruence |].
  destruct build_id as [| c3 build_id]; [congruence |].
  split.
  - unfold _handle_command_line. cbn [args].
    replace (S (length (repeat "-v" k ++ _)) <? 4)%nat with false.
    2:{ symmetry. apply Nat.ltb_ge. rewrite length_app. simpl. lia. }
    rewrite getopt_flags.
    change (Getopt.getopt ["--name"; String c1 name; "--pkg"; String c2 pkg_nvr;
                           "--build_id"; String c3 build_id] "v" longopts)
      with (@Getopt.Ok (Getopt.opt_list * list string)
              ([("--name", String c1 name); ("--pkg", String c2 pkg_nvr);
                ("--build_id", String c3 build_id)], [])).
    cbv iota. rewrite fold_flags. reflexivity.
  - reflexivity.
Qed.

End CommandLineForms.

(** ** The packages of a kernel *)

Lemma sub_literal_skip (p repl q rest : string) :
  Re.sub_literal p repl (String.length q) (q ++ rest)
  = Re.sub_literal p repl O rest.
Proof.
  induction q as [| c q IH]; [reflexivity |].
  cbn [String.length append Re.sub_literal]. exact IH.
Qed.

Lemma sub_literal_head (p repl rest : string) :
  p <> "" ->
  Re.sub_literal p repl O (p ++ rest) = repl ++ Re.sub_literal p repl O rest.
Proof.
  intros Hp. destruct p as [| c p]; [congruence |].
  change (String c p ++ rest) with (String c (p ++ rest)).
  cbn [Re.sub_literal].
  replace (String.prefix (String c p) (String c (p ++ rest))) with true
    by (symmetry; apply prefix_split; exists rest; reflexivity).
  cbn [String.length]. rewrite Nat.sub_1_r. cbn [Nat.pred].
  rewrite sub_literal_skip. reflexivity.
Qed.

Lemma sub_literal_absent (p repl s : string) :
  occurs p s = false -> Re.sub_literal p repl O s = s.
Proof.
  induction s as [| c s IH]; [reflexivity |].
  cbn [occurs Re.sub_literal]. intros H.
  apply orb_false_iff in H. destruct H as [Hp Hs].
  rewrite Hp, (IH Hs). reflexivity.
Qed.

Section AssemblyMore.

Context {W : Type} (host : Host W).

(** X9. For a name that starts with [kernel], has no regular
    expression metacharacter, and an nvr that starts with the name and does
    not hold it again, the second package is [name-devel] with the nvr in
    which [-devel] follows the name, and with an empty build id. *)
Theorem devel_nvr_of_leading_name (name rest build_id : string)
    (st : state W) :
  PyStr.startswith "kernel" name = true ->
  Re.literal_pattern name = true ->
  occurs name rest = false ->
  main_packages host name (name ++ rest) build_id st
  = (Ret [(name, name ++ rest, build_id);
          (name ++ "-devel", name ++ "-devel" ++ rest, "")],
     st).
Proof.
  intros Hk Hl Ho. apply kernel_regexp_match_iff in Hk.
  unfold main_packages, re_sub.
  destruct (Re.match_ kernel_regexp name); [| congruence].
  rewrite (re_sub_literal_name host name (name ++ rest) Hl).
  assert (Hne : name <> "").
  { intros ->. discriminate Hl. }
  rewrite (sub_literal_head name (name ++ "-devel") rest Hne).
  rewrite (sub_literal_absent name (name ++ "-devel") rest Ho).
  rewrite app_assoc_s. reflexivity.
Qed.

(** X10. For a name that starts with [kernel] and has no regular
    expression metacharacter, when the name does not occur in the nvr, the
    [-devel] package is asked for under the nvr of the package itself. *)
Theorem devel_nvr_without_name (name pkg_nvr build_id : string)
    (st : state W) :
  PyStr.startswith "kernel" name = true ->
  Re.literal_pattern name = true ->
  occurs name pkg_nvr = false ->
  main_packages host name pkg_nvr build_id st
  = (Ret [(name, pkg_nvr, build_id); (name ++ "-devel", pkg_nvr, "")], st).
Proof.
  intros Hk Hl Ho. apply kernel_regexp_match_iff in Hk.
  unfold main_packages, re_sub.
  destruct (Re.match_ kernel_regexp name); [| congruence].
  rewrite (re_sub_literal_name host name pkg_nvr Hl).
  rewrite (sub_literal_absent name (name ++ "-devel") pkg_nvr Ho).
  reflexivity.
Qed.

End AssemblyMore.

(** ** What a run does: the events of the trace *)

Section Effects.

Context {W : Type} (host : Host W).

Lemma adds_nothing {A : Type} (c : M W A) (P : event -> Prop) :
  (forall st, snd (c st) = st) -> adds c P.
Proof.
  intros H st. exists []. rewrite H, app_nil_r. split; [reflexivity | constructor].
Qed.

Lemma adds_ret {A : Type} (a : A) (P : event -> Prop) :
  adds (W := W) (ret a) P.
Proof. apply adds_nothing. reflexivity. Qed.

Lemma adds_exit {A : Type} (code : Z) (P : event -> Prop) :
  adds (W := W) (A := A) (sys_exit code) P.
Proof. apply adds_nothing. reflexivity. Qed.

Lemma adds_raise {A : Type} (e : exn) (P : event -> Prop) :
  adds (W := W) (A := A) (raise e) P.
Proof. apply adds_nothing. reflexivity. Qed.

Lemma adds_emit (e : event) (P : event -> Prop) :
  P e -> adds (W := W) (emit e) P.
Proof.
  intros H st. exists [e]. split; [reflexivity | constructor; [exact H | constructor]].
Qed.

Lemma adds_weaken {A : Type} (c : M W A) (P P' : event -> Prop) :
  adds c P -> (forall e, P e -> P' e) -> adds c P'.
Proof.
  intros H HP st. destruct (H st) as (added & E & F).
  exists added. split; [exact E |]. eapply Forall_impl; [exact HP | exact F].
Qed.

Lemma adds_bind_returns {A B : Type} (c : M W A) (f : A -> M W B)
    (P : event -> Prop) (Q : A -> Prop) :
  adds c P -> returns c Q -> (forall a, Q a -> adds (f a) P) ->
  adds (bind c f) P.
Proof.
  intros Hc Hq Hf st. destruct (Hc st) as (l1 & E1 & F1). unfold bind.
  destruct (c st) as [[a | n | e] st1] eqn:Ec; cbn [snd] in *.
  - destruct (Hf a (Hq _ _ _ Ec) st1) as (l2 & E2 & F2).
    exists (l1 ++ l2)%list. rewrite E2, E1, app_assoc.
    split; [reflexivity | apply Forall_app; split; assumption].
  - exists l1. split; assumption.
  - exists l1. split; assumption.
Qed.

Lemma adds_bind {A B : Type} (c : M W A) (f : A -> M W B) (P : event -> Prop) :
  adds c P -> (forall a, adds (f a) P) -> adds (bind c f) P.
Proof.
  intros Hc Hf.
  apply adds_bind_returns with (Q := fun _ => True);
    [exact Hc | apply returns_any | intros a _; apply Hf].
Qed.

Lemma adds_exists (p : string) (P : event -> Prop) :
  P (EvExists p) -> adds (os_path_exists host p) P.
Proof.
  intros H st. exists [EvExists p].
  split; [reflexivity | constructor; [exact H | constructor]].
Qed.

Lemma adds_readlink (p : string) (P : event -> Prop) :
  P (EvReadlink p) -> adds (os_readlink host p) P.
Proof.
  intros H st. exists [EvReadlink p]. unfold os_readlink.
  destruct (readlink host (world st) p);
    (split; [reflexivity | constructor; [exact H | constructor]]).
Qed.

Lemma adds_update (e : event) (op : W -> option W) (P : event -> Prop) :
  P e -> adds (os_update e op) P.
Proof.
  intros H st. exists [e]. unfold os_update.
  destruct (op (world st));
    (split; [reflexivity | constructor; [exact H | constructor]]).
Qed.

Lemma adds_call (argv : list (option string)) (P : event -> Prop) :
  (forall a, argv_strings argv = Some a -> P (EvCall a)) ->
  adds (subprocess_call host argv) P.
Proof.
  intros H. unfold subprocess_call.
  destruct (argv_strings argv) as [a |]; [| apply adds_raise].
  intros st. exists [EvCall a].
  destruct (call host (world st) a) as [[rc w'] |];
    (split; [reflexivity | constructor; [exact (H a eq_refl) | constructor]]).
Qed.

Lemma adds_check_output (argv : list string) (P : event -> Prop) :
  P (EvCheckOutput argv) -> adds (subprocess_check_output host argv) P.
Proof.
  intros H st. exists [EvCheckOutput argv]. unfold subprocess_check_output.
  destruct (check_output host (world st) argv) as [[out | |] w'];
    (split; [reflexivity | constructor; [exact H | constructor]]).
Qed.

Lemma adds_except {A : Type} (body : M W A) (dflt : A) (P : event -> Prop) :
  adds body P -> adds (except_CalledProcessError_pass body dflt) P.
Proof.
  intros H st. destruct (H st) as (l & E & F). exists l.
  unfold except_CalledProcessError_pass.
  destruct (body st) as [[a | n | e] st1]; cbn [snd] in *;
    try (split; assumption).
  destruct e; split; assumption.
Qed.

Lemma adds_which (cmd : string) (P : event -> Prop) :
  (forall p, P (EvExists p)) -> adds (which host cmd) P.
Proof.
  intros H. unfold which. apply adds_bind.
  - apply adds_nothing. intros st. unfold os_environ_PATH.
    destruct (environ_PATH host (world st)); reflexivity.
  - intros PATH. induction (PyStr.split ":" PATH) as [| d rest IH].
    + apply adds_ret.
    + cbn [which_in]. apply adds_bind; [apply adds_exists; apply H |].
      intros [|]; [apply adds_ret | exact IH].
Qed.

End Effects.

Section StrategyEffects.

Context {W : Type} (host : Host W).

Lemma adds_eprint (line : string) (P : event -> Prop) :
  P (EvStderr line) -> adds (W := W) (_eprint line) P.
Proof. apply adds_emit. Qed.

Lemma validator_adds (self : PkgSystem) (name build_id : string) :
  __verbose self = 0 ->
  adds (build_id_is_valid host self name build_id) query_event.
Proof.
  intros Hv. unfold build_id_is_valid. rewrite Hv. cbn [truthy Z.eqb negb].
  apply adds_bind; [apply adds_exists; exact I |]. intros found.
  destruct found; cbn [negb].
  - apply adds_bind; [apply adds_readlink; exact I |]. intros target.
    match goal with |- adds (if ?c then _ else _) _ => destruct c end.
    + apply adds_bind; [apply adds_ret | intros _; apply adds_ret].
    + apply adds_ret.
  - apply adds_bind; [apply adds_ret | intros _; apply adds_ret].
Qed.

Lemma pkg_exists_adds (self : PkgSystem) (name pkg_nvr build_id : string) :
  __verbose self = 0 ->
  adds (pkg_exists host self name pkg_nvr build_id) query_event.
Proof.
  intros Hv. unfold pkg_exists.
  apply adds_bind.
  { apply adds_call. intros a Ha. cbn [argv_strings] in Ha.
    destruct (__pkgr_path self) as [rpm |]; [| discriminate Ha].
    injection Ha as <-. left. exists rpm, pkg_nvr. reflexivity. }
  intros rc. destruct (negb (rc =? 0)); [apply adds_ret |].
  destruct (PyStr.falsy build_id).
  - rewrite Hv. cbn [truthy Z.eqb negb].
    apply adds_bind; [apply adds_ret | intros _; apply adds_ret].
  - apply validator_adds. exact Hv.
Qed.

Lemma pkg_install_adds (self : PkgSystem) (name pkg_nvr build_id : string) :
  well_formed self ->
  adds (pkg_install host self name pkg_nvr build_id) query_event.
Proof.
  intros (Hv & Hdbg & _). unfold pkg_install.
  apply adds_bind.
  { apply adds_call. intros a Ha. cbn [argv_strings] in Ha.
    destruct (__pkgmgr_path self) as [mgr |]; [| discriminate Ha].
    injection Ha as <-. right. left. exists mgr, pkg_nvr. reflexivity. }
  intros rc. destruct (negb (rc =? 0)); [apply adds_ret |].
  destruct (PyStr.falsy build_id).
  - rewrite Hv. cbn [truthy Z.eqb negb].
    apply adds_bind; [apply adds_ret | intros _; apply adds_ret].
  - apply adds_bind.
    + apply adds_call. intros a Ha.
      destruct Hdbg as [Hdbg | [word Hdbg]]; rewrite Hdbg in Ha;
        cbn [app argv_strings] in Ha.
      * destruct (__pkgmgr_path self) as [mgr |]; [| discriminate Ha].
        injection Ha as <-. right. right. left. exists mgr, pkg_nvr.
        reflexivity.
      * destruct word as [tool |]; [| discriminate Ha].
        injection Ha as <-. right. right. right. left. exists tool, pkg_nvr.
        reflexivity.
    + intros rc2. destruct (negb (rc2 =? 0)); [apply adds_ret |].
      apply validator_adds. exact Hv.
Qed.

Lemma query_is_strategy (e : event) : query_event e -> strategy_event e.
Proof. destruct e; simpl; intros H; try exact H; contradiction. Qed.

Lemma record_download_well_formed (arch : string) (self : PkgSystem) :
  token Re.word arch -> well_formed self ->
  well_formed (record_download arch self).
Proof.
  intros Ha (Hv & Hdbg & _). unfold well_formed, record_download. simpl.
  split; [exact Hv |]. split; [exact Hdbg |].
  right. split; [reflexivity |]. exists arch. split; [exact Ha | reflexivity].
Qed.

(** The arch a match of the nvr pattern captures is a run of word
    characters. *)
Lemma nvra_arch_token (pkg_nvr : string) (m : Re.match_object) :
  Re.match_ nvra_regexp pkg_nvr = Some m ->
  token Re.word (fmt_opt (Re.group m 4)).
Proof.
  intros H.
  destruct (nvra_regexp_match_shape pkg_nvr m H)
    as (n & v & r & a & e & (_ & _ & _ & Ha) & _ & _ & _ & _ & _ & ->).
  exact Ha.
Qed.

Lemma download_returns (self : PkgSystem) (name pkg_nvr build_id : string) :
  returns (pkg_download_and_install host self name pkg_nvr build_id)
    (fun rs => rs = (0, self)
               \/ exists m, Re.match_ nvra_regexp pkg_nvr = Some m
                            /\ snd rs
                               = record_download (fmt_opt (Re.group m 4)) self).
Proof.
  unfold pkg_download_and_install.
  match goal with |- returns (if ?c then _ else _) _ => destruct c end.
  { eapply returns_bind; [apply returns_any |]. intros _ _.
    apply returns_ret. left. reflexivity. }
  destruct (Re.match_ nvra_regexp pkg_nvr) as [m |] eqn:Em.
  2:{ eapply returns_bind; [apply returns_any |]. intros _ _.
      apply returns_ret. left. reflexivity. }
  cbv zeta.
  eapply returns_bind; [apply returns_any |]. intros _ _.
  eapply returns_bind; [apply returns_any |]. intros rc _.
  destruct (negb (rc =? 0)).
  { eapply returns_bind; [apply returns_any |]. intros _ _.
    apply returns_ret. left. reflexivity. }
  eapply returns_bind; [apply returns_any |]. intros found _.
  eapply returns_bind; [apply returns_any |]. intros _ _.
  eapply returns_bind; [apply returns_any |]. intros rc2 _.
  destruct (negb (rc2 =? 0)).
  { eapply returns_bind; [apply returns_any |]. intros _ _.
    apply returns_ret. right. exists m. split; reflexivity. }
  eapply returns_bind; [apply returns_any |]. intros r _.
  apply returns_ret. right. exists m. split; reflexivity.
Qed.

Lemma download_keeps_well_formed (self : PkgSystem)
    (name pkg_nvr build_id : string) :
  well_formed self ->
  returns (pkg_download_and_install host self name pkg_nvr build_id)
    (fun rs => well_formed (snd rs)).
Proof.
  intros Hw st rs st' H.
  destruct (download_returns self name pkg_nvr build_id st rs st' H)
    as [-> | (m & Hm & ->)]; [exact Hw |].
  apply record_download_well_formed; [| exact Hw].
  exact (nvra_arch_token pkg_nvr m Hm).
Qed.

Lemma prefix_app_same (p s : string) : String.prefix p (p ++ s) = true.
Proof. apply prefix_split. exists s. reflexivity. Qed.

Lemma download_adds (self : PkgSystem) (name pkg_nvr build_id : string) :
  well_formed self ->
  adds (pkg_download_and_install host self name pkg_nvr build_id)
    strategy_event.
Proof.
  intros Hw. unfold pkg_download_and_install.
  match goal with |- adds (if ?c then _ else _) _ => destruct c end.
  { apply adds_bind; [apply adds_eprint; exact I | intros _; apply adds_ret]. }
  destruct (Re.match_ nvra_regexp pkg_nvr) as [m |] eqn:Em.
  2:{ apply adds_bind; [apply adds_eprint; exact I | intros _; apply adds_ret]. }
  pose proof (nvra_arch_token pkg_nvr m Em) as Harch.
  cbv zeta.
  apply adds_bind; [apply adds_eprint; exact I |]. intros _.
  apply adds_bind.
  { apply adds_call. intros a Ha. cbn [argv_strings] in Ha.
    injection Ha as <-. do 4 right. left.
    eexists. split; [reflexivity |]. exact (prefix_app_same koji_packages _). }
  intros rc. destruct (negb (rc =? 0)).
  { apply adds_bind; [apply adds_eprint; exact I | intros _; apply adds_ret]. }
  apply adds_bind; [apply adds_exists; exact I |]. intros found.
  apply adds_bind.
  { destruct (negb found); [| apply adds_ret].
    apply adds_update. split; [reflexivity |].
    exists (fmt_opt (Re.group m 4)). split; [exact Harch | reflexivity]. }
  intros _.
  apply adds_bind.
  { apply adds_call. intros a Ha. cbn [argv_strings] in Ha.
    injection Ha as <-. do 5 right.
    exists (fmt_opt (Re.group m 4)). split; [exact Harch | reflexivity]. }
  intros rc2. destruct (negb (rc2 =? 0)).
  { apply adds_bind; [apply adds_eprint; exact I | intros _; apply adds_ret]. }
  apply adds_bind; [| intros r; apply adds_ret].
  eapply adds_weaken; [apply pkg_install_adds | exact query_is_strategy].
  exact (record_download_well_formed _ self Harch Hw).
Qed.

Lemma main_loop_effects (packages : list descriptor) (pkgsys : PkgSystem) :
  well_formed pkgsys ->
  adds (main_loop host pkgsys packages) strategy_event
  /\ returns (main_loop host pkgsys packages) well_formed.
Proof.
  revert pkgsys. induction packages as [| [[name pkg_nvr] build_id] rest IH];
    intros pkgsys Hw.
  { split; [apply adds_ret | apply returns_ret; exact Hw]. }
  cbn [main_loop]. split.
  - apply adds_bind.
    { eapply adds_weaken; [apply pkg_exists_adds; apply Hw
                          | exact query_is_strategy]. }
    intros r1. destruct (truthy r1); [apply IH; exact Hw |].
    apply adds_bind.
    { eapply adds_weaken; [apply pkg_install_adds; exact Hw
                          | exact query_is_strategy]. }
    intros r2.
    destruct (truthy r2); [apply IH; exact Hw |].
    apply adds_bind_returns with (Q := fun rs => well_formed (snd rs));
      [apply download_adds; exact Hw
      | apply download_keeps_well_formed; exact Hw |].
    intros [r3 pkgsys'] Hw'. cbn [snd] in Hw'.
    destruct (truthy r3); [apply IH; exact Hw' |].
    apply adds_bind; [apply adds_eprint; exact I | intros _; apply adds_exit].
  - eapply returns_bind; [apply returns_any |]. intros r1 _.
    destruct (truthy r1); [apply IH; exact Hw |].
    eapply returns_bind; [apply returns_any |]. intros r2 _.
    destruct (truthy r2); [apply IH; exact Hw |].
    eapply returns_bind; [apply download_keeps_well_formed; exact Hw |].
    intros [r3 pkgsys'] Hw'. cbn [snd] in Hw'.
    destruct (truthy r3); [apply IH; exact Hw' |].
    eapply returns_bind; [apply returns_any |]. intros _ _. apply returns_exit.
Qed.

End StrategyEffects.

Section MainEffects.

Context {W : Type} (host : Host W).

Lemma usage_adds {A : Type} (argv : sys_argv) (P : event -> Prop) :
  (forall line, P (EvStderr line)) -> adds (W := W) (A := A) (_usage argv) P.
Proof.
  intros H. unfold _usage.
  apply adds_bind; [apply adds_eprint; apply H | intros _; apply adds_exit].
Qed.

Lemma handle_adds (argv : sys_argv) (P : event -> Prop) :
  (forall line, P (EvStderr line)) ->
  adds (W := W) (_handle_command_line argv) P.
Proof.
  intros H. unfold _handle_command_line.
  destruct (S (length (args argv)) <? 4)%nat; [apply usage_adds; exact H |].
  destruct (Getopt.getopt (args argv) "v" longopts) as [[opts pargs] | err].
  - destruct (fold_left assign_option opts (0, "", "", ""))
      as [[[verbose name] pkg_nvr] build_id].
    destruct pargs; [| apply usage_adds; exact H].
    match goal with |- adds (if ?c then _ else _) _ => destruct c end;
      [| apply adds_ret].
    apply adds_bind; [apply adds_eprint; apply H |].
    intros _. apply usage_adds; exact H.
  - apply adds_bind; [apply adds_eprint; apply H |].
    intros _. apply usage_adds; exact H.
Qed.

Lemma platform_adds (P : event -> Prop) :
  adds (platform_linux_distribution host) P.
Proof.
  apply adds_nothing. intros st. unfold platform_linux_distribution.
  destruct (linux_distribution host (world st)); reflexivity.
Qed.

Lemma init_adds (verbose : Z) : adds (__init__ host verbose) init_event.
Proof.
  assert (Hw : forall cmd, adds (which host cmd) init_event)
    by (intros cmd; apply adds_which; intros p; exact I).
  unfold __init__.
  apply adds_bind; [apply Hw |]. intros lsb_release.
  apply adds_bind.
  { destruct lsb_release as [lsb |]; [| apply adds_ret].
    apply adds_bind.
    - apply adds_except. apply adds_bind; [| intros out; apply adds_ret].
      apply adds_check_output. exists lsb. left. reflexivity.
    - intros self1. apply adds_except.
      apply adds_bind; [| intros out; apply adds_ret].
      apply adds_check_output. exists lsb. right. reflexivity. }
  intros self1. apply adds_bind.
  { destruct (is_None (__distro_id self1)); [| apply adds_ret].
    apply adds_bind; [apply platform_adds | intros d; apply adds_ret]. }
  intros self2. apply adds_bind.
  { destruct (is_None (__release self2)); [| apply adds_ret].
    apply adds_bind; [apply platform_adds | intros d; apply adds_ret]. }
  intros self3. apply adds_bind; [apply Hw |]. intros rpm. cbv zeta.
  match goal with |- adds (if ?c then _ else _) _ => destruct c end.
  { apply adds_bind; [apply adds_eprint; exact I | intros _; apply adds_exit]. }
  apply adds_bind; [apply Hw |]. intros dnf. cbv zeta.
  apply adds_bind.
  { match goal with |- adds (if ?c then _ else _) _ => destruct c end;
      [| apply adds_ret].
    apply adds_bind; [apply Hw |]. intros yum. cbv zeta.
    apply adds_bind; [apply Hw | intros dbg; apply adds_ret]. }
  intros self4.
  match goal with |- adds (if ?c then _ else _) _ => destruct c end.
  { apply adds_bind; [apply adds_eprint; exact I | intros _; apply adds_exit]. }
  apply adds_bind; [apply Hw | intros wget; apply adds_ret].
Qed.

Lemma constructed_well_formed (self : PkgSystem) :
  constructed self -> well_formed self.
Proof.
  intros (Hv & _ & _ & _ & _ & Hdbg & Hr & Hd).
  split; [exact Hv |]. split; [exact Hdbg |]. left. split; assumption.
Qed.

Lemma main_packages_adds (name pkg_nvr build_id : string) (P : event -> Prop) :
  adds (main_packages host name pkg_nvr build_id) P.
Proof.
  apply adds_nothing. intros st. unfold main_packages.
  destruct (Re.match_ kernel_regexp name); [| reflexivity].
  unfold bind, re_sub.
  destruct (Re.sub (re_sub_general host) name (name ++ "-devel") pkg_nvr);
    reflexivity.
Qed.

Lemma cleanup_adds (self : PkgSystem) :
  well_formed self -> adds (cleanup host self) cleanup_event.
Proof.
  intros (_ & _ & Hrec). unfold cleanup.
  destruct Hrec as [[-> ->] | (-> & arch & Ha & ->)].
  - cbn [PyStr.falsy negb].
    apply adds_bind; [apply adds_ret | intros _; apply adds_ret].
  - apply adds_bind.
    + unfold repo_file. cbn [PyStr.falsy negb].
      apply adds_update. reflexivity.
    + intros _. cbn [append PyStr.falsy negb].
      apply adds_update. exists arch. split; [exact Ha | reflexivity].
Qed.

Lemma strategy_is_main_event (e : event) : strategy_event e -> main_event e.
Proof. destruct e; simpl; intros H; try exact H; try contradiction. Qed.

Lemma init_is_main_event (e : event) : init_event e -> main_event e.
Proof. destruct e; simpl; intros H; try exact H; try contradiction; exact I. Qed.

Lemma cleanup_is_main_event (e : event) : cleanup_event e -> main_event e.
Proof. destruct e; simpl; intros H; try exact H; try contradiction. Qed.

Lemma main_adds (argv : sys_argv) : adds (main host argv) main_event.
Proof.
  unfold main.
  apply adds_bind; [apply handle_adds; intros line; exact I |].
  intros [[[verbose name] pkg_nvr] build_id].
  apply adds_bind; [apply adds_update; reflexivity |]. intros _.
  apply adds_bind; [apply main_packages_adds |]. intros packages.
  apply adds_bind_returns with (Q := well_formed).
  { eapply adds_weaken; [apply init_adds | exact init_is_main_event]. }
  { intros st self st' H.
    exact (constructed_well_formed self (init_returns host verbose st self st' H)). }
  intros pkgsys Hw.
  destruct (main_loop_effects host packages pkgsys Hw) as [Hadds Hret].
  apply adds_bind_returns with (Q := well_formed);
    [eapply adds_weaken; [exact Hadds | exact strategy_is_main_event]
    | exact Hret |].
  intros pkgsys' Hw'.
  apply adds_bind.
  { destruct (truthy verbose); [apply adds_emit; reflexivity | apply adds_ret]. }
  intros _. apply adds_bind; [| intros _; apply adds_exit].
  eapply adds_weaken; [apply cleanup_adds; exact Hw' | exact cleanup_is_main_event].
Qed.

(** X11. Whatever the command line and the machine, the only file a
    run of [main] writes or removes is [/etc/yum.repos.d/local.repo], the
    text written is that of the local repository over [/root/<arch>], the
    only tree removed is [/root/<arch>], [arch] a run of word characters,
    and the only directory entered is [/root]. *)
Theorem main_file_operations (argv : sys_argv) (st : state W) :
  exists added,
    trace (snd (main host argv st)) = (trace st ++ added)%list
    /\ (forall p content,
          In (EvWrite p content) added ->
          p = "/etc/yum.repos.d/local.repo"
          /\ exists arch, token Re.word arch
                          /\ content = local_repo_text ("/root/" ++ arch))
    /\ (forall p, In (EvRemove p) added -> p = "/etc/yum.repos.d/local.repo")
    /\ (forall p, In (EvRmtree p) added ->
                  exists arch, token Re.word arch /\ p = "/root/" ++ arch)
    /\ (forall p, In (EvChdir p) added -> p = "/root").
Proof.
  destruct (main_adds argv st) as (added & E & F).
  exists added. split; [exact E |].
  rewrite Forall_forall in F.
  split; [intros p content H; exact (F _ H) |].
  split; [intros p H; exact (F _ H) |].
  split; intros p H; exact (F _ H).
Qed.

(** X12. Whatever the command line and the machine, every command a
    run of [main] executes is a package query, an install, a debuginfo
    install, the [wget] download from the koji package site or
    [createrepo_c], and the only output read is that of [lsb_release -is]
    and [lsb_release -rs]. *)
Theorem main_commands (argv : sys_argv) (st : state W) :
  exists added,
    trace (snd (main host argv st)) = (trace st ++ added)%list
    /\ (forall command, In (EvCall command) added -> script_command command)
    /\ (forall command,
          In (EvCheckOutput command) added ->
          exists lsb, command = [lsb; "-is"] \/ command = [lsb; "-rs"]).
Proof.
  destruct (main_adds argv st) as (added & E & F).
  exists added. split; [exact E |].
  rewrite Forall_forall in F.
  split; intros command H; exact (F _ H).
Qed.

End MainEffects.

(** ** Standard output *)

Lemma stdout_lines_app (l1 l2 : list event) :
  stdout_lines (l1 ++ l2) = (stdout_lines l1 ++ stdout_lines l2)%list.
Proof.
  induction l1 as [| e l1 IH]; [reflexivity |].
  destruct e; cbn [app stdout_lines]; rewrite IH; reflexivity.
Qed.

Lemma silent_stdout (l : list event) : Forall silent l -> stdout_lines l = [].
Proof.
  induction 1 as [| e l He _ IH]; [reflexivity |].
  destruct e; try contradiction; exact IH.
Qed.

Section MainOutput.

Context {W : Type} (host : Host W).

Lemma silent_prints {A : Type} (c : M W A) :
  adds c silent -> prints_at_most_success c.
Proof.
  intros H st. destruct (H st) as (added & E & F).
  exists added. split; [exact E | left; exact (silent_stdout added F)].
Qed.

Lemma silent_then_prints {A B : Type} (c : M W A) (f : A -> M W B)
    (Q : A -> Prop) :
  adds c silent -> returns c Q ->
  (forall a, Q a -> prints_at_most_success (f a)) ->
  prints_at_most_success (bind c f).
Proof.
  intros Hc Hq Hf st. destruct (Hc st) as (l1 & E1 & F1). unfold bind.
  destruct (c st) as [[a | n | e] st1] eqn:Ec; cbn [snd] in *.
  - destruct (Hf a (Hq _ _ _ Ec) st1) as (l2 & E2 & F2).
    exists (l1 ++ l2)%list. rewrite E2, E1, app_assoc.
    split; [reflexivity |].
    rewrite stdout_lines_app, (silent_stdout l1 F1). exact F2.
  - exists l1. split; [exact E1 | left; exact (silent_stdout l1 F1)].
  - exists l1. split; [exact E1 | left; exact (silent_stdout l1 F1)].
Qed.

Lemma strategy_is_silent (e : event) : strategy_event e -> silent e.
Proof. destruct e; simpl; intros H; try exact I; contradiction. Qed.

Lemma init_is_silent (e : event) : init_event e -> silent e.
Proof. destruct e; simpl; intros H; try exact I; contradiction. Qed.

Lemma cleanup_is_silent (e : event) : cleanup_event e -> silent e.
Proof. destruct e; simpl; intros H; try exact I; contradiction. Qed.

(** X13. Whatever the command line, the verbosity and the machine, a
    run of [main] prints nothing on standard output, or the one line [All
    packages installed.] *)
Theorem main_standard_output (argv : sys_argv) (st : state W) :
  exists added,
    trace (snd (main host argv st)) = (trace st ++ added)%list
    /\ (stdout_lines added = []
        \/ stdout_lines added = ["All packages installed."]).
Proof.
  enough (H : prints_at_most_success (main host argv)) by exact (H st).
  unfold main.
  apply silent_then_prints with (Q := fun _ => True);
    [apply handle_adds; intros line; exact I | apply returns_any |].
  intros [[[verbose name] pkg_nvr] build_id] _.
  apply silent_then_prints with (Q := fun _ => True);
    [apply adds_update; exact I | apply returns_any |].
  intros _ _.
  apply silent_then_prints with (Q := fun _ => True);
    [apply main_packages_adds | apply returns_any |].
  intros packages _.
  apply silent_then_prints with (Q := well_formed).
  { eapply adds_weaken; [apply init_adds | exact init_is_silent]. }
  { intros st0 self st' H.
    exact (constructed_well_formed self
             (init_returns host verbose st0 self st' H)). }
  intros pkgsys Hw.
  destruct (main_loop_effects host packages pkgsys Hw) as [Hadds Hret].
  apply silent_then_prints with (Q := well_formed);
    [eapply adds_weaken; [exact Hadds | exact strategy_is_silent]
    | exact Hret |].
  intros pkgsys' Hw'.
  assert (Htail : adds (cleanup host pkgsys' ;; sys_exit (A := unit) 0) silent).
  { apply adds_bind; [| intros _; apply adds_exit].
    eapply adds_weaken; [apply cleanup_adds; exact Hw' | exact cleanup_is_silent]. }
  destruct (truthy verbose).
  - intros st0. unfold bind at 1. unfold print, emit. cbn [world trace].
    destruct (Htail (State (world st0) (trace st0 ++ [EvStdout "All packages installed."])))
      as (l & E & F).
    cbn [trace] in E.
    exists ([EvStdout "All packages installed."] ++ l)%list.
    rewrite E, app_assoc. split; [reflexivity |].
    right. cbn [app stdout_lines]. rewrite (silent_stdout l F). reflexivity.
  - apply silent_then_prints with (Q := fun _ => True);
      [apply adds_ret | apply returns_any |].
    intros _ _. apply silent_prints. exact Htail.
Qed.

End MainOutput.

(** ** How a run ends *)

Section Exits.

Context {W : Type} (host : Host W).

Lemma exits_bind {A B : Type} (c : M W A) (f : A -> M W B) (S : Z -> state W -> Prop) :
  exits c S -> (forall a, exits (f a) S) -> exits (bind c f) S.
Proof.
  intros Hc Hf st code st' H. unfold bind in H.
  destruct (c st) as [[a | n | e] st1] eqn:Ec.
  - exact (Hf a _ _ _ H).
  - injection H as <- <-. exact (Hc _ _ _ Ec).
  - discriminate H.
Qed.

Lemma exits_weaken {A : Type} (c : M W A) (S S' : Z -> state W -> Prop) :
  exits c S -> (forall n s, S n s -> S' n s) -> exits c S'.
Proof. intros H HS st code st' E. exact (HS _ _ (H _ _ _ E)). Qed.

Lemma exits_ret {A : Type} (a : A) (S : Z -> state W -> Prop) : exits (W := W) (ret a) S.
Proof. intros st code st' H. discriminate H. Qed.

Lemma exits_exit {A : Type} (code : Z) (S : Z -> state W -> Prop) :
  (forall st, S code st) -> exits (W := W) (A := A) (sys_exit code) S.
Proof. intros HS st n st' H. injection H as <- <-. apply HS. Qed.

Lemma exits_fatal {A : Type} (line : string) :
  exits (W := W) (A := A) (_eprint line ;; sys_exit 1) fatal.
Proof.
  intros st code st' H. unfold bind, _eprint, emit, sys_exit in H.
  injection H as <- <-. split; [reflexivity |].
  exists (trace st), line. reflexivity.
Qed.

Lemma exits_emit (e : event) (S : Z -> state W -> Prop) : exits (W := W) (emit e) S.
Proof. intros st code st' H. discriminate H. Qed.

Lemma exits_exists (p : string) (S : Z -> state W -> Prop) :
  exits (os_path_exists host p) S.
Proof. intros st code st' H. discriminate H. Qed.

Lemma exits_readlink (p : string) (S : Z -> state W -> Prop) :
  exits (os_readlink host p) S.
Proof.
  intros st code st' H. unfold os_readlink in H.
  destruct (readlink host (world st) p); discriminate H.
Qed.

Lemma exits_update (e : event) (op : W -> option W) (S : Z -> state W -> Prop) :
  exits (os_update e op) S.
Proof.
  intros st code st' H. unfold os_update in H.
  destruct (op (world st)); discriminate H.
Qed.

Lemma exits_call (argv : list (option string)) (S : Z -> state W -> Prop) :
  exits (subprocess_call host argv) S.
Proof.
  intros st code st' H. unfold subprocess_call in H.
  destruct (argv_strings argv) as [a |]; [| discriminate H].
  destruct (call host (world st) a) as [[rc w'] |]; discriminate H.
Qed.

Lemma exits_check_output (argv : list string) (S : Z -> state W -> Prop) :
  exits (subprocess_check_output host argv) S.
Proof.
  intros st code st' H. unfold subprocess_check_output in H.
  destruct (check_output host (world st) argv) as [[out | |] w'];
    discriminate H.
Qed.

Lemma exits_except {A : Type} (body : M W A) (dflt : A) (S : Z -> state W -> Prop) :
  exits body S -> exits (except_CalledProcessError_pass body dflt) S.
Proof.
  intros Hb st code st' H. unfold except_CalledProcessError_pass in H.
  destruct (body st) as [[a | n | e] st1] eqn:Eb.
  - discriminate H.
  - injection H as <- <-. exact (Hb _ _ _ Eb).
  - destruct e; discriminate H.
Qed.

Lemma exits_platform (S : Z -> state W -> Prop) :
  exits (platform_linux_distribution host) S.
Proof.
  intros st code st' H. unfold platform_linux_distribution in H.
  destruct (linux_distribution host (world st)); discriminate H.
Qed.

Lemma exits_which (cmd : string) (S : Z -> state W -> Prop) : exits (which host cmd) S.
Proof.
  unfold which. apply exits_bind.
  - intros st code st' H. unfold os_environ_PATH in H.
    destruct (environ_PATH host (world st)); discriminate H.
  - intros PATH. induction (PyStr.split ":" PATH) as [| d rest IH].
    + apply exits_ret.
    + cbn [which_in]. apply exits_bind; [apply exits_exists |].
      intros [|]; [apply exits_ret | exact IH].
Qed.

Lemma validator_exits (self : PkgSystem) (name build_id : string)
    (S : Z -> state W -> Prop) :
  exits (build_id_is_valid host self name build_id) S.
Proof.
  unfold build_id_is_valid.
  apply exits_bind; [apply exits_exists |]. intros found.
  destruct (negb found).
  - apply exits_bind; [| intros _; apply exits_ret].
    destruct (truthy (__verbose self)); [apply exits_emit | apply exits_ret].
  - apply exits_bind; [apply exits_readlink |]. intros target.
    match goal with |- exits (if ?c then _ else _) _ => destruct c end;
      [| apply exits_ret].
    apply exits_bind; [| intros _; apply exits_ret].
    destruct (truthy (__verbose self)); [apply exits_emit | apply exits_ret].
Qed.

Lemma pkg_exists_exits (self : PkgSystem) (name pkg_nvr build_id : string)
    (S : Z -> state W -> Prop) :
  exits (pkg_exists host self name pkg_nvr build_id) S.
Proof.
  unfold pkg_exists. apply exits_bind; [apply exits_call |]. intros rc.
  destruct (negb (rc =? 0)); [apply exits_ret |].
  destruct (PyStr.falsy build_id); [| apply validator_exits].
  apply exits_bind; [| intros _; apply exits_ret].
  destruct (truthy (__verbose self)); [apply exits_emit | apply exits_ret].
Qed.

Lemma pkg_install_exits (self : PkgSystem) (name pkg_nvr build_id : string)
    (S : Z -> state W -> Prop) :
  exits (pkg_install host self name pkg_nvr build_id) S.
Proof.
  unfold pkg_install. apply exits_bind; [apply exits_call |]. intros rc.
  destruct (negb (rc =? 0)); [apply exits_ret |].
  destruct (PyStr.falsy build_id).
  - apply exits_bind; [| intros _; apply exits_ret].
    destruct (truthy (__verbose self)); [apply exits_emit | apply exits_ret].
  - apply exits_bind; [apply exits_call |]. intros rc2.
    destruct (negb (rc2 =? 0)); [apply exits_ret | apply validator_exits].
Qed.

Lemma download_exits (self : PkgSystem) (name pkg_nvr build_id : string)
    (S : Z -> state W -> Prop) :
  exits (pkg_download_and_install host self name pkg_nvr build_id) S.
Proof.
  unfold pkg_download_and_install.
  match goal with |- exits (if ?c then _ else _) _ => destruct c end.
  { apply exits_bind; [apply exits_emit | intros _; apply exits_ret]. }
  destruct (Re.match_ nvra_regexp pkg_nvr) as [m |].
  2:{ apply exits_bind; [apply exits_emit | intros _; apply exits_ret]. }
  cbv zeta.
  apply exits_bind; [apply exits_emit |]. intros _.
  apply exits_bind; [apply exits_call |]. intros rc.
  destruct (negb (rc =? 0)).
  { apply exits_bind; [apply exits_emit | intros _; apply exits_ret]. }
  apply exits_bind; [apply exits_exists |]. intros found.
  apply exits_bind.
  { destruct (negb found); [apply exits_update | apply exits_ret]. }
  intros _. apply exits_bind; [apply exits_call |]. intros rc2.
  destruct (negb (rc2 =? 0)).
  { apply exits_bind; [apply exits_emit | intros _; apply exits_ret]. }
  apply exits_bind; [apply pkg_install_exits | intros r; apply exits_ret].
Qed.

Lemma main_loop_exits (packages : list descriptor) (pkgsys : PkgSystem) :
  exits (main_loop host pkgsys packages) fatal.
Proof.
  revert pkgsys. induction packages as [| [[name pkg_nvr] build_id] rest IH];
    intros pkgsys; [apply exits_ret |].
  cbn [main_loop].
  apply exits_bind; [apply pkg_exists_exits |]. intros r1.
  destruct (truthy r1); [apply IH |].
  apply exits_bind; [apply pkg_install_exits |]. intros r2.
  destruct (truthy r2); [apply IH |].
  apply exits_bind; [apply download_exits |]. intros [r3 pkgsys'].
  destruct (truthy r3); [apply IH |].
  apply exits_fatal.
Qed.

Lemma usage_exits_one {A : Type} (argv : sys_argv) :
  exits (W := W) (A := A) (_usage argv) fatal.
Proof.
  unfold _usage. apply exits_fatal.
Qed.

Lemma handle_exits (argv : sys_argv) :
  exits (W := W) (_handle_command_line argv) fatal.
Proof.
  unfold _handle_command_line.
  destruct (S (length (args argv)) <? 4)%nat; [apply usage_exits_one |].
  destruct (Getopt.getopt (args argv) "v" longopts) as [[opts pargs] | err].
  - destruct (fold_left assign_option opts (0, "", "", ""))
      as [[[verbose name] pkg_nvr] build_id].
    destruct pargs; [| apply usage_exits_one].
    match goal with |- exits (if ?c then _ else _) _ => destruct c end;
      [| apply exits_ret].
    apply exits_bind; [apply exits_emit | intros _; apply usage_exits_one].
  - apply exits_bind; [apply exits_emit | intros _; apply usage_exits_one].
Qed.

Lemma init_exits (verbose : Z) :
  exits (__init__ host verbose) fatal.
Proof.
  unfold __init__.
  apply exits_bind; [apply exits_which |]. intros lsb_release.
  apply exits_bind.
  { destruct lsb_release as [lsb |]; [| apply exits_ret].
    apply exits_bind.
    - apply exits_except. apply exits_bind; [| intros out; apply exits_ret].
      apply exits_check_output.
    - intros self1. apply exits_except.
      apply exits_bind; [| intros out; apply exits_ret].
      apply exits_check_output. }
  intros self1. apply exits_bind.
  { destruct (is_None (__distro_id self1)); [| apply exits_ret].
    apply exits_bind; [apply exits_platform | intros d; apply exits_ret]. }
  intros self2. apply exits_bind.
  { destruct (is_None (__release self2)); [| apply exits_ret].
    apply exits_bind; [apply exits_platform | intros d; apply exits_ret]. }
  intros self3. apply exits_bind; [apply exits_which |]. intros rpm. cbv zeta.
  match goal with |- exits (if ?c then _ else _) _ => destruct c end.
  { apply exits_fatal. }
  apply exits_bind; [apply exits_which |]. intros dnf. cbv zeta.
  apply exits_bind.
  { match goal with |- exits (if ?c then _ else _) _ => destruct c end;
      [| apply exits_ret].
    apply exits_bind; [apply exits_which |]. intros yum. cbv zeta.
    apply exits_bind; [apply exits_which | intros dbg; apply exits_ret]. }
  intros self4.
  match goal with |- exits (if ?c then _ else _) _ => destruct c end.
  { apply exits_fatal. }
  apply exits_bind; [apply exits_which | intros wget; apply exits_ret].
Qed.

Lemma main_packages_exits (name pkg_nvr build_id : string) (S : Z -> state W -> Prop) :
  exits (main_packages host name pkg_nvr build_id) S.
Proof.
  intros st code st' H. unfold main_packages in H.
  destruct (Re.match_ kernel_regexp name); [| discriminate H].
  unfold bind, re_sub in H.
  destruct (Re.sub (re_sub_general host) name (name ++ "-devel") pkg_nvr);
    discriminate H.
Qed.

Lemma cleanup_exits (self : PkgSystem) (S : Z -> state W -> Prop) :
  exits (cleanup host self) S.
Proof.
  unfold cleanup. apply exits_bind.
  - match goal with |- exits (if ?c then _ else _) _ => destruct c end;
      [apply exits_update | apply exits_ret].
  - intros _.
    match goal with |- exits (if ?c then _ else _) _ => destruct c end;
      [apply exits_update | apply exits_ret].
Qed.

(** X14. [main] never returns: when a run ends by [sys.exit], the
    status is 0, or it is 1 and the last thing the run did was to print a
    diagnostic on standard error. *)
Theorem main_exit_status (argv : sys_argv) (st : state W) :
  (forall v st', main host argv st <> (Ret v, st'))
  /\ (forall code st',
        main host argv st = (Exit code, st') ->
        code = 0
        \/ (code = 1
            /\ exists before line,
                 trace st' = (before ++ [EvStderr line])%list)).
Proof.
  split.
  - assert (H : returns (main host argv) (fun _ => False)).
    { unfold main.
      eapply returns_bind; [apply returns_any |].
      intros [[[verbose name] pkg_nvr] build_id] _.
      eapply returns_bind; [apply returns_any |]. intros _ _.
      eapply returns_bind; [apply returns_any |]. intros packages _.
      eapply returns_bind; [apply returns_any |]. intros pkgsys _.
      eapply returns_bind; [apply returns_any |]. intros pkgsys' _.
      eapply returns_bind; [apply returns_any |]. intros _ _.
      eapply returns_bind; [apply returns_any |]. intros _ _.
      apply returns_exit. }
    intros v st' E. exact (H st v st' E).
  - assert (H : exits (main host argv)
                  (fun code s => code = 0 \/ fatal code s)).
    { assert (One : forall (n : Z) (s : state W),
                fatal n s -> n = 0 \/ fatal n s)
        by (intros n s F; right; exact F).
      unfold main.
      apply exits_bind; [exact (exits_weaken _ _ _ (handle_exits argv) One) |].
      intros [[[verbose name] pkg_nvr] build_id].
      apply exits_bind; [apply exits_update |]. intros _.
      apply exits_bind; [apply main_packages_exits |]. intros packages.
      apply exits_bind; [exact (exits_weaken _ _ _ (init_exits verbose) One) |].
      intros pkgsys.
      apply exits_bind;
        [exact (exits_weaken _ _ _ (main_loop_exits packages pkgsys) One) |].
      intros pkgsys'.
      apply exits_bind.
      { destruct (truthy verbose); [apply exits_emit | apply exits_ret]. }
      intros _. apply exits_bind; [apply cleanup_exits |]. intros _.
      apply exits_exit. intros s. left. reflexivity. }
    intros code st' E. exact (H st code st' E).
Qed.

End Exits.

(** ** The nvr pattern *)

(** X15. The nvr pattern of the download strategy matches exactly the
    texts [name-version-release.arch], with name and arch non-empty runs of
    word characters and version and release non-empty runs without a
    hyphen, optionally followed by one newline. *)
Theorem nvra_regexp_accepts (s : string) :
  Re.match_ nvra_regexp s <> None
  <-> exists n v r a e,
        nvra_shape n v r a /\ (e = "" \/ e = nl)
        /\ s = nvra_text n v r a ++ e.
Proof.
  split.
  - intros H. destruct (Re.match_ nvra_regexp s) as [m |] eqn:E; [| congruence].
    destruct (nvra_regexp_match_shape s m E)
      as (n & v & r & a & e & Hs & He & Ht & _).
    exists n, v, r, a, e. split; [exact Hs | split; [exact He | exact Ht]].
  - intros (n & v & r & a & e & Hs & He & ->).
    destruct (nvra_regexp_matches n v r a e Hs He) as (m & Hm & _).
    congruence.
Qed.

(** ** The results of the strategies *)

Section StrategyResults.

Context {W : Type} (host : Host W).

Lemma validator_boolean (self : PkgSystem) (name build_id : string) :
  returns (build_id_is_valid host self name build_id) boolean.
Proof.
  unfold build_id_is_valid.
  eapply returns_bind; [apply returns_any |]. intros found _.
  destruct (negb found).
  - eapply returns_bind; [apply returns_any |]. intros _ _.
    apply returns_ret. left. reflexivity.
  - eapply returns_bind; [apply returns_any |]. intros target _.
    match goal with |- returns (if ?c then _ else _) _ => destruct c end.
    + eapply returns_bind; [apply returns_any |]. intros _ _.
      apply returns_ret. left. reflexivity.
    + apply returns_ret. right. reflexivity.
Qed.

Lemma pkg_exists_boolean (self : PkgSystem) (name pkg_nvr build_id : string) :
  returns (pkg_exists host self name pkg_nvr build_id) boolean.
Proof.
  unfold pkg_exists.
  eapply returns_bind; [apply returns_any |]. intros rc _.
  destruct (negb (rc =? 0)); [apply returns_ret; left; reflexivity |].
  destruct (PyStr.falsy build_id); [| apply validator_boolean].
  eapply returns_bind; [apply returns_any |]. intros _ _.
  apply returns_ret. right. reflexivity.
Qed.

Lemma pkg_install_boolean (self : PkgSystem) (name pkg_nvr build_id : string) :
  returns (pkg_install host self name pkg_nvr build_id) boolean.
Proof.
  unfold pkg_install.
  eapply returns_bind; [apply returns_any |]. intros rc _.
  destruct (negb (rc =? 0)); [apply returns_ret; left; reflexivity |].
  destruct (PyStr.falsy build_id).
  - eapply returns_bind; [apply returns_any |]. intros _ _.
    apply returns_ret. right. reflexivity.
  - eapply returns_bind; [apply returns_any |]. intros rc2 _.
    destruct (negb (rc2 =? 0)); [apply returns_ret; left; reflexivity |].
    apply validator_boolean.
Qed.

Lemma download_boolean (self : PkgSystem) (name pkg_nvr build_id : string) :
  returns (pkg_download_and_install host self name pkg_nvr build_id)
    (fun rs => boolean (fst rs)).
Proof.
  unfold pkg_download_and_install.
  match goal with |- returns (if ?c then _ else _) _ => destruct c end.
  { eapply returns_bind; [apply returns_any |]. intros _ _.
    apply returns_ret. left. reflexivity. }
  destruct (Re.match_ nvra_regexp pkg_nvr) as [m |].
  2:{ eapply returns_bind; [apply returns_any |]. intros _ _.
      apply returns_ret. left. reflexivity. }
  cbv zeta.
  eapply returns_bind; [apply returns_any |]. intros _ _.
  eapply returns_bind; [apply returns_any |]. intros rc _.
  destruct (negb (rc =? 0)).
  { eapply returns_bind; [apply returns_any |]. intros _ _.
    apply returns_ret. left. reflexivity. }
  eapply returns_bind; [apply returns_any |]. intros found _.
  eapply returns_bind; [apply returns_any |]. intros _ _.
  eapply returns_bind; [apply returns_any |]. intros rc2 _.
  destruct (negb (rc2 =? 0)).
  { eapply returns_bind; [apply returns_any |]. intros _ _.
    apply returns_ret. left. reflexivity. }
  eapply returns_bind; [apply pkg_install_boolean |]. intros r Hr.
  apply returns_ret. exact Hr.
Qed.

(** X16. The validator and the three strategies return only 0 or 1. *)
Theorem strategies_return_0_or_1 (self : PkgSystem)
    (name pkg_nvr build_id : string) (st st' : state W) (r : Z) :
  (build_id_is_valid host self name build_id st = (Ret r, st') ->
   r = 0 \/ r = 1)
  /\ (pkg_exists host self name pkg_nvr build_id st = (Ret r, st') ->
      r = 0 \/ r = 1)
  /\ (pkg_install host self name pkg_nvr build_id st = (Ret r, st') ->
      r = 0 \/ r = 1)
  /\ (forall self',
        pkg_download_and_install host self name pkg_nvr build_id st
        = (Ret (r, self'), st') ->
        r = 0 \/ r = 1).
Proof.
  split; [exact (validator_boolean self name build_id st r st') |].
  split; [exact (pkg_exists_boolean self name pkg_nvr build_id st r st') |].
  split; [exact (pkg_install_boolean self name pkg_nvr build_id st r st') |].
  intros self' H.
  exact (download_boolean self name pkg_nvr build_id st (r, self') st' H).
Qed.

Lemma argv_strings_none (argv : list (option string)) :
  In None argv -> argv_strings argv = None.
Proof.
  induction argv as [| [a |] argv IH]; intros H.
  - destruct H.
  - destruct H as [H | H]; [discriminate H |].
    cbn [argv_strings]. rewrite (IH H). reflexivity.
  - reflexivity.
Qed.

(** X17. On an object whose debuginfo command holds [None] (a [yum]
    machine without [debuginfo-install]), [pkg_install] with a build id
    installs the package and then raises [TypeError] when it runs the
    debuginfo command: the package stays installed and no result is
    returned. *)
Theorem pkg_install_without_debuginfo_tool (self : PkgSystem)
    (name pkg_nvr build_id mgr : string) (st : state W) (w' : W) :
  __pkgmgr_path self = Some mgr ->
  In None (__debuginfo_install self) ->
  build_id <> "" ->
  call host (world st) [mgr; "install"; "-y"; pkg_nvr] = Some (0, w') ->
  pkg_install host self name pkg_nvr build_id st
  = (Raise TypeError,
     State w' (trace st ++ [EvCall [mgr; "install"; "-y"; pkg_nvr]])).
Proof.
  intros Hmgr Hnone Hbid Hcall. unfold pkg_install. rewrite Hmgr.
  unfold bind at 1. unfold subprocess_call at 1. cbn [argv_strings].
  rewrite Hcall. cbn [Z.eqb negb].
  destruct build_id as [| c build_id]; [congruence |]. cbn [PyStr.falsy].
  unfold bind, subprocess_call.
  rewrite argv_strings_none; [reflexivity |].
  apply in_or_app. left. exact Hnone.
Qed.

(** X18. When the download strategy returns, either the result is 0
    and the object is unchanged, or the nvr had the shape
    [name-version-release.arch] and the object records the repository file
    and the directory [/root/<arch>], whatever the result is. *)
Theorem download_records_repository (self self' : PkgSystem)
    (name pkg_nvr build_id : string) (st st' : state W) (r : Z) :
  pkg_download_and_install host self name pkg_nvr build_id st
  = (Ret (r, self'), st') ->
  (r = 0 /\ self' = self)
  \/ exists n v rel arch e,
       nvra_shape n v rel arch /\ (e = "" \/ e = nl)
       /\ pkg_nvr = nvra_text n v rel arch ++ e
       /\ self' = set_local_rpm_dir ("/root/" ++ arch)
                    (set_local_repo_path "/etc/yum.repos.d/local.repo" self).
Proof.
  intros H.
  destruct (download_returns host self name pkg_nvr build_id st _ st' H)
    as [E | (m & Hm & E)].
  - left. injection E as -> ->. split; reflexivity.
  - right. cbn [snd] in E.
    destruct (nvra_regexp_match_shape pkg_nvr m Hm)
      as (n & v & rel & arch & e & Hs & He & Ht & _ & _ & _ & Hg).
    exists n, v, rel, arch, e. rewrite Hg in E.
    split; [exact Hs |]. split; [exact He |]. split; [exact Ht | exact E].
Qed.

End StrategyResults.

(** ** The download *)

Section Download.

Context {W : Type} (host : Host W).

Lemma eprint_run (line : string) (st : state W) :
  _eprint line st = (Ret tt, State (world st) (trace st ++ [EvStderr line])).
Proof. reflexivity. Qed.

Lemma argv_strings_some (a : list string) :
  argv_strings (map Some a) = Some a.
Proof.
  induction a as [| x a IH]; [reflexivity |].
  cbn [map argv_strings]. rewrite IH. reflexivity.
Qed.

Lemma call_run (a : list string) (w : W) (tr : list event) (rc : Z) (w' : W) :
  call host w a = Some (rc, w') ->
  subprocess_call host (map Some a) (State w tr)
  = (Ret rc, State w' (tr ++ [EvCall a])).
Proof.
  intros H. unfold subprocess_call. rewrite argv_strings_some.
  cbn [world trace]. rewrite H. reflexivity.
Qed.

(** The start of the download strategy on a Fedora object with a downloader,
    for an nvr of the expected shape: the URL is printed and fetched. *)
Lemma download_start (self : PkgSystem)
    (name n v r a e build_id wget dist : string) (st : state W) (rc : Z)
    (w1 : W) :
  __wget_path self = Some wget ->
  __distro_id self = Some (Str dist) ->
  PyStr.lower dist = "fedora" ->
  nvra_shape n v r a -> e = "" \/ e = nl ->
  let pkg_nvr := nvra_text n v r a ++ e in
  let url := koji_packages ++ n ++ "/" ++ v ++ "/" ++ r ++ "/" ++ a in
  call host (world st) (koji_fetch url) = Some (rc, w1) ->
  pkg_download_and_install host self name pkg_nvr build_id st
  = (if negb (rc =? 0) then
       _eprint ("Can't download package '" ++ pkg_nvr ++ "'") ;;
       ret (0, self)
     else
       let self := record_download a self in
       found <- os_path_exists host (__local_repo_path self) ;;
       (if negb found
        then write_text host (__local_repo_path self)
               (local_repo_text (__local_rpm_dir self))
        else ret tt) ;;
       rc <- subprocess_call host
               [Some "createrepo_c"; Some "--quiet"; Some a] ;;
       if negb (rc =? 0) then
         _eprint "Can't run createrepo_c" ;;
         ret (0, self)
       else
         r <- pkg_install host self name pkg_nvr build_id ;;
         ret (r, self))
      (State w1 (trace st ++ [EvStderr ("URL: '" ++ url ++ "'");
                              EvCall (koji_fetch url)])).
Proof.
  intros Hwget Hdist Hlow Hs He pkg_nvr url Hcall.
  unfold pkg_download_and_install. rewrite Hwget, Hdist.
  cbn [is_None text_lower text_ne orb]. rewrite Hlow.
  change (negb (String.eqb "fedora" "fedora")) with false. cbv iota.
  destruct (nvra_regexp_matches n v r a e Hs He)
    as (m & Hm & H1 & H2 & H3 & H4).
  fold pkg_nvr in Hm. rewrite Hm. cbv zeta.
  rewrite H1, H2, H3, H4. cbn [fmt_opt].
  change ("http://kojipkgs.fedoraproject.org/packages/" ++ n ++ "/" ++ v
          ++ "/" ++ r ++ "/" ++ a) with url.
  rewrite (bind_value _ _ _ _ _ (eprint_run _ st)).
  change [Some "wget"; Some "--quiet"; Some "-nH"; Some "--cut-dirs=4";
          Some "-r"; Some "-l"; Some "1"; Some url]
    with (map Some (koji_fetch url)).
  rewrite (bind_value _ _ _ _ _
             (call_run (koji_fetch url) _ _ rc w1 Hcall)).
  rewrite <- app_assoc. reflexivity.
Qed.

(** X19. On a Fedora object with a downloader, for an nvr
    [n-v-r.a], the download strategy prints and fetches the URL
    [http://kojipkgs.fedoraproject.org/packages/n/v/r/a] with the fixed
    [wget] command line; when [wget] fails it prints that the package cannot
    be downloaded and returns 0, with the object unchanged and nothing
    written. *)
Theorem download_fetches_koji_directory (self : PkgSystem)
    (name n v r a e build_id wget dist : string) (st : state W) (rc : Z)
    (w1 : W) :
  __wget_path self = Some wget ->
  __distro_id self = Some (Str dist) ->
  PyStr.lower dist = "fedora" ->
  nvra_shape n v r a -> e = "" \/ e = nl ->
  let pkg_nvr := nvra_text n v r a ++ e in
  let url := "http://kojipkgs.fedoraproject.org/packages/"
             ++ n ++ "/" ++ v ++ "/" ++ r ++ "/" ++ a in
  let fetch := ["wget"; "--quiet"; "-nH"; "--cut-dirs=4"; "-r"; "-l"; "1"; url] in
  call host (world st) fetch = Some (rc, w1) ->
  rc <> 0 ->
  pkg_download_and_install host self name pkg_nvr build_id st
  = (Ret (0, self),
     State w1
       (trace st ++ [EvStderr ("URL: '" ++ url ++ "'"); EvCall fetch;
                     EvStderr ("Can't download package '" ++ pkg_nvr ++ "'")])).
Proof.
  intros Hwget Hdist Hlow Hs He pkg_nvr url fetch Hcall Hrc.
  subst pkg_nvr url fetch.
  rewrite (download_start self name n v r a e build_id wget dist st rc w1
             Hwget Hdist Hlow Hs He Hcall).
  replace (rc =? 0) with false by (symmetry; apply Z.eqb_neq; exact Hrc).
  cbn [negb]. unfold bind, _eprint, emit, ret. cbn [world trace].
  rewrite <- app_assoc. reflexivity.
Qed.

Lemma adds_when (b : bool) (line : string) (P : event -> Prop) :
  P (EvStdout line) ->
  adds (W := W) (if b then print line else ret tt) P.
Proof.
  intros H. destruct b; [apply adds_emit; exact H | apply adds_ret].
Qed.

Lemma validator_no_write (self : PkgSystem) (name build_id : string) :
  adds (build_id_is_valid host self name build_id) no_write.
Proof.
  unfold build_id_is_valid.
  apply adds_bind; [apply adds_exists; exact I |]. intros found.
  destruct found; cbn [negb].
  - apply adds_bind; [apply adds_readlink; exact I |]. intros target.
    match goal with |- adds (if ?c then _ else _) _ => destruct c end.
    + apply adds_bind; [apply adds_when; exact I | intros _; apply adds_ret].
    + apply adds_ret.
  - apply adds_bind; [apply adds_when; exact I | intros _; apply adds_ret].
Qed.

Lemma pkg_install_no_write (self : PkgSystem) (name pkg_nvr build_id : string) :
  adds (pkg_install host self name pkg_nvr build_id) no_write.
Proof.
  unfold pkg_install.
  apply adds_bind; [apply adds_call; intros a _; exact I |].
  intros rc. destruct (negb (rc =? 0)); [apply adds_ret |].
  destruct (PyStr.falsy build_id).
  - apply adds_bind; [apply adds_when; exact I | intros _; apply adds_ret].
  - apply adds_bind; [apply adds_call; intros a _; exact I |].
    intros rc2. destruct (negb (rc2 =? 0)); [apply adds_ret |].
    apply validator_no_write.
Qed.

(** X20. After a successful download, the strategy probes
    [/etc/yum.repos.d/local.repo] and writes it, with the text that points
    at [/root/<arch>], only when it does not exist yet; nothing the strategy
    does afterwards writes a file. *)
Theorem repository_file_written_once (self : PkgSystem)
    (name n v r a e build_id wget dist : string) (st : state W) (w1 : W) :
  __wget_path self = Some wget ->
  __distro_id self = Some (Str dist) ->
  PyStr.lower dist = "fedora" ->
  nvra_shape n v r a -> e = "" \/ e = nl ->
  let pkg_nvr := nvra_text n v r a ++ e in
  let url := "http://kojipkgs.fedoraproject.org/packages/"
             ++ n ++ "/" ++ v ++ "/" ++ r ++ "/" ++ a in
  let fetch := ["wget"; "--quiet"; "-nH"; "--cut-dirs=4"; "-r"; "-l"; "1"; url] in
  let repo := "/etc/yum.repos.d/local.repo" in
  call host (world st) fetch = Some (0, w1) ->
  exists after,
    Forall no_write after
    /\ trace (snd (pkg_download_and_install host self name pkg_nvr build_id st))
       = (trace st
          ++ [EvStderr ("URL: '" ++ url ++ "'"); EvCall fetch; EvExists repo]
          ++ (if path_exists host w1 repo then []
              else [EvWrite repo (local_repo_text ("/root/" ++ a))])
          ++ after)%list.
Proof.
  intros Hwget Hdist Hlow Hs He pkg_nvr url fetch repo Hcall.
  subst pkg_nvr url fetch.
  rewrite (download_start self name n v r a e build_id wget dist st 0 w1
             Hwget Hdist Hlow Hs He Hcall).
  change (negb (0 =? 0)) with false. cbv iota zeta.
  assert (Hrest : adds
            (rc <- subprocess_call host
                     [Some "createrepo_c"; Some "--quiet"; Some a] ;;
             if negb (rc =? 0) then
               _eprint "Can't run createrepo_c" ;;
               ret (0, record_download a self)
             else
               r0 <- pkg_install host (record_download a self)
                       name (nvra_text n v r a ++ e) build_id ;;
               ret (r0, record_download a self))
            no_write).
  { apply adds_bind; [apply adds_call; intros x _; exact I |].
    intros rc. destruct (negb (rc =? 0)).
    - apply adds_bind; [apply adds_eprint; exact I | intros _; apply adds_ret].
    - apply adds_bind; [apply pkg_install_no_write | intros r0; apply adds_ret]. }
  change (__local_repo_path (record_download a self)) with repo.
  change (__local_rpm_dir (record_download a self)) with ("/root/" ++ a).
  unfold bind at 1. unfold os_path_exists at 1. unfold logged.
  cbn [world trace].
  destruct (path_exists host w1 repo); cbn [negb].
  - rewrite bind_ret.
    match goal with |- context [snd (?c ?s)] =>
      destruct (Hrest s) as (after & E & F) end.
    exists after. split; [exact F |]. rewrite E. cbn [trace].
    repeat rewrite <- app_assoc. reflexivity.
  - unfold bind at 1. unfold write_text, os_update. cbn [world trace].
    destruct (write_file host w1 repo (local_repo_text ("/root/" ++ a)))
      as [w2 |].
    + match goal with |- context [snd (?c ?s)] =>
        destruct (Hrest s) as (after & E & F) end.
      exists after. split; [exact F |]. rewrite E. cbn [trace].
      repeat rewrite <- app_assoc. reflexivity.
    + exists []. split; [constructor |]. cbn [snd trace logged world].
      repeat rewrite <- app_assoc. reflexivity.
Qed.

End Download.

(** ** The properties at work on the toy machines *)

Lemma lsb_release_bytes_refuse_download_witness :
  fst (__init__ python3_host 0 (Toy.start workstation))
  = Ret (set_release (Some (Bytes "34"))
           (set_distro_id (Some (Bytes "Fedora")) Toy.pkgsys))
  /\ pkg_download_and_install python3_host
       (set_release (Some (Bytes "34"))
          (set_distro_id (Some (Bytes "Fedora")) Toy.pkgsys))
       "hello" "hello-2.10-1.x86_64" "ffee" (Toy.start workstation)
     = (Ret (0, set_release (Some (Bytes "34"))
                  (set_distro_id (Some (Bytes "Fedora")) Toy.pkgsys)),
        State workstation
          [EvStderr "Can't download package 'hello-2.10-1.x86_64'"]).
Proof.
  split; [reflexivity |].
  destruct (lsb_release_bytes_refuse_download python3_host 0
              (Toy.start workstation)
              (snd (__init__ python3_host 0 (Toy.start workstation)))
              "/usr/bin" "/usr/bin/lsb_release" ("Fedora" ++ nl) workstation
              (set_release (Some (Bytes "34"))
                 (set_distro_id (Some (Bytes "Fedora")) Toy.pkgsys))
              eq_refl eq_refl eq_refl eq_refl) as [_ T].
  exact (T "hello" "hello-2.10-1.x86_64" "ffee" (Toy.start workstation)).
Defined.

Lemma init_without_distribution_witness :
  __init__ python3_host 0 (Toy.start Toy.fedora)
  = (Raise AttributeError,
     State Toy.fedora [EvExists "/usr/bin/lsb_release"]).
Proof.
  exact (init_without_distribution python3_host 0 (Toy.start Toy.fedora)
           "/usr/bin" eq_refl eq_refl eq_refl).
Defined.

Lemma which_first_match_witness :
  which Toy.host "rpm" (Toy.start Toy.fedora)
  = (Ret (Some "/usr/bin/rpm"), State Toy.fedora [EvExists "/usr/bin/rpm"]).
Proof.
  destruct (which_first_match Toy.host "rpm" "/usr/bin"
              (Toy.start Toy.fedora) eq_refl)
    as [(before & d & after & Hs & _ & _ & Hw) | (Hn & _)].
  - destruct before as [| b before].
    + injection Hs as <- _. exact Hw.
    + injection Hs as _ Hs. destruct before; discriminate Hs.
  - specialize (Hn "/usr/bin" (or_introl eq_refl)). discriminate Hn.
Defined.

Lemma init_object_invariants_witness :
  __init__ Toy.host 1 (State Toy.fedora [EvChdir "/root"])
  = (Ret Toy.pkgsys, Toy.at_loop)
  /\ __verbose Toy.pkgsys = 0
  /\ __debuginfo_install Toy.pkgsys
     = [__pkgmgr_path Toy.pkgsys; Some "debuginfo-install"].
Proof.
  split; [reflexivity |].
  destruct (init_object_invariants Toy.host 1
              (State Toy.fedora [EvChdir "/root"]) Toy.at_loop Toy.pkgsys
              eq_refl) as (Hv & _).
  split; [exact Hv | reflexivity].
Defined.

Lemma init_without_lsb_release_witness :
  __init__ Toy.host 1 (Toy.start legacy)
  = (Ret legacy_pkgsys,
     State legacy
       [EvExists "/usr/bin/lsb_release"; EvExists "/usr/bin/rpm";
        EvExists "/usr/bin/dnf"; EvExists "/usr/bin/yum";
        EvExists "/usr/bin/debuginfo-install"; EvExists "/usr/bin/wget"]).
Proof.
  exact (init_without_lsb_release Toy.host 1 (Toy.start legacy)
           "/usr/bin" "Fedora" "34" eq_refl eq_refl eq_refl).
Defined.

Lemma pkg_install_without_debuginfo_tool_witness :
  pkg_install Toy.host legacy_pkgsys "hello" "hello-2.10-1.x86_64" "ffee"
    (Toy.start legacy)
  = (Raise TypeError,
     State (Toy.set_installed ["hello-2.10-1.x86_64"] legacy)
       [EvCall ["/usr/bin/yum"; "install"; "-y"; "hello-2.10-1.x86_64"]]).
Proof.
  apply (pkg_install_without_debuginfo_tool Toy.host legacy_pkgsys
           "hello" "hello-2.10-1.x86_64" "ffee" "/usr/bin/yum"
           (Toy.start legacy)).
  - reflexivity.
  - left. reflexivity.
  - discriminate.
  - reflexivity.
Defined.

Lemma command_line_values_witness :
  (3 <= length (args Toy.kernel_argv))%nat
  /\ exists opts,
       Getopt.getopt (args Toy.kernel_argv) "v" longopts = Getopt.Ok (opts, [])
       /\ fold_left assign_option opts (0, "", "", "")
          = (1, "kernel", "kernel-5.10.0-1.x86_64", "abcdef").
Proof.
  destruct (command_line_values Toy.kernel_argv
              (Toy.start Toy.fedora) (Toy.start Toy.fedora)
              1 "kernel" "kernel-5.10.0-1.x86_64" "abcdef" eq_refl)
    as (_ & _ & _ & _ & _ & Hlen & Hopts).
  split; [exact Hlen | exact Hopts].
Defined.

Lemma usage_forms_accepted_witness :
  _handle_command_line
    (Argv Toy.prog ["-v"; "-v"; "--name"; "bash"; "--pkg";
                    "bash-5.1.0-1.fc34.x86_64"; "--build_id"; "123456"])
    (Toy.start Toy.fedora)
  = (Ret (2, "bash", "bash-5.1.0-1.fc34.x86_64", "123456"),
     Toy.start Toy.fedora)
  /\ _handle_command_line
       (Argv Toy.prog ["--name=bash"; "--pkg=bash-5.1.0-1.fc34.x86_64";
                       "--build_id=123456"])
       (Toy.start Toy.fedora)
     = (Ret (0, "bash", "bash-5.1.0-1.fc34.x86_64", "123456"),
        Toy.start Toy.fedora).
Proof.
  apply (usage_forms_accepted Toy.prog "bash" "bash-5.1.0-1.fc34.x86_64"
           "123456" 2 (Toy.start Toy.fedora)); discriminate.
Defined.

Lemma devel_nvr_of_leading_name_witness :
  main_packages Toy.host "kernel" "kernel-5.10.0-1.x86_64" "abcdef" Toy.at_loop
  = (Ret [("kernel", "kernel-5.10.0-1.x86_64", "abcdef");
          ("kernel-devel", "kernel-devel-5.10.0-1.x86_64", "")],
     Toy.at_loop).
Proof.
  apply (devel_nvr_of_leading_name Toy.host "kernel" "-5.10.0-1.x86_64"
           "abcdef" Toy.at_loop); reflexivity.
Defined.

Lemma devel_nvr_without_name_witness :
  main_packages Toy.host "kernel-debug" "kernel-5.10.0-1.x86_64" "abcdef"
    Toy.at_loop
  = (Ret [("kernel-debug", "kernel-5.10.0-1.x86_64", "abcdef");
          ("kernel-debug-devel", "kernel-5.10.0-1.x86_64", "")],
     Toy.at_loop).
Proof.
  apply (devel_nvr_without_name Toy.host "kernel-debug"
           "kernel-5.10.0-1.x86_64" "abcdef" Toy.at_loop); reflexivity.
Defined.

Lemma download_fetches_koji_directory_witness :
  pkg_download_and_install Toy.host Toy.pkgsys "bash"
    "bash-5.1.0-1.fc34.x86_64" "123456" (Toy.start Toy.fedora)
  = (Ret (0, Toy.pkgsys),
     State Toy.fedora
       [EvStderr "URL: 'http://kojipkgs.fedoraproject.org/packages/bash/5.1.0/1.fc34/x86_64'";
        EvCall ["wget"; "--quiet"; "-nH"; "--cut-dirs=4"; "-r"; "-l"; "1";
                "http://kojipkgs.fedoraproject.org/packages/bash/5.1.0/1.fc34/x86_64"];
        EvStderr "Can't download package 'bash-5.1.0-1.fc34.x86_64'"]).
Proof.
  apply (download_fetches_koji_directory Toy.host Toy.pkgsys "bash"
           "bash" "5.1.0" "1.fc34" "x86_64" "" "123456" "/usr/bin/wget"
           "Fedora" (Toy.start Toy.fedora) 8 Toy.fedora).
  - reflexivity.
  - reflexivity.
  - reflexivity.
  - repeat split; discriminate.
  - left. reflexivity.
  - reflexivity.
  - discriminate.
Defined.

Lemma download_records_repository_witness :
  exists n v rel arch e,
    nvra_shape n v rel arch /\ (e = "" \/ e = nl)
    /\ "hello-2.10-1.x86_64" = nvra_text n v rel arch ++ e
    /\ Toy.recorded
       = set_local_rpm_dir ("/root/" ++ arch)
           (set_local_repo_path "/etc/yum.repos.d/local.repo" Toy.pkgsys).
Proof.
  destruct (download_records_repository Toy.host Toy.pkgsys Toy.recorded
              "hello" "hello-2.10-1.x86_64" "ffee" (Toy.start Toy.fedora)
              (snd (pkg_download_and_install Toy.host Toy.pkgsys
                      "hello" "hello-2.10-1.x86_64" "ffee"
                      (Toy.start Toy.fedora)))
              0 eq_refl) as [[_ H] | H].
  - discriminate H.
  - exact H.
Defined.

Lemma repository_file_written_once_witness :
  exists after,
    Forall no_write after
    /\ trace (snd (pkg_download_and_install Toy.host Toy.pkgsys "hello"
                     "hello-2.10-1.x86_64" "ffee" (Toy.start Toy.fedora)))
       = ([EvStderr "URL: 'http://kojipkgs.fedoraproject.org/packages/hello/2.10/1/x86_64'";
           EvCall ["wget"; "--quiet"; "-nH"; "--cut-dirs=4"; "-r"; "-l"; "1";
                   "http://kojipkgs.fedoraproject.org/packages/hello/2.10/1/x86_64"];
           EvExists "/etc/yum.repos.d/local.repo";
           EvWrite "/etc/yum.repos.d/local.repo"
             (local_repo_text "/root/x86_64")]
          ++ after)%list.
Proof.
  apply (repository_file_written_once Toy.host Toy.pkgsys "hello"
           "hello" "2.10" "1" "x86_64" "" "ffee" "/usr/bin/wget"
           "Fedora" (Toy.start Toy.fedora)
           (Toy.set_files ("/root/x86_64" :: Toy.files Toy.fedora) Toy.fedora)).
  - reflexivity.
  - reflexivity.
  - reflexivity.
  - repeat split; discriminate.
  - left. reflexivity.
  - reflexivity.
Defined.
